(** * Block-cadence stress tests: a shallow embedding

    The scripts of dranastos/CryptosChain drive transaction load against a
    Sei RPC endpoint and sample how fast blocks are produced.  This file
    embeds the block monitors, the load generators and the final analysis of

      - [stress_test_blocktime.py]        (module [Blocktime]),
      - [stress_test_blocktime_fixed.py]  (module [BlocktimeFixed]),
      - [stress_test_20k_tps.py]          (module [HighPerf]),
      - [simple_blocktime_test.py]        (module [Simple]),

    and proves properties of them.  Python integers are [Z]; Python floats
    are the binary64 numbers of [PrimFloat]; a raised exception is a value of
    [result].  Everything the environment decides (RPC answers, clock
    readings, random draws) is an explicit input of the function that
    consumes it; a loop that runs until a deadline is run on the list of
    the iterations that fit before the deadline. *)

From Stdlib Require Import ZArith List Lia Bool Floats Permutation.
From stdpp Require Import gmap strings list sorting.
Import ListNotations.

Set Warnings "-inexact-float,-register-all".

Local Open Scope Z_scope.

(* ===================================================================== *)
(** * The Python runtime the scripts rely on *)
(* ===================================================================== *)

Module Py.

(** The exceptions that the modelled code can meet. *)
Inductive exn : Type :=
| ZeroDivisionError
| OverflowError
| StatisticsError
| ValueError
| KeyError
| IndexError
| TypeError
| ClientError          (* aiohttp / web3 transport failures *)
| SigningError.        (* eth_account failures *)

Inductive result (A : Type) : Type :=
| Ok (a : A)
| Raise (e : exn).
Arguments Ok {A} a.
Arguments Raise {A} e.

Definition bind {A B} (m : result A) (k : A -> result B) : result B :=
  match m with
  | Ok a => k a
  | Raise e => Raise e
  end.

(** [for x in xs: acc = body(acc, x)] with exceptions leaving the loop. *)
Fixpoint foldM {A S} (body : S -> A -> result S) (xs : list A) (s : S)
  : result S :=
  match xs with
  | [] => Ok s
  | x :: xs' => bind (body s x) (foldM body xs')
  end.

(** The nearest binary64 number to an integer (ties to even); infinite
    when the integer is out of range. *)
Definition Z2float (z : Z) : float :=
  SF2Prim (binary_normalize prec emax z 0 false).

(** [float(z)] as the interpreter performs it when an [int] meets a
    [float] in arithmetic: [OverflowError] when [z] is too large. *)
Definition float_of_int (z : Z) : result float :=
  let f := Z2float z in
  if PrimFloat.is_infinity f then Raise OverflowError else Ok f.

(** [x / n] for a float [x] and an int [n]: [n] is converted first, and
    the converted divisor is zero exactly when [n] is. *)
Definition float_truediv_int (x : float) (n : Z) : result float :=
  bind (float_of_int n) (fun d =>
    if n =? 0 then Raise ZeroDivisionError
    else Ok (PrimFloat.div x d)).

Definition SF_of_Z (z : Z) : spec_float :=
  match z with
  | Z0 => S754_zero false
  | Zpos p => S754_finite false p 0
  | Zneg p => S754_finite true p 0
  end.

(** [a / b] for two ints: the correctly rounded quotient,
    [ZeroDivisionError] for [b = 0], [OverflowError] when the quotient
    exceeds the float range. *)
Definition int_truediv (a b : Z) : result float :=
  if b =? 0 then Raise ZeroDivisionError
  else
    let q := SF2Prim (SFdiv prec emax (SF_of_Z a) (SF_of_Z b)) in
    if PrimFloat.is_infinity q then Raise OverflowError else Ok q.

(** [a // b] for two ints: floor division. *)
Definition int_floordiv (a b : Z) : result Z :=
  if b =? 0 then Raise ZeroDivisionError else Ok (a / b).

(** Truth value of an [int]-or-[None] variable, as in [if x:]. *)
Definition truthy (x : option Z) : bool :=
  match x with
  | None => false
  | Some z => negb (z =? 0)
  end.

(** A number held in a Python variable: the scripts mix both kinds. *)
Inductive num : Type :=
| PInt (z : Z)
| PFloat (f : float).

(** [x <= k] and [x >= k] against an integer literal [k].  The literals
    of the scripts (85, 100, 150, 10000, 15000, 18000) are exact floats,
    so the float comparison is the one Python performs. *)
Definition le_lit (x : num) (k : Z) : bool :=
  match x with
  | PInt z => z <=? k
  | PFloat f => (f <=? Z2float k)%float
  end.

Definition ge_lit (x : num) (k : Z) : bool :=
  match x with
  | PInt z => k <=? z
  | PFloat f => (Z2float k <=? f)%float
  end.

Definition lt_lit (x : num) (k : Z) : bool :=
  match x with
  | PInt z => z <? k
  | PFloat f => (f <? Z2float k)%float
  end.

(** [x == z] between a float and an int: exact, as in Python. *)
Definition float_eq_int (f : float) (z : Z) : bool :=
  match Prim2SF f with
  | S754_zero _ => z =? 0
  | S754_finite s m e =>
      let v := if s then Z.neg m else Z.pos m in
      if 0 <=? e then v * 2 ^ e =? z else v =? z * 2 ^ (- e)
  | _ => false
  end.

End Py.

Import Py.

(** [len(l)]. *)
Definition len {A} (l : list A) : Z := Z.of_nat (length l).

#[global] Instance result_ret : MRet result := @Ok.
#[global] Instance result_bind : MBind result :=
  fun A B k m => Py.bind m k.

(* ===================================================================== *)
(** * What one polling tick observes *)
(* ===================================================================== *)

(** One iteration of a monitor's polling loop, seen from outside: the
    answer of [get_block_height], the timestamp of the block that
    [get_block_by_number] would return for that height, and the value that
    [time.perf_counter()] would return.  Each monitor reads the fields its
    code asks for.  A [Raise] stands for any exception of the RPC call
    (transport failure, malformed answer). *)
Record poll : Type := Poll {
  height : result Z;
  block_timestamp : result Z;
  perf_counter : float
}.

(* ===================================================================== *)
(** * Accounts, submissions and the answers of the endpoint *)
(* ===================================================================== *)

(** An entry of [stress_test_accounts.json]. *)
Record account : Type := Account {
  address : string;
  private_key : string
}.

(** [self.tx_results]. *)
Record tx_results : Type := TxResults {
  sent : Z;
  confirmed : Z;
  failed : Z;
  pending : Z
}.

Record transaction : Type := Transaction {
  tx_from : string;
  tx_to : string;
  tx_value : Z;
  tx_gas : Z;
  tx_gasPrice : Z;
  tx_nonce : Z;
  tx_chainId : Z
}.

(** The JSON-RPC request body of one submission. *)
Record payload : Type := Payload {
  method : string;
  params : list string;
  id : Z
}.

(** A decoded JSON document. *)
Inductive json : Type :=
| JNull
| JBool (b : bool)
| JInt (z : Z)
| JFloat (f : float)
| JStr (s : string)
| JList (items : list json)
| JDict (fields : list (string * json)).

(** What [asyncio.gather(..., return_exceptions=True)] hands back for one
    task: an exception object, or a response whose [json()] gives a
    document or raises. *)
Inductive response : Type :=
| Failure
| Answer (body : result json).

(** Everything outside the script that one call of
    [send_transaction_batch] meets: the [i]-th value drawn by
    [random.randint], the signer, and the endpoint. *)
Record batch_env : Type := BatchEnv {
  randint : Z -> Z;
  sign_transaction : transaction -> string -> result string;
  post : payload -> response
}.

(** One call of [send_transaction_batch] scheduled by the sending loop, or
    one [asyncio.sleep] of it. *)
Inductive event : Type :=
| Batch (from_account : account) (nonce_start batch_size : Z)
| Sleep (seconds : float).

(** One iteration of a sending loop as the environment shapes it: the
    accounts [random.sample] returns, what the [k]-th batch of the
    iteration meets, and the wall clock.  [clock_top] and [clock_done] are
    the two [time.time()] readings that [stress_test_20k_tps.py] stores
    ([current_time], [last_batch_time]); [clock_begin] is the instant at
    which the construction of the iteration's batch starts, which no script
    reads. *)
Record round : Type := Round {
  sample : list account;
  envs : nat -> batch_env;
  clock_top : float;
  clock_begin : float;
  clock_done : float
}.

(** [random.sample(population, k)] returned [s]. *)
Definition valid_sample (population : list account) (k : Z)
    (s : list account) : Prop :=
  Z.of_nat (length s) = k /\ s ⊆+ population.

(** The state a sending loop carries from one iteration to the next. *)
Record gen_state : Type := GenState {
  nonce_counters : gmap string Z;
  results : tx_results;
  last_batch_time : float;
  trace : list event
}.

(** ['result' in result] for a decoded document: key membership for a
    dict, element membership for a list, substring test for a string,
    [TypeError] for anything else. *)
Definition contains_result (doc : json) : result bool :=
  match doc with
  | JDict fields => Ok (existsb (fun kv => String.eqb (fst kv) "result") fields)
  | JList items =>
      Ok (existsb (fun x => match x with
                            | JStr s => String.eqb s "result"
                            | _ => false
                            end) items)
  | JStr s => Ok (match String.index 0 "result" s with
                  | Some _ => true
                  | None => false
                  end)
  | _ => Raise TypeError
  end.

Definition add_sent (c : tx_results) : tx_results :=
  {| sent := sent c + 1; confirmed := confirmed c;
     failed := failed c; pending := pending c |}.

Definition add_failed (c : tx_results) : tx_results :=
  {| sent := sent c; confirmed := confirmed c;
     failed := failed c + 1; pending := pending c |}.

(** Whether the body of the [for response in responses] loop takes the
    ['sent'] branch. *)
Definition accepted (r : response) : bool :=
  match r with
  | Failure => false                            (* isinstance(_, Exception) *)
  | Answer body =>
      match body ≫= contains_result with
      | Ok true => true
      | Ok false => false
      | Raise _ => false                        (* bare [except:] *)
      end
  end.

(** The body of the [for response in responses] loop. *)
Definition count_response (c : tx_results) (r : response) : tx_results :=
  if accepted r then add_sent c else add_failed c.

(** The dict [tx] built for index [i] of a batch.  The recipient is
    [self.accounts[random.randint(0, len(self.accounts)-1)]]: [randint]
    raises [ValueError] on the empty range, and any value the environment
    supplies is brought into the range by [mod]. *)
Definition build_transaction (self_accounts : list account)
    (env : batch_env) (from_account : account) (nonce_start i : Z)
  : result transaction :=
  let n := len self_accounts in
  if n =? 0 then Raise ValueError
  else
    match self_accounts !! Z.to_nat (randint env i `mod` n) with
    | None => Raise IndexError
    | Some to =>
        Ok {| tx_from := address from_account;
              tx_to := address to;
              tx_value := 100000000000000;        (* to_wei(0.0001, 'ether') *)
              tx_gas := 21000;
              tx_gasPrice := 10000000000;         (* to_wei('10', 'gwei') *)
              tx_nonce := nonce_start + i;
              tx_chainId := 713714 |}
    end.

(** [signed.rawTransaction.hex()] for index [i]. *)
Definition signed_hex (self_accounts : list account) (env : batch_env)
    (from_account : account) (nonce_start i : Z) : result string :=
  tx ← build_transaction self_accounts env from_account nonce_start i;
  sign_transaction env tx (private_key from_account).

Definition send_raw (tx_hex : string) (i : Z) : payload :=
  {| method := "eth_sendRawTransaction"; params := [tx_hex]; id := i |}.

(** [range(0, stop, step)]. *)
Definition range_step (stop step : nat) : list nat :=
  map (fun k => (k * step)%nat) (seq 0 ((stop + step - 1) / step)%nat).

(** [key in doc] for a decoded document and a string [key] (for
    ['result'] this is [contains_result]), and [doc[key]]: the value held
    under the key by a dict, [KeyError] when the dict lacks it, and
    [TypeError] for a list or a string, whose indices must be integers,
    and for every other document. *)
Definition contains_key (key : string) (doc : json) : result bool :=
  match doc with
  | JDict fields => Ok (existsb (fun kv => String.eqb (fst kv) key) fields)
  | JList items =>
      Ok (existsb (fun x => match x with
                            | JStr s => String.eqb s key
                            | _ => false
                            end) items)
  | JStr s => Ok (match String.index 0 key s with
                  | Some _ => true
                  | None => false
                  end)
  | _ => Raise TypeError
  end.

Definition subscript (doc : json) (key : string) : result json :=
  match doc with
  | JDict fields =>
      match List.find (fun kv => String.eqb (fst kv) key) fields with
      | Some kv => Ok (snd kv)
      | None => Raise KeyError
      end
  | _ => Raise TypeError
  end.

(* ===================================================================== *)
(** * Numbers, statistics and report lines *)
(* ===================================================================== *)

Definition signed (s : bool) (m : positive) : Z :=
  if s then Z.neg m else Z.pos m.

(** [z < f] and [f < z] between an int and a float, exact as in Python. *)
Definition int_lt_float (z : Z) (f : float) : bool :=
  match Prim2SF f with
  | S754_zero _ => z <? 0
  | S754_infinity s => negb s
  | S754_nan => false
  | S754_finite s m e =>
      if 0 <=? e then z <? signed s m * 2 ^ e
      else z * 2 ^ (- e) <? signed s m
  end.

Definition float_lt_int (f : float) (z : Z) : bool :=
  match Prim2SF f with
  | S754_zero _ => 0 <? z
  | S754_infinity s => s
  | S754_nan => false
  | S754_finite s m e =>
      if 0 <=? e then signed s m * 2 ^ e <? z
      else signed s m <? z * 2 ^ (- e)
  end.

(** [x < y] on Python numbers. *)
Definition num_lt (x y : num) : bool :=
  match x, y with
  | PInt a, PInt b => a <? b
  | PFloat a, PFloat b => (a <? b)%float
  | PInt a, PFloat b => int_lt_float a b
  | PFloat a, PInt b => float_lt_int a b
  end.

(** The builtins [max] and [min] on a list: [ValueError] on an empty
    list, otherwise the first greatest (least) element. *)
Definition py_max (data : list num) : result num :=
  match data with
  | [] => Raise ValueError
  | x :: rest => Ok (fold_left (fun m y => if num_lt m y then y else m) rest x)
  end.

Definition py_min (data : list num) : result num :=
  match data with
  | [] => Raise ValueError
  | x :: rest => Ok (fold_left (fun m y => if num_lt y m then y else m) rest x)
  end.

(** [int(f)] for a float: truncation toward zero. *)
Definition int_of_float (f : float) : result Z :=
  match Prim2SF f with
  | S754_zero _ => Ok 0
  | S754_infinity _ => Raise OverflowError
  | S754_nan => Raise ValueError
  | S754_finite s m e =>
      Ok (if 0 <=? e then signed s m * 2 ^ e
          else Z.quot (signed s m) (2 ^ (- e)))
  end.

(** [data[i]]: a negative index counts from the end. *)
Definition index {A} (data : list A) (i : Z) : result A :=
  let j := if i <? 0 then i + len data else i in
  if j <? 0 then Raise IndexError
  else match data !! Z.to_nat j with
       | Some x => Ok x
       | None => Raise IndexError
       end.

(** [sum(1 for t in data if t <= k)]. *)
Definition count_le (data : list num) (k : Z) : Z :=
  len (filter (fun t => le_lit t k = true) data).

(** The functions of Python's [statistics] module that the scripts call.
    They are library code; the class fixes their types and the part of
    their documented behaviour on which the scripts' guards rely:
    [mean] raises [StatisticsError] exactly on empty data, [stdev] exactly
    on fewer than two data points, and neither divides by zero. *)
Class Statistics : Type := {
  mean : list num -> result num;
  stdev : list num -> result num;
  quantiles : list num -> Z -> result (list num);
  mean_StatisticsError :
    forall data, mean data = Raise StatisticsError <-> data = [];
  stdev_StatisticsError :
    forall data, stdev data = Raise StatisticsError <-> (length data < 2)%nat;
  mean_ZeroDivisionError :
    forall data, mean data <> Raise ZeroDivisionError;
  stdev_ZeroDivisionError :
    forall data, stdev data <> Raise ZeroDivisionError
}.

(** The three outcomes of the final verdict, named after the printed
    messages: "MAINTAINED 85ms average block time", "maintained sub-100ms
    block time", and "could not maintain" / "struggled". *)
Inductive tier : Type :=
| Maintained
| Sub100
| NotMaintained.

(** The lines a run prints, with the values they show.  Banners and
    separators are left out. *)
Inductive line : Type :=
| CannotConnect
| BaselineAverage (x : num)
| BaselineStdDev (x : num)
| BaselineMinMax (lo hi : num)
| Average (x : num)
| StdDev (x : num)
| Min (x : num)
| Max (x : num)
| Percentile (p : Z) (x : num)
| Under (limit count total : Z) (percent : float)
| TransactionsSent (n : Z)
| TransactionsFailed (n : Z)
| EffectiveTPS (x : float)
| AchievementRate (x : float)
| Verdict (t : tier)
| LowThroughputNote (x : float)
| TotalBlocks (n : Z)
| MonitoringDuration (n : Z)
| LoadTestStats (requests errors : Z) (rps : float)
| NoNewBlocks.

Definition is_verdict (l : line) : bool :=
  match l with Verdict _ => true | _ => false end.

Definition is_stddev (l : line) : bool :=
  match l with StdDev _ | BaselineStdDev _ => true | _ => false end.

(** [count/total*100] as printed in the performance lines. *)
Definition percent (count total : Z) : result float :=
  q ← int_truediv count total;
  Ok (q * 100)%float.

Definition under (data : list num) (limit : Z) : result line :=
  let count := count_le data limit in
  pc ← percent count (len data);
  Ok (Under limit count (len data) pc).

(* ===================================================================== *)
(** * stress_test_blocktime.py *)
(* ===================================================================== *)

Module Blocktime.

Record monitor_state : Type := MonitorState {
  last_block : Z;
  last_timestamp : option Z;          (* [None] until a block was seen *)
  blocks_produced : Z;
  block_times : list Z
}.

(** The sample recorded for a new block, if any: nothing while
    [last_timestamp] is falsy, 85 when the chain's second-granular
    timestamp did not move, the timestamp difference in ms otherwise. *)
Definition block_sample (last_timestamp : option Z) (current_timestamp : Z)
  : option Z :=
  if truthy last_timestamp then
    match last_timestamp with
    | Some lt =>
        let block_time_s := current_timestamp - lt in
        Some (if block_time_s =? 0 then 85 else block_time_s * 1000)
    | None => None
    end
  else None.

(** The body of the [while] loop of [monitor_blocks] (inside its [try]). *)
Definition poll_step (st : monitor_state) (o : poll) : monitor_state :=
  match height o with
  | Raise _ => st
  | Ok current_block =>
      if last_block st <? current_block then
        match block_timestamp o with
        | Raise _ => st
        | Ok current_timestamp =>
            {| last_block := current_block;
               last_timestamp := Some current_timestamp;
               blocks_produced := blocks_produced st + 1;
               block_times :=
                 match block_sample (last_timestamp st) current_timestamp with
                 | Some block_time_ms => block_times st ++ [block_time_ms]
                 | None => block_times st
                 end |}
        end
      else st
  end.

Definition monitor_blocks (self_block_times : list Z)
    (first : result Z) (polls : list poll) : result (Z * list Z) :=
  h0 ← first;
  let st := fold_left poll_step polls
              {| last_block := h0; last_timestamp := None;
                 blocks_produced := 0; block_times := self_block_times |} in
  Ok (blocks_produced st, block_times st).

(** [send_transaction_batch]: [batch_size] transactions are built and
    signed, their posts are gathered with [return_exceptions=True], and
    every response is counted.  An exception while building or signing
    leaves the function before anything is posted or counted. *)
Definition send_transaction_batch (self_accounts : list account)
    (env : batch_env) (self_tx_results : tx_results)
    (from_account : account) (nonce_start batch_size : Z)
  : result tx_results :=
  tasks ← mapM (fun i =>
                  raw ← signed_hex self_accounts env from_account nonce_start i;
                  Ok (send_raw raw i))
               (seqZ 0 batch_size);
  let responses := map (post env) tasks in
  Ok (fold_left count_response responses self_tx_results).

(** The [for account in sending_accounts] loop of
    [stress_test_transactions]: each account is handed its current counter
    as [nonce_start], and the counter moves on by the batch size.  No
    coroutine runs before the loop is over. *)
Definition schedule (transactions_per_batch : Z)
    (sending_accounts : list account) (nonce_counters : gmap string Z)
  : result (list event * gmap string Z) :=
  foldM (fun '(tasks, nonce_counters) account =>
           match nonce_counters !! address account with
           | None => Raise KeyError
           | Some nonce_start =>
               batch_size ← int_floordiv transactions_per_batch
                                         (len sending_accounts);
               Ok (tasks ++ [Batch account nonce_start batch_size],
                   <[address account := nonce_start + batch_size]>
                     nonce_counters)
           end)
        sending_accounts ([], nonce_counters).

(** [await asyncio.gather] of the tasks: the scheduled batches run; the [k]-th
    meets [envs k].  Their counter updates are single statements between
    suspension points and commute ([count_responses_permutation] below),
    so the totals are those of running the batches in turn. *)
Definition gather (self_accounts : list account) (envs : nat -> batch_env)
    (tasks : list event) (self_tx_results : tx_results) : result tx_results :=
  foldM (fun '(k, c) task =>
           match task with
           | Batch from_account nonce_start batch_size =>
               c' ← send_transaction_batch self_accounts (envs k) c
                                           from_account nonce_start batch_size;
               Ok (S k, c')
           | Sleep _ => Ok (S k, c)
           end)
        tasks (0%nat, self_tx_results)
  ≫= fun kc => Ok (snd kc).

(** One iteration of the [while] loop of [stress_test_transactions]. *)
Definition round_step (self_accounts : list account) (batch_delay : float)
    (st : gen_state) (r : round) : result gen_state :=
  let sending_accounts := sample r in
  '(tasks, nonce_counters') ← schedule 1000 sending_accounts (nonce_counters st);
  results' ← gather self_accounts (envs r) tasks (results st);
  Ok {| nonce_counters := nonce_counters';
        results := results';
        last_batch_time := last_batch_time st;
        trace := trace st ++ tasks ++ [Sleep batch_delay] |}.

(** [stress_test_transactions] once the accounts are loaded; [rounds] are
    the iterations that fit in the duration. *)
Definition stress_test_transactions (self_accounts : list account)
    (self_tx_results : tx_results) (tps_target : Z) (start_time : float)
    (rounds : list round) : result gen_state :=
  let transactions_per_batch := 1000 in
  batch_delay ← int_truediv transactions_per_batch tps_target;
  let nonce_counters : gmap string Z :=
    fold_left (fun m acc => <[address acc := 0]> m) self_accounts ∅ in
  foldM (round_step self_accounts batch_delay) rounds
        {| nonce_counters := nonce_counters;
           results := self_tx_results;
           last_batch_time := start_time;
           trace := [] |}.

(** The verdict at the end of [run_full_test]. *)
Definition verdict (avg_block_time : num) : tier :=
  if le_lit avg_block_time 85 then Maintained
  else if le_lit avg_block_time 100 then Sub100
  else NotMaintained.

Section Analysis.
Context `{!Statistics}.

(** [std_block_time] of phase 3 (and [baseline_std] of phase 1). *)
Definition std_block_time (block_times : list num) : result num :=
  if 1 <? len block_times then stdev block_times else Ok (PInt 0).

Definition percentile_95 (block_times : list num) : result num :=
  if 20 <? len block_times then
    qs ← quantiles block_times 20;
    index qs 18
  else py_max block_times.

(** The baseline report of phase 1. *)
Definition baseline (block_times : list num) : result (list line) :=
  match block_times with
  | [] => Ok []
  | _ =>
      baseline_avg ← mean block_times;
      baseline_std ← std_block_time block_times;
      lo ← py_min block_times;
      hi ← py_max block_times;
      Ok [BaselineAverage baseline_avg; BaselineStdDev baseline_std;
          BaselineMinMax lo hi]
  end.

(** Phase 3 of [run_full_test]: everything, the verdict included, sits
    under [if self.block_times:], which has no [else]. *)
Definition analysis (block_times : list num) (tx : tx_results)
    (stress_duration : Z) : result (list line) :=
  match block_times with
  | [] => Ok []
  | _ =>
      avg_block_time ← mean block_times;
      std ← std_block_time block_times;
      p95 ← percentile_95 block_times;
      lo ← py_min block_times;
      hi ← py_max block_times;
      under85 ← under block_times 85;
      under100 ← under block_times 100;
      tps ← int_truediv (sent tx) stress_duration;
      Ok [Average avg_block_time; StdDev std; Min lo; Max hi;
          Percentile 95 p95; under85; under100;
          TransactionsSent (sent tx); TransactionsFailed (failed tx);
          EffectiveTPS tps; Verdict (verdict avg_block_time)]
  end.

(** [run_full_test] on a fresh tester.  [connected] is the answer of
    [web3.is_connected()] and [block_number] what reading
    [web3.eth.block_number] for the "Latest block" line gives; the two
    monitors and the sending loop get their inputs as above.  The sending
    loop and the second monitor run concurrently on disjoint attributes,
    so each result is the one of running it alone; an exception of either
    ends the run. *)
Definition run_full_test (connected : bool) (block_number : result Z)
    (stress_duration : Z)
    (first1 : result Z) (polls1 : list poll)
    (self_accounts : list account) (start_time : float) (rounds : list round)
    (first2 : result Z) (polls2 : list poll) : result (list line) :=
  if negb connected then Ok [CannotConnect]
  else
    _ ← block_number;
    '(_, baseline_times) ← monitor_blocks [] first1 polls1;
    phase1 ← baseline (map PInt baseline_times);
    gen ← stress_test_transactions self_accounts (TxResults 0 0 0 0) 20000
                                   start_time rounds;
    '(_, loaded_times) ← monitor_blocks [] first2 polls2;
    phase3 ← analysis (map PInt loaded_times) (results gen) stress_duration;
    Ok (phase1 ++ phase3).

End Analysis.

End Blocktime.

(* ===================================================================== *)
(** * stress_test_blocktime_fixed.py *)
(* ===================================================================== *)

Module BlocktimeFixed.

(** The local variables of [monitor_blocks] together with
    [self.block_times]. *)
Record monitor_state : Type := MonitorState {
  last_block : Z;
  last_block_time : float;
  blocks_produced : Z;
  block_times : list float;
  block_time_measurements : list float
}.

(** The body of the [while] loop of [monitor_blocks], after the
    [asyncio.sleep(0.02)].  The whole body sits in [try ... except
    Exception], and every statement that can raise precedes the first
    assignment, so an exception leaves the state as it was.  The progress
    line printed every tenth block reads the state without changing it. *)
Definition poll_step (st : monitor_state) (o : poll) : monitor_state :=
  match height o with
  | Raise _ => st
  | Ok current_block =>
      if last_block st <? current_block then
        let current_block_time := perf_counter o in
        let blocks_diff := current_block - last_block st in
        let time_diff_ms :=
          ((current_block_time - last_block_time st) * 1000)%float in
        match float_truediv_int time_diff_ms blocks_diff with
        | Raise _ => st
        | Ok avg_block_time_ms =>
            let estimated := repeat avg_block_time_ms (Z.to_nat blocks_diff) in
            {| last_block := current_block;
               last_block_time := current_block_time;
               blocks_produced := blocks_produced st + blocks_diff;
               block_times := block_times st ++ estimated;
               block_time_measurements :=
                 block_time_measurements st ++ estimated |}
        end
      else st
  end.

(** [monitor_blocks]: [first] is the height read before the loop (outside
    the [try], so its exception ends the monitor), [t0] the first
    [perf_counter] reading, [polls] the ticks that fit in the duration.
    Returns [blocks_produced] and the new [self.block_times]. *)
Definition monitor_blocks (self_block_times : list float)
    (first : result Z) (t0 : float) (polls : list poll)
  : result (Z * list float) :=
  h0 ← first;
  let st := fold_left poll_step polls
              {| last_block := h0; last_block_time := t0;
                 blocks_produced := 0; block_times := self_block_times;
                 block_time_measurements := [] |} in
  Ok (blocks_produced st, block_times st).

(** The body of the [for response in responses] loop as this script has
    it: after counting a failure it prints the answer's ['error'], if the
    answer holds one, inside the same [try].  [result['error']] raises
    [TypeError] when the decoded answer is a list or a string, and the
    bare [except] then counts the response as failed once more.  The loop
    body of the two other scripts, [count_response], has no such print. *)
Definition print_error (doc : json) : result unit :=
  has_error ← contains_key "error" doc;
  if has_error : bool then
    _ ← subscript doc "error";
    Ok ()
  else Ok ().

Definition count_response_logged (c : tx_results) (r : response)
  : tx_results :=
  match r with
  | Failure => add_failed c
  | Answer (Raise _) => add_failed c
  | Answer (Ok doc) =>
      match contains_result doc with
      | Raise _ => add_failed c
      | Ok true => add_sent c
      | Ok false =>
          let c := add_failed c in
          match print_error doc with
          | Ok _ => c
          | Raise _ => add_failed c
          end
      end
  end.

(** [send_transaction_batch]: the requests are built as in
    [stress_test_blocktime.py], every response is counted by the loop body
    above, and the number of accepted submissions is returned. *)
Definition send_transaction_batch (self_accounts : list account)
    (env : batch_env) (self_tx_results : tx_results)
    (from_account : account) (nonce_start batch_size : Z)
  : result (tx_results * Z) :=
  tasks ← mapM (fun i =>
                  raw ← signed_hex self_accounts env from_account nonce_start i;
                  Ok (send_raw raw i))
               (seqZ 0 batch_size);
  let responses := map (post env) tasks in
  Ok (fold_left count_response_logged responses self_tx_results,
      len (filter (fun r => accepted r = true) responses)).

(** The [for account in sending_accounts] loop of
    [stress_test_transactions]. *)
Definition schedule (transactions_per_batch : Z)
    (sending_accounts : list account) (nonce_counters : gmap string Z)
  : result (list event * gmap string Z) :=
  foldM (fun '(tasks, nonce_counters) account =>
           match nonce_counters !! address account with
           | None => Raise KeyError
           | Some nonce_start =>
               batch_size ← int_floordiv transactions_per_batch
                                         (len sending_accounts);
               Ok (tasks ++ [Batch account nonce_start batch_size],
                   <[address account := nonce_start + batch_size]>
                     nonce_counters)
           end)
        sending_accounts ([], nonce_counters).

Definition gather (self_accounts : list account) (envs : nat -> batch_env)
    (tasks : list event) (self_tx_results : tx_results) : result tx_results :=
  foldM (fun '(k, c) task =>
           match task with
           | Batch from_account nonce_start batch_size =>
               '(c', _) ← send_transaction_batch self_accounts (envs k) c
                            from_account nonce_start batch_size;
               Ok (S k, c')
           | Sleep _ => Ok (S k, c)
           end)
        tasks (0%nat, self_tx_results)
  ≫= fun kc => Ok (snd kc).

(** One iteration of the [while] loop of [stress_test_transactions]. *)
Definition round_step (self_accounts : list account) (batch_delay : float)
    (st : gen_state) (r : round) : result gen_state :=
  let sending_accounts := sample r in
  '(tasks, nonce_counters') ← schedule 1000 sending_accounts (nonce_counters st);
  results' ← gather self_accounts (envs r) tasks (results st);
  Ok {| nonce_counters := nonce_counters';
        results := results';
        last_batch_time := last_batch_time st;
        trace := trace st ++ tasks ++ [Sleep batch_delay] |}.

(** The loop that fills [nonce_counters] from
    [web3.eth.get_transaction_count]. *)
Definition initial_nonces (get_transaction_count : string -> result Z)
    (self_accounts : list account) : result (gmap string Z) :=
  foldM (fun (m : gmap string Z) acc =>
           n ← get_transaction_count (address acc);
           Ok (<[address acc := n]> m))
        self_accounts ∅.

(** [stress_test_transactions] once the accounts are loaded. *)
Definition stress_test_transactions (self_accounts : list account)
    (get_transaction_count : string -> result Z)
    (self_tx_results : tx_results) (tps_target : Z) (start_time : float)
    (rounds : list round) : result gen_state :=
  nonce_counters ← initial_nonces get_transaction_count self_accounts;
  let transactions_per_batch := 1000 in
  batch_delay ← int_truediv transactions_per_batch tps_target;
  foldM (round_step self_accounts batch_delay) rounds
        {| nonce_counters := nonce_counters;
           results := self_tx_results;
           last_batch_time := start_time;
           trace := [] |}.

End BlocktimeFixed.
(* ===================================================================== *)
(** * stress_test_20k_tps.py *)
(* ===================================================================== *)

Module HighPerf.

(** [monitor_blocks] is the one of [stress_test_blocktime_fixed.py] run on
    a session with a connection pool. *)
Definition monitor_blocks := BlocktimeFixed.monitor_blocks.

(** The requests of [send_transaction_batch_optimized]: the signed
    transactions are cut in slices of [sub_batch_size], and the [j]-th
    transaction of the slice starting at [i] is posted with id [i + j]. *)
Definition batch_tasks (transactions : list string) : list payload :=
  let sub_batch_size := 20%nat in
  concat
    (map (fun i =>
            let sub_batch := take sub_batch_size (drop i transactions) in
            imap (fun j tx_hex => send_raw tx_hex (Z.of_nat (i + j))) sub_batch)
         (range_step (length transactions) sub_batch_size)).

(** [send_transaction_batch_optimized]. *)
Definition send_transaction_batch_optimized (self_accounts : list account)
    (env : batch_env) (self_tx_results : tx_results)
    (from_account : account) (nonce_start batch_size : Z)
  : result (tx_results * Z) :=
  transactions ← mapM (signed_hex self_accounts env from_account nonce_start)
                      (seqZ 0 batch_size);
  let responses := map (post env) (batch_tasks transactions) in
  Ok (fold_left count_response responses self_tx_results,
      len (filter (fun r => accepted r = true) responses)).

(** The [for account in sending_accounts] loop of
    [stress_test_transactions_optimized]. *)
Definition schedule (txs_per_account : Z)
    (sending_accounts : list account) (nonce_counters : gmap string Z)
  : result (list event * gmap string Z) :=
  foldM (fun '(tasks, nonce_counters) account =>
           match nonce_counters !! address account with
           | None => Raise KeyError
           | Some nonce_start =>
               Ok (tasks ++ [Batch account nonce_start txs_per_account],
                   <[address account := nonce_start + txs_per_account]>
                     nonce_counters)
           end)
        sending_accounts ([], nonce_counters).

Definition gather (self_accounts : list account) (envs : nat -> batch_env)
    (tasks : list event) (self_tx_results : tx_results) : result tx_results :=
  foldM (fun '(k, c) task =>
           match task with
           | Batch from_account nonce_start batch_size =>
               '(c', _) ← send_transaction_batch_optimized self_accounts
                            (envs k) c from_account nonce_start batch_size;
               Ok (S k, c')
           | Sleep _ => Ok (S k, c)
           end)
        tasks (0%nat, self_tx_results)
  ≫= fun kc => Ok (snd kc).

(** The rate limiter at the top of the loop: the time to sleep, if any. *)
Definition rate_limit (batch_interval last_batch_time current_time : float)
  : option float :=
  let time_since_last_batch := (current_time - last_batch_time)%float in
  if (time_since_last_batch <? batch_interval)%float
  then Some (batch_interval - time_since_last_batch)%float
  else None.

(** One iteration of the [while] loop of
    [stress_test_transactions_optimized]. *)
Definition round_step (self_accounts : list account)
    (batch_interval : float) (txs_per_account : Z)
    (st : gen_state) (r : round) : result gen_state :=
  let current_time := clock_top r in
  let slept :=
    match rate_limit batch_interval (last_batch_time st) current_time with
    | Some seconds => [Sleep seconds]
    | None => []
    end in
  let sending_accounts := sample r in
  '(tasks, nonce_counters') ←
    schedule txs_per_account sending_accounts (nonce_counters st);
  results' ← gather self_accounts (envs r) tasks (results st);
  Ok {| nonce_counters := nonce_counters';
        results := results';
        last_batch_time := clock_done r;
        trace := trace st ++ slept ++ tasks |}.

(** [stress_test_transactions_optimized] once the accounts are loaded.
    [start_time] is the reading stored in [last_batch_time] before the
    loop. *)
Definition stress_test_transactions_optimized (self_accounts : list account)
    (get_transaction_count : string -> result Z)
    (self_tx_results : tx_results) (tps_target : Z) (start_time : float)
    (rounds : list round) : result gen_state :=
  nonce_counters ←
    BlocktimeFixed.initial_nonces get_transaction_count self_accounts;
  let transactions_per_batch := 2000 in
  batch_interval ← int_truediv transactions_per_batch tps_target;
  let concurrent_senders := Z.min 100 (len self_accounts) in
  txs_per_account ← int_floordiv transactions_per_batch concurrent_senders;
  foldM (round_step self_accounts batch_interval txs_per_account) rounds
        {| nonce_counters := nonce_counters;
           results := self_tx_results;
           last_batch_time := start_time;
           trace := [] |}.

(** The verdict at the end of [run_full_test]. *)
Definition verdict (avg_block_time : num) (actual_tps : float) : tier :=
  if le_lit avg_block_time 85 && ge_lit (PFloat actual_tps) 18000
  then Maintained
  else if le_lit avg_block_time 100 && ge_lit (PFloat actual_tps) 15000
  then Sub100
  else NotMaintained.

Section Analysis.
Context `{!Statistics}.

Definition std_block_time (block_times : list num) : result num :=
  if 1 <? len block_times then stdev block_times else Ok (PInt 0).

Definition percentile_95 (block_times : list num) : result num :=
  if 20 <? len block_times then
    qs ← quantiles block_times 20;
    index qs 18
  else py_max block_times.

Definition baseline (block_times : list num) : result (list line) :=
  match block_times with
  | [] => Ok []
  | _ =>
      baseline_avg ← mean block_times;
      baseline_std ← std_block_time block_times;
      lo ← py_min block_times;
      hi ← py_max block_times;
      Ok [BaselineAverage baseline_avg; BaselineStdDev baseline_std;
          BaselineMinMax lo hi]
  end.

(** Phase 3 of [run_full_test], under [if self.block_times:]. *)
Definition analysis (block_times : list num) (tx : tx_results)
    (stress_duration : Z) : result (list line) :=
  match block_times with
  | [] => Ok []
  | _ =>
      avg_block_time ← mean block_times;
      std ← std_block_time block_times;
      p95 ← percentile_95 block_times;
      lo ← py_min block_times;
      hi ← py_max block_times;
      under85 ← under block_times 85;
      under100 ← under block_times 100;
      actual_tps ← int_truediv (sent tx) stress_duration;
      rate ← float_truediv_int actual_tps 20000;
      let tier := verdict avg_block_time actual_tps in
      Ok ([Average avg_block_time; StdDev std; Min lo; Max hi;
           Percentile 95 p95; under85; under100;
           TransactionsSent (sent tx); TransactionsFailed (failed tx);
           EffectiveTPS actual_tps; AchievementRate (rate * 100)%float;
           Verdict tier]
          ++ match tier with
             | NotMaintained =>
                 if lt_lit (PFloat actual_tps) 10000
                 then [LowThroughputNote actual_tps] else []
             | _ => []
             end)
  end.

(** [run_full_test] on a fresh tester (see [Blocktime.run_full_test]);
    here the chain id is read and printed as well. *)
Definition run_full_test (connected : bool)
    (block_number chain_id : result Z) (stress_duration : Z)
    (first1 : result Z) (t1 : float) (polls1 : list poll)
    (self_accounts : list account)
    (get_transaction_count : string -> result Z)
    (start_time : float) (rounds : list round)
    (first2 : result Z) (t2 : float) (polls2 : list poll)
  : result (list line) :=
  if negb connected then Ok [CannotConnect]
  else
    _ ← block_number;
    _ ← chain_id;
    '(_, baseline_times) ← monitor_blocks [] first1 t1 polls1;
    phase1 ← baseline (map PFloat baseline_times);
    gen ← stress_test_transactions_optimized self_accounts
            get_transaction_count (TxResults 0 0 0 0) 20000 start_time rounds;
    '(_, loaded_times) ← monitor_blocks [] first2 t2 polls2;
    phase3 ← analysis (map PFloat loaded_times) (results gen) stress_duration;
    Ok (phase1 ++ phase3).

End Analysis.

End HighPerf.

(* ===================================================================== *)
(** * simple_blocktime_test.py *)
(* ===================================================================== *)

Module Simple.

(** What [make_rpc_call(session, "eth_getBlockByNumber", ["latest", False])]
    gives: [NoResult] when the call failed or the answer has no ['result']
    key, otherwise the number and timestamp of the latest block. *)
Inductive latest : Type :=
| NoResult
| Block (number timestamp : Z).

Record monitor_state : Type := MonitorState {
  last_block_number : Z;
  last_timestamp : Z;
  blocks_produced : Z;
  block_times : list Z
}.

(** The sample recorded for a new block. *)
Definition block_sample (last_timestamp current_timestamp : Z) : Z :=
  let block_time_seconds := current_timestamp - last_timestamp in
  let block_time_ms := block_time_seconds * 1000 in
  if block_time_ms =? 0 then 85 else block_time_ms.

(** The body of the [while] loop of [monitor_block_production]. *)
Definition poll_step (st : monitor_state) (o : latest) : monitor_state :=
  match o with
  | NoResult => st                                  (* [continue] *)
  | Block current_block_number current_timestamp =>
      if last_block_number st <? current_block_number then
        {| last_block_number := current_block_number;
           last_timestamp := current_timestamp;
           blocks_produced := blocks_produced st + 1;
           block_times :=
             block_times st
               ++ [block_sample (last_timestamp st) current_timestamp] |}
      else st
  end.

(** The monitoring part of [monitor_block_production]: [None] when the
    initial call has no result (the function prints an error and
    returns). *)
Definition monitor (self_block_times : list Z) (first : latest)
    (polls : list latest) : option (Z * list Z) :=
  match first with
  | NoResult => None
  | Block n t =>
      let st := fold_left poll_step polls
                  {| last_block_number := n; last_timestamp := t;
                     blocks_produced := 0; block_times := self_block_times |} in
      Some (blocks_produced st, block_times st)
  end.

(** [delay] of [generate_read_load], its first statement:
    [1.0 / requests_per_second]. *)
Definition load_delay (requests_per_second : Z) : result float :=
  float_truediv_int 1 requests_per_second.

(** What [await load_task] gives in the [finally] block of
    [monitor_block_production].  The task created by [create_task] runs
    its first statement when the monitor first waits, in the first
    iteration of the polling loop; an exception there ends the task and is
    raised again when the task is awaited.  Otherwise the task loops until
    it is cancelled (the exceptions of its requests are caught in
    [make_rpc_call] and by [return_exceptions=True]), and the
    [CancelledError] is caught; so is the one of a task cancelled before
    it ever ran, when the loop had no iteration. *)
Definition load_task (generate_load : bool) (load_rps : Z)
    (polls : list latest) : result unit :=
  if generate_load then
    match polls with
    | [] => Ok ()
    | _ :: _ => _ ← load_delay load_rps; Ok ()
    end
  else Ok ().

Section Analysis.
Context `{!Statistics}.

(** [sorted_times[int(len(sorted_times) * fraction)]]. *)
Definition rank (sorted_times : list Z) (fraction : float) : result Z :=
  n ← float_of_int (len sorted_times);
  i ← int_of_float (n * fraction)%float;
  index sorted_times i.

(** The percentile lines, printed for ten samples or more. *)
Definition percentiles (block_times : list Z) : result (list line) :=
  if 10 <=? len block_times then
    let sorted_times := merge_sort Z.le block_times in
    p50 ← index sorted_times (len sorted_times / 2);
    p90 ← rank sorted_times 0.9;
    p95 ← rank sorted_times 0.95;
    p99 ← (if 100 <? len sorted_times then rank sorted_times 0.99
           else index sorted_times (-1));
    Ok [Percentile 50 (PInt p50); Percentile 90 (PInt p90);
        Percentile 95 (PInt p95); Percentile 99 (PInt p99)]
  else Ok [].

(** The lines under [if len(self.block_times) > 1:]. *)
Definition spread (block_times : list Z) : result (list line) :=
  if 1 <? len block_times then
    std ← stdev (map PInt block_times);
    lo ← py_min (map PInt block_times);
    hi ← py_max (map PInt block_times);
    ps ← percentiles block_times;
    Ok ([StdDev std; Min lo; Max hi] ++ ps)
  else Ok [].

(** The final statistics of [monitor_block_production]. *)
Definition final_statistics (block_times : list Z)
    (blocks_produced duration_seconds : Z) (generate_load : bool)
    (request_count error_count : Z) : result (list line) :=
  match block_times with
  | [] => Ok [NoNewBlocks]
  | _ =>
      let data := map PInt block_times in
      avg ← mean data;
      sp ← spread block_times;
      under85 ← under data 85;
      under100 ← under data 100;
      under150 ← under data 150;
      load ← (if generate_load then
                rps ← int_truediv request_count duration_seconds;
                Ok [LoadTestStats request_count error_count rps]
              else Ok []);
      Ok ([TotalBlocks blocks_produced; MonitoringDuration duration_seconds;
           Average avg] ++ sp ++ [under85; under100; under150] ++ load)
  end.

(** [monitor_block_production] on a monitor whose [block_times] is empty;
    [request_count] and [error_count] are the counters of [make_rpc_call]
    when the statistics are printed.  The load task is awaited in the
    [finally] block, before the statistics. *)
Definition monitor_block_production (duration_seconds : Z)
    (generate_load : bool) (load_rps : Z) (first : latest)
    (polls : list latest) (request_count error_count : Z)
  : result (list line) :=
  match monitor [] first polls with
  | None => Ok [CannotConnect]
  | Some (blocks_produced, block_times) =>
      _ ← load_task generate_load load_rps polls;
      final_statistics block_times blocks_produced duration_seconds
                       generate_load request_count error_count
  end.

End Analysis.

(** [self.request_count] and [self.error_count]. *)
Record counters : Type := Counters {
  request_count : Z;
  error_count : Z
}.

(** The JSON-RPC request body that [make_rpc_call] posts. *)
Record rpc_payload : Type := RpcPayload {
  rpc_method : string;
  rpc_params : list json;
  rpc_id : Z
}.

(** [params or []]. *)
Definition or_empty (params : option (list json)) : list json :=
  match params with
  | Some (x :: l) => x :: l
  | Some [] | None => []
  end.

(** [make_rpc_call]: the payload takes the current [request_count] as its
    id and the counter moves on before the request is posted; an exception
    of the post or of [response.json()] adds one to [error_count] and the
    call returns [None], which is also what a body [null] decodes to
    ([JNull]).  The result is the payload posted, the value returned and
    the counters after the call. *)
Definition make_rpc_call (self : counters) (method : string)
    (params : option (list json)) (answer : response)
  : rpc_payload * json * counters :=
  let payload := {| rpc_method := method; rpc_params := or_empty params;
                    rpc_id := request_count self |} in
  let self := {| request_count := request_count self + 1;
                 error_count := error_count self |} in
  match answer with
  | Answer (Ok doc) => (payload, doc, self)
  | Answer (Raise _) | Failure =>
      (payload, JNull, {| request_count := request_count self;
                          error_count := error_count self + 1 |})
  end.

(** The read operations that [generate_read_load] mixes. *)
Definition methods : list (string * list json) :=
  [ ("eth_blockNumber", []);
    ("eth_gasPrice", []);
    ("net_version", []);
    ("eth_chainId", []);
    ("eth_syncing", []);
    ("eth_getBalance",
     [JStr "0x0000000000000000000000000000000000000000"; JStr "latest"])
  ]%string.

(** The [for _ in range(10)] loop of [generate_read_load]: the method and
    parameters with which each of the ten coroutines is created.  Calling
    [self.make_rpc_call(...)] creates the coroutine and runs none of its
    body, so [self.request_count] is what it was when the loop began at
    every one of the ten reads. *)
Definition burst_tasks (self : counters)
  : result (list (string * list json)) :=
  mapM (fun _ : nat => index methods (request_count self `mod` len methods))
       (seq 0 10).

(** The status shown beside a new block. *)
Inductive indicator : Type :=
| FAST
| OK
| SLOW
| VERY_SLOW.

Definition status (block_time_ms : Z) : indicator :=
  if block_time_ms <=? 85 then FAST
  else if block_time_ms <=? 100 then OK
  else if block_time_ms <=? 150 then SLOW
  else VERY_SLOW.

(** The line printed for a new block: its number, its sample, the two
    running averages and the status. *)
Record block_row : Type := BlockRow {
  row_block : Z;
  row_time : Z;
  row_avg_10 : num;
  row_avg_all : num;
  row_status : indicator
}.

Section Feedback.
Context `{!Statistics}.

(** The averages and the line computed after [block_time_ms] was appended
    to [self.block_times] (here [block_times] is the list after the
    append); [self.block_times[-10:]] is the last ten samples. *)
Definition block_feedback (block_times : list Z)
    (current_block_number block_time_ms : Z) : result block_row :=
  avg_10 ← (if 10 <=? len block_times
            then mean (map PInt (drop (length block_times - 10) block_times))
            else mean (map PInt block_times));
  avg_all ← mean (map PInt block_times);
  Ok {| row_block := current_block_number; row_time := block_time_ms;
        row_avg_10 := avg_10; row_avg_all := avg_all;
        row_status := status block_time_ms |}.

End Feedback.

End Simple.
(* ===================================================================== *)
(** * Notions used to state the properties *)
(* ===================================================================== *)

(** The nonce range that a scheduled batch reserves for [addr], if the
    batch is sent from [addr]: its first nonce and its size. *)
Definition reserved (addr : string) (ev : event) : option (Z * Z) :=
  match ev with
  | Batch from_account nonce_start batch_size =>
      if decide (address from_account = addr)
      then Some (nonce_start, batch_size) else None
  | Sleep _ => None
  end.

(** The reservations made for [addr] along a trace, oldest first. *)
Definition reservations (addr : string) (tr : list event) : list (Z * Z) :=
  omap (reserved addr) tr.

(** The nonces a batch uses: [nonce_start + i for i in range(batch_size)]. *)
Definition batch_nonces (r : Z * Z) : list Z :=
  map (fun i => fst r + i) (seqZ 0 (snd r)).

Definition nonces (rs : list (Z * Z)) : list Z :=
  concat (map batch_nonces rs).

Fixpoint total_reserved (rs : list (Z * Z)) : Z :=
  match rs with
  | [] => 0
  | r :: rs' => snd r + total_reserved rs'
  end.

(** Each reservation starts at the counter left by the previous one. *)
Fixpoint chained (counter : Z) (rs : list (Z * Z)) : Prop :=
  match rs with
  | [] => True
  | (nonce_start, batch_size) :: rs' =>
      nonce_start = counter /\ 0 <= batch_size /\
      chained (counter + batch_size) rs'
  end.

(** The sleep that closed-loop rate control prescribes after a batch
    whose construction and dispatch [took] that long: the remainder of the
    interval, or none when the batch overran it. *)
Definition closed_loop_sleep (batch_interval took : float) : option float :=
  if (took <? batch_interval)%float
  then Some (batch_interval - took)%float
  else None.

(** The same iteration with another instant for the start of the batch
    construction. *)
Definition with_clock_begin (r : round) (t : float) : round :=
  {| sample := sample r; envs := envs r; clock_top := clock_top r;
     clock_begin := t; clock_done := clock_done r |}.

(** The [Sleep] events of a trace, in order. *)
Definition sleeps (tr : list event) : list float :=
  omap (fun ev => match ev with Sleep s => Some s | Batch _ _ _ => None end) tr.

Definition is_batch (ev : event) : bool :=
  match ev with Batch _ _ _ => true | Sleep _ => false end.

Definition batches (tr : list event) : list event :=
  List.filter is_batch tr.

(** Two sample sequences hold the same values ([==] on Python lists of
    numbers). *)
Fixpoint same_samples (fs : list float) (zs : list Z) : bool :=
  match fs, zs with
  | [], [] => true
  | f :: fs', z :: zs' => float_eq_int f z && same_samples fs' zs'
  | _, _ => false
  end.

(** Two polls that agree on what the monotonic-clock monitor reads, and
    two polls that agree on what the timestamp monitor reads. *)
Definition same_clock_view (o o' : poll) : Prop :=
  height o = height o' /\ perf_counter o = perf_counter o'.

Definition same_chain_view (o o' : poll) : Prop :=
  height o = height o' /\ block_timestamp o = block_timestamp o'.

(** The height did not move past [h] at this poll. *)
Definition no_advance (h : Z) (o : poll) : Prop :=
  match height o with
  | Ok current_block => current_block <= h
  | Raise _ => True
  end.

(** ** A plain implementation of the statistics interface

    Enough to run the analyses on concrete data: the data are converted
    to floats and the textbook formulas are evaluated in binary64.  The
    interpreter's own functions round the last digit with more care; they
    raise in the same cases. *)

Definition to_float (x : num) : float :=
  match x with
  | PInt z => Z2float z
  | PFloat f => f
  end.

Definition fsum (xs : list float) : float :=
  fold_left PrimFloat.add xs 0%float.

(** The list of ints, when the data hold nothing else. *)
Definition all_ints (data : list num) : option (list Z) :=
  mapM (fun x => match x with PInt z => Some z | PFloat _ => None end) data.

(** On ints the mean is the exact quotient, an int when it is whole and
    the nearest float otherwise, as in the interpreter. *)
Definition plain_mean (data : list num) : result num :=
  match data with
  | [] => Raise StatisticsError
  | _ =>
      match all_ints data with
      | Some zs =>
          let total := foldr Z.add 0 zs in
          if total mod len data =? 0 then Ok (PInt (total / len data))
          else
            match int_truediv total (len data) with
            | Ok q => Ok (PFloat q)
            | Raise _ => Raise OverflowError
            end
      | None =>
          Ok (PFloat (fsum (map to_float data) / Z2float (len data))%float)
      end
  end.

Definition plain_stdev (data : list num) : result num :=
  if (length data <? 2)%nat then Raise StatisticsError
  else
    let xs := map to_float data in
    let n := Z2float (len data) in
    let c := (fsum xs / n)%float in
    let ss := fsum (map (fun x => ((x - c) * (x - c))%float) xs) in
    Ok (PFloat (PrimFloat.sqrt (ss / (n - 1))%float)).

Definition float_le (a b : float) : Prop := (a <=? b)%float = true.

#[global] Instance float_le_dec : RelDecision float_le :=
  fun a b => bool_eq_dec (a <=? b)%float true.

Definition plain_quantiles (data : list num) (n : Z) : result (list num) :=
  if (length data <? 2)%nat then Raise StatisticsError
  else if n <? 1 then Raise StatisticsError
  else
    let sorted := merge_sort float_le (map to_float data) in
    let ld := len data in
    let m := ld + 1 in
    Ok (map (fun i =>
               let j := Z.max 1 (Z.min (ld - 1) (i * m / n)) in
               let delta := i * m - j * n in
               let lo := nth (Z.to_nat (j - 1)) sorted 0%float in
               let hi := nth (Z.to_nat j) sorted 0%float in
               PFloat ((lo * Z2float (n - delta) + hi * Z2float delta)
                       / Z2float n)%float)
            (seqZ 1 (n - 1))).

(** ** Reservations along a sending loop *)

(** The body that the three scheduling loops share, with [size] the
    batch-size expression evaluated for each account. *)
Definition reserve_step (size : result Z)
  : list event * gmap string Z -> account -> result (list event * gmap string Z) :=
  fun '(tasks, nonce_counters) account =>
    match nonce_counters !! address account with
    | None => Raise KeyError
    | Some nonce_start =>
        batch_size ← size;
        Ok (tasks ++ [Batch account nonce_start batch_size],
            <[address account := nonce_start + batch_size]> nonce_counters)
    end.

(** What the reservations of a phase must satisfy for every account of
    the initial nonce table [nc0]: the ranges reserved for the account
    follow one another from its initial nonce, each starting at the counter
    the previous one left, and the counter ends at the initial nonce plus
    everything reserved. *)
Definition nonce_invariant (nc0 : gmap string Z) (st : gen_state) : Prop :=
  forall a n0, nc0 !! a = Some n0 ->
    chained n0 (reservations a (trace st)) /\
    nonce_counters st !! a
    = Some (n0 + total_reserved (reservations a (trace st))).

(** ** Exceptions that are not a division by zero *)

(** Neither the [StatisticsError] of a statistic asked of too few data
    points nor a [ZeroDivisionError]. *)
Definition harmless (e : exn) : Prop :=
  e <> StatisticsError /\ e <> ZeroDivisionError.

(** The standard deviation a report shows, if it shows one. *)
Definition shown_stddev (lines : list line) : option num :=
  list_find (fun l => is_stddev l = true) lines
  ≫= fun il => match snd il with
               | StdDev x | BaselineStdDev x => Some x
               | _ => None
               end.


(** ** Notions for what a whole phase does *)

(** What the timestamp monitors can record: the default of 85 ms, or a
    whole number of seconds other than zero. *)
Definition coarse (s : Z) : Prop := s = 85 \/ (s <> 0 /\ s mod 1000 = 0).

(** The batch size of a scheduled batch; a sleep submits nothing. *)
Definition batch_size_of (ev : event) : Z :=
  match ev with
  | Batch _ _ batch_size => batch_size
  | Sleep _ => 0
  end.

(** The number of transactions that the batches of a trace submit. *)
Fixpoint submitted (tr : list event) : Z :=
  match tr with
  | [] => 0
  | ev :: tr' => batch_size_of ev + submitted tr'
  end.

(** The accounts the batches of a trace send from, in order. *)
Definition batch_senders (tr : list event) : list account :=
  omap (fun ev => match ev with
                  | Batch from_account _ _ => Some from_account
                  | Sleep _ => None
                  end) tr.

(** The transactions that a batch builds, in the order it signs them. *)
Definition batch_transactions (self_accounts : list account)
    (env : batch_env) (from_account : account) (nonce_start batch_size : Z)
  : result (list transaction) :=
  mapM (build_transaction self_accounts env from_account nonce_start)
       (seqZ 0 batch_size).

(** The counters of [self.tx_results] that count submissions. *)
Definition counted (c : tx_results) : Z := sent c + failed c.

(** A decoded answer on which printing its ['error'] raises: a list or a
    string that holds ['error'] and does not hold ['result']. *)
Definition unprintable_error (r : response) : bool :=
  match r with
  | Answer (Ok (JList items)) =>
      negb (existsb (fun x => match x with
                              | JStr s => String.eqb s "result"
                              | _ => false
                              end) items)
      && existsb (fun x => match x with
                           | JStr s => String.eqb s "error"
                           | _ => false
                           end) items
  | Answer (Ok (JStr s)) =>
      match String.index 0 "result" s, String.index 0 "error" s with
      | None, Some _ => true
      | _, _ => false
      end
  | _ => false
  end.

Definition is_note (l : line) : bool :=
  match l with LowThroughputNote _ => true | _ => false end.

(** The calls of [make_rpc_call] made on one monitor, in the order in
    which they start: the payloads posted and the counters at the end. *)
Fixpoint make_rpc_calls (self : Simple.counters)
    (calls : list (string * option (list json) * response))
  : list Simple.rpc_payload * Simple.counters :=
  match calls with
  | [] => ([], self)
  | (method, params, answer) :: calls' =>
      let '(payload, _, self') :=
        Simple.make_rpc_call self method params answer in
      let '(payloads, self'') := make_rpc_calls self' calls' in
      (payload :: payloads, self'')
  end.

(** A call that ends with an exception. *)
Definition call_fails (call : string * option (list json) * response)
  : bool :=
  match snd call with
  | Answer (Ok _) => false
  | _ => true
  end.

(** The timestamp monitor of [stress_test_blocktime.py]: the first block
    it detects gives no sample, and every later one at most one.  [k] is
    the number of samples recorded so far. *)
Definition first_block_unsampled (st : Blocktime.monitor_state) (k : Z)
  : Prop :=
  0 <= Blocktime.blocks_produced st /\
  match Blocktime.last_timestamp st with
  | None => Blocktime.blocks_produced st = 0 /\ k = 0
  | Some _ => k + 1 <= Blocktime.blocks_produced st
  end.

(** What the counters of a load phase must satisfy, [tx0] being
    [self.tx_results] when the phase began: ['sent'] and ['failed']
    together went up by the number of transactions submitted, neither went
    down, and ['confirmed'] and ['pending'] are what they were. *)
Definition every_submission_counted (tx0 : tx_results) (st : gen_state)
  : Prop :=
  counted (results st) = counted tx0 + submitted (trace st) /\
  sent tx0 <= sent (results st) /\
  failed tx0 <= failed (results st) /\
  confirmed (results st) = confirmed tx0 /\
  pending (results st) = pending tx0.

(** An address that holds no counter and that no batch was sent from. *)
Definition never_scheduled (a : string) (st : gen_state) : Prop :=
  nonce_counters st !! a = None /\ reservations a (trace st) = [].

(** Every account of [self.accounts] has a nonce counter. *)
Definition all_have_counters (accounts : list account) (st : gen_state)
  : Prop :=
  Forall (fun x => is_Some (nonce_counters st !! address x)) accounts.

(** The signer accepts whatever it is given in every batch of the
    iteration. *)
Definition signer_accepts (r : round) : Prop :=
  forall k tx key, exists raw, sign_transaction (envs r k) tx key = Ok raw.

(** The calls that a burst of [generate_read_load] makes once its ten
    coroutines run: each passes the method and the parameters it was
    created with, and meets its own answer. *)
Definition burst_calls (tasks : list (string * list json))
    (answers : list response)
  : list (string * option (list json) * response) :=
  zip_with (fun task answer => (fst task, Some (snd task), answer))
           tasks answers.

(** The requests of a batch whose signed transactions are [raws], the
    [k]-th posted with id [k], and the answers of the endpoint to them, in
    the order of the requests. *)
Definition batch_requests (raws : list string) : list payload :=
  zip_with send_raw raws (seqZ 0 (len raws)).

Definition batch_responses (env : batch_env) (raws : list string)
  : list response :=
  map (post env) (batch_requests raws).
(* ===================================================================== *)
(** * Concrete inputs on which the models are run *)
(* ===================================================================== *)

(** A monitor that last saw block 100 at 5.0 s on the monotonic clock. *)
Definition fixed_at_100 : BlocktimeFixed.monitor_state :=
  {| BlocktimeFixed.last_block := 100;
     BlocktimeFixed.last_block_time := 5;
     BlocktimeFixed.blocks_produced := 0;
     BlocktimeFixed.block_times := [];
     BlocktimeFixed.block_time_measurements := [] |}.

(** The timestamp monitor after block 100, stamped 1700000000. *)
Definition blocktime_at_100 : Blocktime.monitor_state :=
  {| Blocktime.last_block := 100;
     Blocktime.last_timestamp := Some 1700000000;
     Blocktime.blocks_produced := 7;
     Blocktime.block_times := [] |}.

(** A poll that finds block 103, stamped one second later, 375 ms after
    the clock reading of [fixed_at_100]. *)
Definition jump_to_103 : poll :=
  {| height := Ok 103;
     block_timestamp := Ok 1700000001;
     perf_counter := 5.375 |}.

(** A poll that reports a height 2^1024 blocks further on. *)
Definition jump_out_of_range : poll :=
  {| height := Ok (100 + 2 ^ 1024);
     block_timestamp := Ok 1700000001;
     perf_counter := 5.375 |}.

(** Two polls 125 ms apart, each finding one new block with the chain
    timestamp unchanged; and the same two polls with other timestamps,
    and with other clock readings. *)
Definition steady_feed : list poll :=
  [ {| height := Ok 101; block_timestamp := Ok 1700000000;
       perf_counter := 5.125 |};
    {| height := Ok 102; block_timestamp := Ok 1700000000;
       perf_counter := 5.25 |} ].

Definition steady_feed_other_stamps : list poll :=
  [ {| height := Ok 101; block_timestamp := Ok 1700000007;
       perf_counter := 5.125 |};
    {| height := Ok 102; block_timestamp := Raise ClientError;
       perf_counter := 5.25 |} ].

Definition steady_feed_other_clock : list poll :=
  [ {| height := Ok 101; block_timestamp := Ok 1700000000;
       perf_counter := 9 |};
    {| height := Ok 102; block_timestamp := Ok 1700000000;
       perf_counter := 9.5 |} ].

(** A chain whose blocks are all stamped 0. *)
Definition epoch_feed : list poll :=
  [ {| height := Ok 101; block_timestamp := Ok 0; perf_counter := 1 |};
    {| height := Ok 102; block_timestamp := Ok 0; perf_counter := 2 |} ].

(** Two funded accounts, an endpoint that accepts every submission, one
    that rejects every submission, and one that cannot be reached. *)
Definition alice : account := {| address := "0xA11CE"; private_key := "ka" |}.
Definition bob : account := {| address := "0xB0B"; private_key := "kb" |}.

Definition accepting : batch_env :=
  {| randint := fun i => i;
     sign_transaction := fun tx key => Ok ("0xf86c" +:+ tx_from tx)%string;
     post := fun _ => Answer (Ok (JDict [("jsonrpc", JStr "2.0");
                                         ("result", JStr "0x5e1");
                                         ("id", JInt 1)]%string)) |}.

Definition rejecting : batch_env :=
  {| randint := fun i => i;
     sign_transaction := fun tx key => Ok ("0xf86c" +:+ tx_from tx)%string;
     post := fun p =>
       if id p mod 2 =? 0
       then Answer (Ok (JDict [("error", JStr "nonce too low")]%string))
       else if id p mod 3 =? 0 then Failure
       else Answer (Raise ValueError) |}.

(** The nonces the chain reports for the two accounts. *)
Definition pending_nonces (addr : string) : result Z :=
  if String.eqb addr "0xA11CE" then Ok 7 else Ok 3.

(** An iteration that samples both accounts, sleeps 0.1 s from 10.0 s,
    then spends 0.5 s building and dispatching its batch; and the
    iteration that follows it at once. *)
Definition slow_round : round :=
  {| sample := [alice; bob];
     envs := fun k => if Nat.even k then accepting else rejecting;
     clock_top := 10;
     clock_begin := 10.125;
     clock_done := 10.625 |}.

Definition next_round : round :=
  {| sample := [bob; alice];
     envs := fun _ => accepting;
     clock_top := 10.625;
     clock_begin := 10.75;
     clock_done := 11.25 |}.

(** An iteration of a generator that has no account to sample. *)
Definition idle_round : round :=
  {| sample := [];
     envs := fun _ => accepting;
     clock_top := 10;
     clock_begin := 10;
     clock_done := 10 |}.

(** The generator of [stress_test_20k_tps.py] after a [gather] completed
    at 10.625 s, and an iteration entered at that very instant. *)
Definition after_gather : gen_state :=
  {| nonce_counters := {[ "0xB0B"%string := 3 ]};
     results := TxResults 0 0 0 0;
     last_batch_time := 10.625;
     trace := [] |}.

Definition prompt_round : round :=
  {| sample := [bob];
     envs := fun _ => accepting;
     clock_top := 10.625;
     clock_begin := 10.75;
     clock_done := 11.25 |}.

(** A chain that stays at block 100: the height is read, read again after
    a failed call, and never moves. *)
Definition stalled_feed : list poll :=
  [ {| height := Ok 100; block_timestamp := Ok 1700000000;
       perf_counter := 1 |};
    {| height := Raise ClientError; block_timestamp := Raise ClientError;
       perf_counter := 2 |};
    {| height := Ok 100; block_timestamp := Ok 1700000000;
       perf_counter := 3 |} ].


(** What the monitor of [simple_blocktime_test.py] sees on a chain that
    produces block 101 within the second of block 100 and block 102 in the
    next second, with one failed call in between. *)
Definition simple_feed : list Simple.latest :=
  [ Simple.Block 101 1700000000; Simple.NoResult;
    Simple.Block 102 1700000001 ].

(** The same chain as the monitors of the stress tests poll it. *)
Definition second_feed : list poll :=
  [ {| height := Ok 101; block_timestamp := Ok 1700000000;
       perf_counter := 5.125 |};
    {| height := Raise ClientError; block_timestamp := Raise ClientError;
       perf_counter := 5.25 |};
    {| height := Ok 102; block_timestamp := Ok 1700000000;
       perf_counter := 5.375 |};
    {| height := Ok 103; block_timestamp := Ok 1700000001;
       perf_counter := 5.5 |} ].

(** The generator of [stress_test_blocktime.py] before its first
    iteration over the two accounts. *)
Definition fresh_generator : gen_state :=
  {| nonce_counters := {[ "0xA11CE"%string := 0; "0xB0B"%string := 0 ]};
     results := TxResults 0 0 0 0;
     last_batch_time := 10;
     trace := [] |}.

(** And after the iteration [slow_round]: the first batch accepted, the
    second rejected. *)
Definition after_slow_round : gen_state :=
  {| nonce_counters := {[ "0xA11CE"%string := 500; "0xB0B"%string := 500 ]};
     results := TxResults 500 0 500 0;
     last_batch_time := 10;
     trace := [Batch alice 0 500; Batch bob 0 500; Sleep 0.05] |}.

(** The report of phase 3 of [stress_test_20k_tps.py] for two samples of
    90 ms and 150000 transactions sent in 30 s. *)
Definition slow_report : list line :=
  [Average (PFloat 90); StdDev (PFloat 0); Min (PFloat 90); Max (PFloat 90);
   Percentile 95 (PFloat 90); Under 85 0 2 0; Under 100 2 2 100;
   TransactionsSent 150000; TransactionsFailed 5; EffectiveTPS 5000;
   AchievementRate 25; Verdict NotMaintained; LowThroughputNote 5000].

(** A monitor of [simple_blocktime_test.py] that has made three calls, one
    of which failed; three further calls, the last two failing; and ten
    answers for a burst, every third of which fails. *)
Definition three_calls_made : Simple.counters :=
  {| Simple.request_count := 3; Simple.error_count := 1 |}.

Definition latest_block_answer : response :=
  Answer (Ok (JDict [("jsonrpc", JStr "2.0");
                     ("result", JDict [("number", JStr "0x65");
                                       ("timestamp", JStr "0x6553f100")]);
                     ("id", JInt 3)]%string)).


Definition burst_answers : list response :=
  map (fun k => if (k mod 3 =? 0)%nat then Failure else latest_block_answer)
      (seq 0 10).

(** An endpoint that accepts the requests with an even id and answers the
    others with an error object. *)
Definition mixed : batch_env :=
  {| randint := fun i => i;
     sign_transaction := fun tx key => Ok ("0xf86c" +:+ tx_from tx)%string;
     post := fun p =>
       if id p mod 2 =? 0
       then Answer (Ok (JDict [("jsonrpc", JStr "2.0");
                               ("result", JStr "0x5e1");
                               ("id", JInt (id p))]%string))
       else Answer (Ok (JDict [("jsonrpc", JStr "2.0");
                               ("error", JStr "nonce too low");
                               ("id", JInt (id p))]%string)) |}.
(** Sanity checks of the runtime model on values the scripts compute. *)
Example float_of_int_3 : float_of_int 3 = Ok 3%float.
Proof. reflexivity. Qed.

Example float_of_int_huge : float_of_int (2 ^ 1024) = Raise OverflowError.
Proof. vm_compute. reflexivity. Qed.

Example int_truediv_tps : int_truediv 480000 30 = Ok 16000%float.
Proof. vm_compute. reflexivity. Qed.

Example int_truediv_interval : int_truediv 2000 20000 = Ok 0.1%float.
Proof. vm_compute. reflexivity. Qed.

Example int_truediv_third :
  int_truediv 1 3 = Ok 0x1.5555555555555p-2%float.
Proof. vm_compute. reflexivity. Qed.

Example int_truediv_big :
  int_truediv (2 ^ 2000 + 1) (2 ^ 1999) = Ok 2%float.
Proof. vm_compute. reflexivity. Qed.

Example int_truediv_zero : int_truediv 5 0 = Raise ZeroDivisionError.
Proof. reflexivity. Qed.

(* ===================================================================== *)
(** * Block monitors *)
(* ===================================================================== *)

Section Monitors.

(** A poll that fails, or that shows no new height, changes nothing. *)
Lemma fixed_poll_step_idle st o :
  no_advance (BlocktimeFixed.last_block st) o ->
  BlocktimeFixed.poll_step st o = st.
Proof.
  unfold no_advance, BlocktimeFixed.poll_step.
  destruct (height o) as [h|e]; [|reflexivity].
  intros Hle. destruct (Z.ltb_spec (BlocktimeFixed.last_block st) h); [lia|reflexivity].
Qed.

Lemma blocktime_poll_step_idle st o :
  no_advance (Blocktime.last_block st) o ->
  Blocktime.poll_step st o = st.
Proof.
  unfold no_advance, Blocktime.poll_step.
  destruct (height o) as [h|e]; [|reflexivity].
  intros Hle. destruct (Z.ltb_spec (Blocktime.last_block st) h); [lia|reflexivity].
Qed.

(** What the monotonic-clock monitor does on a detected advance. *)
Lemma fixed_poll_step_advance st o h d :
  height o = Ok h ->
  BlocktimeFixed.last_block st < h ->
  float_of_int (h - BlocktimeFixed.last_block st) = Ok d ->
  let blocks_diff := h - BlocktimeFixed.last_block st in
  let avg :=
    ((perf_counter o - BlocktimeFixed.last_block_time st) * 1000 / d)%float in
  BlocktimeFixed.poll_step st o =
    {| BlocktimeFixed.last_block := h;
       BlocktimeFixed.last_block_time := perf_counter o;
       BlocktimeFixed.blocks_produced :=
         BlocktimeFixed.blocks_produced st + blocks_diff;
       BlocktimeFixed.block_times :=
         BlocktimeFixed.block_times st ++ repeat avg (Z.to_nat blocks_diff);
       BlocktimeFixed.block_time_measurements :=
         BlocktimeFixed.block_time_measurements st
           ++ repeat avg (Z.to_nat blocks_diff) |}.
Proof.
  intros Hh Hlt Hd. unfold BlocktimeFixed.poll_step.
  rewrite Hh. destruct (Z.ltb_spec (BlocktimeFixed.last_block st) h); [|lia].
  unfold float_truediv_int. rewrite Hd. cbn [Py.bind].
  destruct (Z.eqb_spec (h - BlocktimeFixed.last_block st) 0); [lia|].
  reflexivity.
Qed.

(** The timestamp monitor records at most one sample per poll. *)
Lemma blocktime_poll_step_samples st o :
  Blocktime.block_times (Blocktime.poll_step st o) = Blocktime.block_times st
  \/ exists x,
       Blocktime.block_times (Blocktime.poll_step st o)
       = Blocktime.block_times st ++ [x].
Proof.
  unfold Blocktime.poll_step.
  destruct (height o) as [h|]; [|by left].
  destruct (Blocktime.last_block st <? h); [|by left].
  destruct (block_timestamp o) as [ts|]; [|by left].
  cbn [Blocktime.block_times].
  destruct (Blocktime.block_sample _ _) as [x|]; [right; by exists x|by left].
Qed.

End Monitors.

(* ===================================================================== *)
(** * Loops in the [result] monad *)
(* ===================================================================== *)

Section Loops.
Context {A B S : Type}.

(** A property kept by every successful iteration holds after the loop. *)
Lemma foldM_invariant (P : S -> Prop) (f : S -> A -> result S) xs :
  (forall s x s', P s -> f s x = Ok s' -> P s') ->
  forall s s', P s -> foldM f xs s = Ok s' -> P s'.
Proof.
  intros Hstep. induction xs as [|x xs IH]; intros s s' Hs; cbn.
  - by intros [= <-].
  - destruct (f s x) as [s1|e] eqn:Hf; cbn; [|done]. eauto.
Qed.

Lemma mapM_result_length (f : A -> result B) l ys :
  mapM f l = Ok ys -> length ys = length l.
Proof.
  revert ys. induction l as [|x l IH]; intros ys; cbn.
  - by intros [= <-].
  - destruct (f x) as [y|e]; cbn; [|done].
    destruct (mapM f l) as [k|e]; cbn; [|done].
    intros [= <-]. cbn. f_equal. by apply IH.
Qed.

Lemma mapM_result_ok (f : A -> result B) l :
  Forall (fun x => exists y, f x = Ok y) l -> exists ys, mapM f l = Ok ys.
Proof.
  induction 1 as [|x l [y Hy] _ [ys IH]]; cbn; [by eexists|].
  rewrite Hy. cbn. rewrite IH. cbn. by eexists.
Qed.

End Loops.

(* ===================================================================== *)
(** * Counting the answers of a batch *)
(* ===================================================================== *)

Section Counting.

Lemma count_response_cases c r :
  (accepted r = true /\ count_response c r = add_sent c) \/
  (accepted r = false /\ count_response c r = add_failed c).
Proof. unfold count_response. destruct (accepted r); auto. Qed.

(** The counters after a list of responses: each response adds one to
    ['sent'] or one to ['failed']. *)
Lemma count_responses_totals rs : forall c,
  let c' := fold_left count_response rs c in
  sent c' = sent c + len (filter (fun r => accepted r = true) rs) /\
  failed c' = failed c + len (filter (fun r => accepted r = false) rs) /\
  confirmed c' = confirmed c /\ pending c' = pending c /\
  sent c' + failed c' = sent c + failed c + len rs.
Proof.
  unfold len. induction rs as [|r rs IH]; intros c; cbn [fold_left].
  - rewrite !filter_nil. cbn. lia.
  - specialize (IH (count_response c r)). cbv zeta in IH.
    destruct IH as (Hs & Hf & Hc & Hp & Hsum).
    rewrite Hs, Hf, Hc, Hp, !filter_cons. unfold count_response.
    destruct (accepted r) eqn:Ha; cbn [sent failed confirmed pending add_sent add_failed];
      repeat case_decide; try congruence; cbn [length]; lia.
Qed.

(** The order in which responses are counted does not matter, so the
    counters after concurrent batches are those of any interleaving. *)
Lemma count_response_comm c r1 r2 :
  count_response (count_response c r1) r2
  = count_response (count_response c r2) r1.
Proof. unfold count_response. by destruct (accepted r1), (accepted r2). Qed.

Lemma count_responses_permutation rs rs' :
  rs ≡ₚ rs' ->
  forall c, fold_left count_response rs c = fold_left count_response rs' c.
Proof.
  induction 1 as [|r rs rs' _ IH|r1 r2 rs|rs1 rs2 rs3 _ IH1 _ IH2];
    intros c; cbn.
  - done.
  - apply IH.
  - by rewrite count_response_comm.
  - by rewrite IH1.
Qed.

(** The slices of [send_transaction_batch_optimized] post every signed
    transaction once, the [k]-th with id [k]. *)
Lemma chunks_imap {X Y} (g : nat -> X -> Y) (l : list X) (step m : nat) :
  concat (map (fun i => imap (fun j x => g (i + j)%nat x) (take step (drop i l)))
              (map (fun k => (k * step)%nat) (seq 0 m)))
  = imap g (take (m * step) l).
Proof.
  induction m as [|m IH]; [done|].
  rewrite seq_S, !map_app, concat_app, IH. cbn [map concat plus].
  rewrite app_nil_r.
  replace (S m * step)%nat with (m * step + step)%nat by lia.
  rewrite <- (take_take_drop l (m * step) step), imap_app.
  f_equal. destruct (Nat.le_gt_cases (m * step) (length l)) as [Hle|Hgt].
  - rewrite length_take_le by exact Hle. reflexivity.
  - rewrite (drop_ge l (m * step)) by lia. by rewrite take_nil.
Qed.

Lemma batch_tasks_spec txs :
  HighPerf.batch_tasks txs
  = imap (fun k tx_hex => send_raw tx_hex (Z.of_nat k)) txs.
Proof.
  unfold HighPerf.batch_tasks, range_step.
  rewrite (chunks_imap (fun k tx_hex => send_raw tx_hex (Z.of_nat k))).
  f_equal. apply take_ge.
  pose proof (Nat.div_mod_eq (length txs + 20 - 1) 20).
  pose proof (Nat.mod_upper_bound (length txs + 20 - 1) 20). lia.
Qed.

Lemma batch_tasks_length txs :
  length (HighPerf.batch_tasks txs) = length txs.
Proof. by rewrite batch_tasks_spec, length_imap. Qed.

End Counting.

(* ===================================================================== *)
(** * Nonce reservations *)
(* ===================================================================== *)

Section Reservations.

Lemma reservations_app a tr1 tr2 :
  reservations a (tr1 ++ tr2) = reservations a tr1 ++ reservations a tr2.
Proof. apply omap_app. Qed.

Lemma reservations_batch a x n c tr :
  reservations a (Batch x n c :: tr)
  = if decide (address x = a) then (n, c) :: reservations a tr
    else reservations a tr.
Proof. unfold reservations. cbn. by destruct (decide (address x = a)). Qed.

Lemma total_reserved_app rs1 rs2 :
  total_reserved (rs1 ++ rs2) = total_reserved rs1 + total_reserved rs2.
Proof. induction rs1 as [|r rs1 IH]; cbn; [done|]. rewrite IH. lia. Qed.

Lemma chained_app n rs1 rs2 :
  chained n (rs1 ++ rs2)
  <-> chained n rs1 /\ chained (n + total_reserved rs1) rs2.
Proof.
  revert n. induction rs1 as [|[s c] rs1 IH]; intros n; cbn.
  - replace (n + 0) with n by lia. tauto.
  - rewrite IH. replace (n + (c + total_reserved rs1))
      with (n + c + total_reserved rs1) by lia. tauto.
Qed.

Lemma chained_total_nonneg n rs : chained n rs -> 0 <= total_reserved rs.
Proof.
  revert n. induction rs as [|[s c] rs IH]; intros n; cbn; [lia|].
  intros (_ & Hc & Hrest). specialize (IH _ Hrest). lia.
Qed.

(** Chained reservations use every nonce from the initial one on, once. *)
Lemma chained_nonces n rs :
  chained n rs -> nonces rs = seqZ n (total_reserved rs).
Proof.
  revert n. induction rs as [|[s c] rs IH]; intros n; cbn.
  - by rewrite seqZ_nil.
  - intros (-> & Hc & Hrest). pose proof (chained_total_nonneg _ _ Hrest).
    unfold nonces in *. cbn [map concat]. rewrite (IH _ Hrest).
    rewrite seqZ_app by lia. f_equal.
    unfold batch_nonces. cbn [fst snd].
    change (map (fun i => n + i) (seqZ 0 c)) with (Z.add n <$> seqZ 0 c).
    rewrite (fmap_add_seqZ n 0 c). f_equal. lia.
Qed.

Lemma schedule_blocktime_eq tpb senders nc :
  Blocktime.schedule tpb senders nc
  = foldM (reserve_step (int_floordiv tpb (len senders))) senders ([], nc).
Proof. reflexivity. Qed.

Lemma schedule_fixed_eq tpb senders nc :
  BlocktimeFixed.schedule tpb senders nc
  = foldM (reserve_step (int_floordiv tpb (len senders))) senders ([], nc).
Proof. reflexivity. Qed.

Lemma schedule_highperf_eq txs senders nc :
  HighPerf.schedule txs senders nc
  = foldM (reserve_step (Ok txs)) senders ([], nc).
Proof. reflexivity. Qed.

(** One scheduling loop: the new tasks are batches only, and for every
    account they chain from its counter. *)
Lemma reserve_fold size senders : forall tasks nc tasks' nc',
  (forall c, size = Ok c -> 0 <= c) ->
  foldM (reserve_step size) senders (tasks, nc) = Ok (tasks', nc') ->
  exists new,
    tasks' = tasks ++ new /\ sleeps new = [] /\
    length (batches new) = length senders /\
    forall a n, nc !! a = Some n ->
      chained n (reservations a new) /\
      nc' !! a = Some (n + total_reserved (reservations a new)).
Proof.
  induction senders as [|x senders IH]; intros tasks nc tasks' nc' Hsize H;
    cbn in H.
  - injection H as <- <-. exists []. rewrite app_nil_r.
    repeat split; try done. cbn. rewrite H. f_equal. lia.
  - destruct (nc !! address x) as [n0|] eqn:Hx; [|done].
    destruct size as [c|e] eqn:Hs; cbn in H; [|done].
    apply IH in H as (new & -> & Hsl & Hlen & Hres); [|done].
    exists (Batch x n0 c :: new). split; [by rewrite <- app_assoc|].
    split; [done|]. split; [cbn [batches List.filter is_batch length]; f_equal; apply Hlen|].
    intros a n Hn. rewrite reservations_batch.
    destruct (decide (address x = a)) as [<-|Hne].
    + rewrite Hx in Hn. injection Hn as <-.
      destruct (Hres (address x) (n0 + c)) as [Hch Hlk];
        [by rewrite lookup_insert_eq|].
      cbn. split; [by auto|]. rewrite Hlk. f_equal. lia.
    + destruct (Hres a n) as [Hch Hlk]; [by rewrite lookup_insert_ne|]. done.
Qed.

(** The same loop, whatever the batch size: only batches are added, one
    per sampled account. *)
Lemma reserve_fold_shape size senders : forall tasks nc tasks' nc',
  foldM (reserve_step size) senders (tasks, nc) = Ok (tasks', nc') ->
  exists new,
    tasks' = tasks ++ new /\ sleeps new = [] /\
    length (batches new) = length senders.
Proof.
  induction senders as [|x senders IH]; intros tasks nc tasks' nc' H;
    cbn in H.
  - injection H as <- <-. exists []. by rewrite app_nil_r.
  - destruct (nc !! address x) as [n0|] eqn:Hx; [|done].
    destruct size as [c|e] eqn:Hs; cbn in H; [|done].
    apply IH in H as (new & -> & Hsl & Hlen).
    exists (Batch x n0 c :: new). split; [by rewrite <- app_assoc|].
    split; [done|]. cbn [batches List.filter is_batch length].
    f_equal. apply Hlen.
Qed.

(** The loop raises nothing when every sampled account has a counter and
    the batch size can be computed. *)
Lemma reserve_fold_returns size senders : forall tasks nc,
  (senders <> [] -> exists c, size = Ok c) ->
  Forall (fun x => is_Some (nc !! address x)) senders ->
  exists tasks' nc',
    foldM (reserve_step size) senders (tasks, nc) = Ok (tasks', nc').
Proof.
  induction senders as [|x senders IH]; intros tasks nc Hsize Hall; cbn.
  - by eexists _, _.
  - apply Forall_cons in Hall as [[n0 Hx] Hall]. rewrite Hx.
    destruct Hsize as [c Hc]; [done|]. subst size. cbn.
    apply IH; [intros _; by exists c|].
    eapply Forall_impl; [exact Hall|]. intros y Hy. cbn in Hy.
    destruct (decide (address x = address y)) as [->|Hne].
    + by rewrite lookup_insert_eq.
    + by rewrite lookup_insert_ne.
Qed.

Lemma int_floordiv_nonneg a b c :
  0 <= a -> 0 <= b -> int_floordiv a b = Ok c -> 0 <= c.
Proof.
  unfold int_floordiv. destruct (Z.eqb_spec b 0); [done|].
  intros Ha Hb [= <-]. apply Z.div_pos; lia.
Qed.

Lemma len_nonneg {A} (l : list A) : 0 <= len l.
Proof. unfold len. lia. Qed.

Lemma reservations_sleep a s : reservations a [Sleep s] = [].
Proof. reflexivity. Qed.

(** Every iteration of the three sending loops keeps the invariant. *)
Lemma fixed_round_invariant nc0 accounts delay st r st' :
  nonce_invariant nc0 st ->
  BlocktimeFixed.round_step accounts delay st r = Ok st' ->
  nonce_invariant nc0 st'.
Proof.
  intros Hinv. unfold BlocktimeFixed.round_step.
  rewrite schedule_fixed_eq.
  destruct (foldM _ _ _) as [[tasks nc']|e] eqn:Hs; cbn; [|done].
  destruct (BlocktimeFixed.gather _ _ _ _) as [c|e]; cbn; [|done].
  intros [= <-]. apply reserve_fold in Hs as (new & Heq & _ & _ & Hres);
    [|intros c0; apply int_floordiv_nonneg; [lia|apply len_nonneg]].
  cbn in Heq. subst tasks. intros a n0 Hn0. cbn [trace nonce_counters].
  destruct (Hinv a n0 Hn0) as [Hch Hlk]. destruct (Hres _ _ Hlk) as [Hch' Hlk'].
  rewrite !reservations_app, reservations_sleep, app_nil_r.
  rewrite total_reserved_app, chained_app. split; [done|].
  rewrite Hlk'. f_equal. lia.
Qed.

Lemma blocktime_round_invariant nc0 accounts delay st r st' :
  nonce_invariant nc0 st ->
  Blocktime.round_step accounts delay st r = Ok st' ->
  nonce_invariant nc0 st'.
Proof.
  intros Hinv. unfold Blocktime.round_step.
  rewrite schedule_blocktime_eq.
  destruct (foldM _ _ _) as [[tasks nc']|e] eqn:Hs; cbn; [|done].
  destruct (Blocktime.gather _ _ _ _) as [c|e]; cbn; [|done].
  intros [= <-]. apply reserve_fold in Hs as (new & Heq & _ & _ & Hres);
    [|intros c0; apply int_floordiv_nonneg; [lia|apply len_nonneg]].
  cbn in Heq. subst tasks. intros a n0 Hn0. cbn [trace nonce_counters].
  destruct (Hinv a n0 Hn0) as [Hch Hlk]. destruct (Hres _ _ Hlk) as [Hch' Hlk'].
  rewrite !reservations_app, reservations_sleep, app_nil_r.
  rewrite total_reserved_app, chained_app. split; [done|].
  rewrite Hlk'. f_equal. lia.
Qed.

Lemma highperf_round_invariant nc0 accounts interval txs st r st' :
  0 <= txs ->
  nonce_invariant nc0 st ->
  HighPerf.round_step accounts interval txs st r = Ok st' ->
  nonce_invariant nc0 st'.
Proof.
  intros Htxs Hinv. unfold HighPerf.round_step.
  rewrite schedule_highperf_eq.
  destruct (foldM _ _ _) as [[tasks nc']|e] eqn:Hs; cbn; [|done].
  destruct (HighPerf.gather _ _ _ _) as [c|e]; cbn; [|done].
  intros [= <-]. apply reserve_fold in Hs as (new & Heq & _ & _ & Hres);
    [|by intros c0 [= <-]].
  cbn in Heq. subst tasks. intros a n0 Hn0. cbn [trace nonce_counters].
  destruct (Hinv a n0 Hn0) as [Hch Hlk]. destruct (Hres _ _ Hlk) as [Hch' Hlk'].
  assert (Hslept : reservations a
            match HighPerf.rate_limit interval (last_batch_time st) (clock_top r) with
            | Some seconds => [Sleep seconds]
            | None => []
            end = []) by (by destruct (HighPerf.rate_limit _ _ _)).
  rewrite !reservations_app, Hslept, app_nil_l.
  rewrite total_reserved_app, chained_app. split; [done|].
  rewrite Hlk'. f_equal. lia.
Qed.

End Reservations.

Section Phases.

Lemma nonce_invariant_start nc0 c t :
  nonce_invariant nc0 {| nonce_counters := nc0; results := c;
                         last_batch_time := t; trace := [] |}.
Proof. intros a n0 Hn0. cbn. split; [done|]. rewrite Hn0. f_equal. lia. Qed.

Lemma fixed_phase_invariant accounts gtc tx0 tps t0 rounds nc0 st :
  BlocktimeFixed.initial_nonces gtc accounts = Ok nc0 ->
  BlocktimeFixed.stress_test_transactions accounts gtc tx0 tps t0 rounds = Ok st ->
  nonce_invariant nc0 st.
Proof.
  intros Hnc. unfold BlocktimeFixed.stress_test_transactions.
  rewrite Hnc. cbn. destruct (int_truediv 1000 tps) as [delay|e]; cbn; [|done].
  apply foldM_invariant.
  - intros s r s'. apply fixed_round_invariant.
  - apply nonce_invariant_start.
Qed.

Lemma highperf_phase_invariant accounts gtc tx0 tps t0 rounds nc0 st :
  BlocktimeFixed.initial_nonces gtc accounts = Ok nc0 ->
  HighPerf.stress_test_transactions_optimized accounts gtc tx0 tps t0 rounds
  = Ok st ->
  nonce_invariant nc0 st.
Proof.
  intros Hnc. unfold HighPerf.stress_test_transactions_optimized.
  rewrite Hnc. cbn. destruct (int_truediv 2000 tps) as [interval|e]; cbn; [|done].
  destruct (int_floordiv 2000 _) as [txs|e] eqn:Htxs; cbn; [|done].
  apply int_floordiv_nonneg in Htxs;
    [|lia|pose proof (len_nonneg accounts); lia].
  apply foldM_invariant.
  - intros s r s'. by apply highperf_round_invariant.
  - apply nonce_invariant_start.
Qed.

(** What the invariant says about one account. *)
Lemma nonce_invariant_ranges nc0 st a n0 :
  nonce_invariant nc0 st ->
  nc0 !! a = Some n0 ->
  let rs := reservations a (trace st) in
  chained n0 rs /\
  nonce_counters st !! a = Some (n0 + total_reserved rs) /\
  nonces rs = seqZ n0 (total_reserved rs) /\
  NoDup (nonces rs) /\
  n0 <= n0 + total_reserved rs.
Proof.
  intros Hinv Hn0 rs. destruct (Hinv a n0 Hn0) as [Hch Hlk].
  pose proof (chained_nonces _ _ Hch) as Hnon.
  pose proof (chained_total_nonneg _ _ Hch).
  subst rs.
  split; [exact Hch|]. split; [exact Hlk|]. split; [exact Hnon|].
  split; [rewrite Hnon; apply NoDup_seqZ|lia].
Qed.

End Phases.

(* ===================================================================== *)
(** * One batch of submissions *)
(* ===================================================================== *)

Section Batches.

Lemma accepted_dict fields :
  accepted (Answer (Ok (JDict fields))) = true
  <-> exists v, ("result"%string, v) ∈ fields.
Proof.
  cbn. destruct (existsb _ fields) eqn:Hex.
  - split; [intros _|done]. apply existsb_exists in Hex as ([k v] & Hin & Hk).
    cbn in Hk. apply String.eqb_eq in Hk as ->. exists v.
    by apply list_elem_of_In.
  - split; [done|]. intros [v Hv]. apply list_elem_of_In in Hv.
    assert (existsb (fun kv : string * json => String.eqb (fst kv) "result")
                    fields = true) as Hex'.
    { apply existsb_exists. exists ("result"%string, v). split; [done|].
      apply String.eqb_refl. }
    congruence.
Qed.

Lemma signed_hex_ok accounts env from_account nonce_start i :
  accounts <> [] ->
  (forall tx key, exists raw, sign_transaction env tx key = Ok raw) ->
  exists raw, signed_hex accounts env from_account nonce_start i = Ok raw.
Proof.
  intros Hne Hsign. unfold signed_hex, build_transaction.
  assert (0 < len accounts) as Hlen.
  { unfold len. destruct accounts; [done|cbn; lia]. }
  destruct (Z.eqb_spec (len accounts) 0); [lia|].
  destruct (accounts !! Z.to_nat (randint env i `mod` len accounts))
    as [to|] eqn:Hto.
  - cbn. apply Hsign.
  - apply lookup_ge_None in Hto.
    pose proof (Z.mod_pos_bound (randint env i) (len accounts) Hlen).
    unfold len in *. lia.
Qed.

(** The counters after a batch whose requests were all built. *)
Lemma blocktime_batch_counts accounts env c from_account nonce_start B c' :
  0 <= B ->
  Blocktime.send_transaction_batch accounts env c from_account nonce_start B
  = Ok c' ->
  exists responses,
    len responses = B /\ c' = fold_left count_response responses c.
Proof.
  intros HB. unfold Blocktime.send_transaction_batch.
  destruct (mapM _ (seqZ 0 B)) as [tasks|e] eqn:Htasks; cbn; [|done].
  intros [= <-]. exists (map (post env) tasks). split; [|done].
  apply mapM_result_length in Htasks.
  unfold len. rewrite length_map, Htasks, length_seqZ. lia.
Qed.

Lemma highperf_batch_counts accounts env c from_account nonce_start B c' k :
  0 <= B ->
  HighPerf.send_transaction_batch_optimized
    accounts env c from_account nonce_start B = Ok (c', k) ->
  exists responses,
    len responses = B /\ c' = fold_left count_response responses c /\
    k = len (filter (fun r => accepted r = true) responses).
Proof.
  intros HB. unfold HighPerf.send_transaction_batch_optimized.
  destruct (mapM _ (seqZ 0 B)) as [txs|e] eqn:Htxs; cbn; [|done].
  intros [= <- <-]. exists (map (post env) (HighPerf.batch_tasks txs)).
  split; [|done].
  apply mapM_result_length in Htxs.
  unfold len. rewrite length_map, batch_tasks_length, Htxs, length_seqZ. lia.
Qed.

Lemma blocktime_batch_returns accounts env c from_account nonce_start B :
  accounts <> [] ->
  (forall tx key, exists raw, sign_transaction env tx key = Ok raw) ->
  exists c',
    Blocktime.send_transaction_batch accounts env c from_account nonce_start B
    = Ok c'.
Proof.
  intros Hne Hsign. unfold Blocktime.send_transaction_batch.
  destruct (mapM_result_ok
              (fun i => raw ← signed_hex accounts env from_account nonce_start i;
                        Ok (send_raw raw i)) (seqZ 0 B)) as [tasks ->].
  - apply Forall_forall. intros i _.
    destruct (signed_hex_ok accounts env from_account nonce_start i Hne Hsign)
      as [raw ->]. cbn. by eexists.
  - cbn. by eexists.
Qed.

Lemma highperf_batch_returns accounts env c from_account nonce_start B :
  accounts <> [] ->
  (forall tx key, exists raw, sign_transaction env tx key = Ok raw) ->
  exists c' k,
    HighPerf.send_transaction_batch_optimized
      accounts env c from_account nonce_start B = Ok (c', k).
Proof.
  intros Hne Hsign. unfold HighPerf.send_transaction_batch_optimized.
  destruct (mapM_result_ok
              (signed_hex accounts env from_account nonce_start) (seqZ 0 B))
    as [txs ->].
  - apply Forall_forall. intros i _. by apply signed_hex_ok.
  - cbn. by eexists _, _.
Qed.

End Batches.

(* ===================================================================== *)
(** * The plain statistics satisfy the interface *)
(* ===================================================================== *)

Section PlainStatistics.

Lemma plain_mean_StatisticsError data :
  plain_mean data = Raise StatisticsError <-> data = [].
Proof.
  destruct data as [|x data]; [done|]. cbn [plain_mean].
  split; [|done].
  destruct (all_ints (x :: data)); [|done].
  destruct (_ =? 0); [done|]. by destruct (int_truediv _ _).
Qed.

Lemma plain_mean_ZeroDivisionError data :
  plain_mean data <> Raise ZeroDivisionError.
Proof.
  destruct data as [|x data]; [done|]. cbn [plain_mean].
  destruct (all_ints (x :: data)); [|done].
  destruct (_ =? 0); [done|]. by destruct (int_truediv _ _).
Qed.

Lemma plain_stdev_StatisticsError data :
  plain_stdev data = Raise StatisticsError <-> (length data < 2)%nat.
Proof.
  unfold plain_stdev. destruct (Nat.ltb_spec (length data) 2); split;
    try done; lia.
Qed.

Lemma plain_stdev_ZeroDivisionError data :
  plain_stdev data <> Raise ZeroDivisionError.
Proof. unfold plain_stdev. by destruct (_ <? _)%nat. Qed.

End PlainStatistics.

#[global] Instance plain_statistics : Statistics :=
  {| mean := plain_mean;
     stdev := plain_stdev;
     quantiles := plain_quantiles;
     mean_StatisticsError := plain_mean_StatisticsError;
     stdev_StatisticsError := plain_stdev_StatisticsError;
     mean_ZeroDivisionError := plain_mean_ZeroDivisionError;
     stdev_ZeroDivisionError := plain_stdev_ZeroDivisionError |}.

(* ===================================================================== *)
(** * Sending loops: sleeps *)
(* ===================================================================== *)

Section Sleeps.

Lemma sleeps_app tr1 tr2 : sleeps (tr1 ++ tr2) = sleeps tr1 ++ sleeps tr2.
Proof. apply omap_app. Qed.

(** An iteration of the loop of [stress_test_20k_tps.py]: the limiter's
    sleep, if any, then the batches. *)
Lemma highperf_round_trace accounts interval txs st r st' :
  HighPerf.round_step accounts interval txs st r = Ok st' ->
  exists tasks,
    sleeps tasks = [] /\
    length (batches tasks) = length (sample r) /\
    last_batch_time st' = clock_done r /\
    trace st'
    = trace st
        ++ match HighPerf.rate_limit interval (last_batch_time st) (clock_top r) with
           | Some seconds => [Sleep seconds]
           | None => []
           end
        ++ tasks.
Proof.
  unfold HighPerf.round_step. rewrite schedule_highperf_eq.
  destruct (foldM _ _ _) as [[tasks nc']|e] eqn:Hs; cbn; [|done].
  destruct (HighPerf.gather _ _ _ _) as [c|e]; cbn; [|done].
  intros [= <-]. apply reserve_fold_shape in Hs as (new & Heq & Hsl & Hlen).
  cbn in Heq. subst tasks. exists new. by repeat split.
Qed.

(** An iteration of the loop of [stress_test_blocktime.py]: the batches,
    then a sleep of the whole delay. *)
Lemma blocktime_round_trace accounts delay st r st' :
  Blocktime.round_step accounts delay st r = Ok st' ->
  exists tasks,
    sleeps tasks = [] /\
    length (batches tasks) = length (sample r) /\
    trace st' = trace st ++ tasks ++ [Sleep delay].
Proof.
  unfold Blocktime.round_step. rewrite schedule_blocktime_eq.
  destruct (foldM _ _ _) as [[tasks nc']|e] eqn:Hs; cbn; [|done].
  destruct (Blocktime.gather _ _ _ _) as [c|e]; cbn; [|done].
  intros [= <-]. apply reserve_fold_shape in Hs as (new & Heq & Hsl & Hlen).
  cbn in Heq. subst tasks. exists new. by repeat split.
Qed.

(** With no account to sample, an iteration of the loop of
    [stress_test_blocktime.py] only sleeps. *)
Lemma blocktime_round_idle delay st r :
  sample r = [] ->
  Blocktime.round_step [] delay st r
  = Ok {| nonce_counters := nonce_counters st;
          results := results st;
          last_batch_time := last_batch_time st;
          trace := trace st ++ [Sleep delay] |}.
Proof. intros Hs. unfold Blocktime.round_step. by rewrite Hs. Qed.

Lemma blocktime_rounds_idle delay rounds : forall st,
  Forall (fun r => sample r = []) rounds ->
  foldM (Blocktime.round_step [] delay) rounds st
  = Ok {| nonce_counters := nonce_counters st;
          results := results st;
          last_batch_time := last_batch_time st;
          trace := trace st ++ repeat (Sleep delay) (length rounds) |}.
Proof.
  induction rounds as [|r rounds IH]; intros st Hall; cbn.
  - rewrite app_nil_r. by destruct st.
  - apply Forall_cons in Hall as [Hr Hall].
    rewrite (blocktime_round_idle delay st r Hr). cbn.
    rewrite (IH _ Hall). cbn. by rewrite <- app_assoc.
Qed.

Lemma valid_sample_nil k s : valid_sample [] k s -> s = [].
Proof. intros [_ Hsub]. by apply submseteq_nil_r. Qed.

End Sleeps.

(* ===================================================================== *)
(** * The analysis at the end of a run *)
(* ===================================================================== *)

(** Run the first call of a sequence in hypothesis [H]; an exception
    there contradicts [H]. *)
Ltac run_call H :=
  match type of H with
  | mbind _ ?m = Ok _ => destruct m eqn:?; cbn in H; [|discriminate H]
  | Py.bind ?m _ = Ok _ => destruct m eqn:?; cbn in H; [|discriminate H]
  end.

Section AnalysisFacts.
Context `{!Statistics}.

Lemma py_max_raises data e : py_max data = Raise e -> e = ValueError.
Proof. destruct data; cbn; congruence. Qed.

Lemma py_min_raises data e : py_min data = Raise e -> e = ValueError.
Proof. destruct data; cbn; congruence. Qed.

Lemma index_raises {A} (data : list A) i e :
  index data i = Raise e -> e = IndexError.
Proof.
  unfold index. destruct (_ <? 0); [congruence|].
  destruct (data !! _); congruence.
Qed.

Lemma float_of_int_raises z e : float_of_int z = Raise e -> e = OverflowError.
Proof. unfold float_of_int. destruct (PrimFloat.is_infinity _); congruence. Qed.

Lemma int_of_float_raises f e :
  int_of_float f = Raise e -> e = OverflowError \/ e = ValueError.
Proof.
  unfold int_of_float. destruct (Prim2SF f); intros [=]; auto.
Qed.

Lemma rank_raises sorted_times fraction e :
  Simple.rank sorted_times fraction = Raise e -> harmless e.
Proof.
  unfold Simple.rank.
  destruct (float_of_int _) as [n|e1] eqn:H1; cbn.
  - destruct (int_of_float _) as [i|e2] eqn:H2; cbn.
    + intros H3%index_raises. by subst.
    + intros [= <-]. by destruct (int_of_float_raises _ _ H2); subst.
  - intros [= <-]. apply float_of_int_raises in H1. by subst.
Qed.

Lemma percentiles_raises block_times e :
  Simple.percentiles block_times = Raise e -> harmless e.
Proof.
  unfold Simple.percentiles. destruct (10 <=? len block_times); [|done].
  destruct (index _ (_ / 2)) as [p50|e1] eqn:H1; cbn;
    [|intros [= <-]; apply index_raises in H1; by subst].
  destruct (Simple.rank _ 0.9) as [p90|e2] eqn:H2; cbn;
    [|intros [= <-]; by eapply rank_raises].
  destruct (Simple.rank _ 0.95) as [p95|e3] eqn:H3; cbn;
    [|intros [= <-]; by eapply rank_raises].
  destruct (100 <? _).
  - destruct (Simple.rank _ 0.99) as [p99|e4] eqn:H4; cbn;
      [done|intros [= <-]; by eapply rank_raises].
  - destruct (index _ (-1)) as [p99|e4] eqn:H4; cbn;
      [done|intros [= <-]; apply index_raises in H4; by subst].
Qed.

(** [stdev] never fails for lack of data, nor divides by zero, where the
    scripts call it. *)
Lemma guarded_stdev_raises (data : list num) e :
  (1 <? len data) = true -> stdev data = Raise e -> harmless e.
Proof.
  intros Hlen Hst. split; intros ->.
  - apply stdev_StatisticsError in Hst. unfold len in Hlen. lia.
  - by apply stdev_ZeroDivisionError in Hst.
Qed.

Lemma blocktime_std_raises data e :
  Blocktime.std_block_time data = Raise e -> harmless e.
Proof.
  unfold Blocktime.std_block_time.
  destruct (1 <? len data) eqn:Hlen; [|done]. by apply guarded_stdev_raises.
Qed.

Lemma blocktime_std_few data :
  (length data < 2)%nat -> Blocktime.std_block_time data = Ok (PInt 0).
Proof.
  intros Hlen. unfold Blocktime.std_block_time, len.
  destruct (Z.ltb_spec 1 (Z.of_nat (length data))); [lia|done].
Qed.

Lemma blocktime_std_many data :
  (2 <= length data)%nat -> Blocktime.std_block_time data = stdev data.
Proof.
  intros Hlen. unfold Blocktime.std_block_time, len.
  destruct (Z.ltb_spec 1 (Z.of_nat (length data))); [done|lia].
Qed.

Lemma simple_spread_few block_times :
  (length block_times < 2)%nat -> Simple.spread block_times = Ok [].
Proof.
  intros Hlen. unfold Simple.spread, len.
  destruct (Z.ltb_spec 1 (Z.of_nat (length block_times))); [lia|done].
Qed.

Lemma simple_spread_raises block_times e :
  Simple.spread block_times = Raise e -> harmless e.
Proof.
  unfold Simple.spread. destruct (1 <? len block_times) eqn:Hlen; [|done].
  destruct (stdev _) as [std|e1] eqn:H1; cbn.
  - destruct (py_min _) as [lo|e2] eqn:H2; cbn;
      [|intros [= <-]; apply py_min_raises in H2; by subst].
    destruct (py_max _) as [hi|e3] eqn:H3; cbn;
      [|intros [= <-]; apply py_max_raises in H3; by subst].
    destruct (Simple.percentiles _) as [ps|e4] eqn:H4; cbn;
      [done|intros [= <-]; by eapply percentiles_raises].
  - intros [= <-]. eapply guarded_stdev_raises; [|exact H1].
    unfold len in *. by rewrite length_map.
Qed.

Lemma under_line data limit l :
  under data limit = Ok l -> is_verdict l = false /\ is_stddev l = false.
Proof.
  unfold under, percent. destruct (int_truediv _ _); cbn; [|done].
  by intros [= <-].
Qed.

(** The report of [simple_blocktime_test.py] shows a standard deviation
    only for two samples or more. *)
Lemma simple_report_stddev block_times blocks duration load requests errors lines :
  Simple.final_statistics block_times blocks duration load requests errors
  = Ok lines ->
  (length block_times < 2)%nat ->
  existsb is_stddev lines = false.
Proof.
  intros Hrep Hlen. unfold Simple.final_statistics in Hrep.
  destruct block_times as [|x block_times]; [by injection Hrep as <-|].
  rewrite (simple_spread_few (x :: block_times) Hlen) in Hrep.
  destruct load; cbn in Hrep; repeat run_call Hrep;
    repeat match goal with
           | Hu : under _ _ = Ok _ |- _ => apply under_line in Hu as [_ Hu]
           | Hx : mbind _ _ = Ok _ |- _ => run_call Hx
           | Hx : Ok _ = Ok _ |- _ => injection Hx as <-
           end;
    cbn;
    repeat match goal with Hu : is_stddev _ = false |- _ => rewrite Hu; clear Hu end;
    reflexivity.
Qed.

(** The report of phase 3 holds a verdict exactly when there are samples. *)
Lemma blocktime_analysis_verdict data tx D lines :
  Blocktime.analysis data tx D = Ok lines ->
  (existsb is_verdict lines = true <-> data <> []).
Proof.
  unfold Blocktime.analysis. destruct data as [|x data].
  - intros [= <-]. by split.
  - intros Hrep. split; [done|intros _].
    cbn in Hrep. repeat run_call Hrep.
    injection Hrep as <-. cbn. by rewrite !orb_true_r.
Qed.

End AnalysisFacts.

Section StalledChain.

Lemma fixed_monitor_idle polls : forall st,
  Forall (no_advance (BlocktimeFixed.last_block st)) polls ->
  fold_left BlocktimeFixed.poll_step polls st = st.
Proof.
  induction polls as [|o polls IH]; intros st Hall; cbn; [done|].
  apply Forall_cons in Hall as [Ho Hall].
  rewrite (fixed_poll_step_idle st o Ho). by apply IH.
Qed.

Lemma blocktime_monitor_idle polls : forall st,
  Forall (no_advance (Blocktime.last_block st)) polls ->
  fold_left Blocktime.poll_step polls st = st.
Proof.
  induction polls as [|o polls IH]; intros st Hall; cbn; [done|].
  apply Forall_cons in Hall as [Ho Hall].
  rewrite (blocktime_poll_step_idle st o Ho). by apply IH.
Qed.

Lemma simple_monitor_idle polls : forall st,
  Forall (fun o => match o with
                   | Simple.NoResult => True
                   | Simple.Block n _ => n <= Simple.last_block_number st
                   end) polls ->
  fold_left Simple.poll_step polls st = st.
Proof.
  induction polls as [|o polls IH]; intros st Hall; cbn; [done|].
  apply Forall_cons in Hall as [Ho Hall].
  assert (Simple.poll_step st o = st) as ->; [|by apply IH].
  destruct o as [|n ts]; [done|]. cbn.
  by destruct (Z.ltb_spec (Simple.last_block_number st) n); [lia|].
Qed.

(** The feed of the spec's test: one poll that finds the height three
    blocks further on. *)
Lemma fixed_monitor_jump_of_three bt h0 t0 t1 ts :
  BlocktimeFixed.monitor_blocks bt (Ok h0) t0
    [{| height := Ok (h0 + 3); block_timestamp := ts; perf_counter := t1 |}]
  = Ok (3, bt ++ repeat ((t1 - t0) * 1000 / 3)%float 3).
Proof.
  unfold BlocktimeFixed.monitor_blocks. cbn [mbind result_bind Py.bind fold_left].
  rewrite (fixed_poll_step_advance _ _ (h0 + 3) 3%float); cbn;
    [|reflexivity|lia|by replace (h0 + 3 - h0) with 3 by lia].
  by replace (h0 + 3 - h0) with 3 by lia.
Qed.

End StalledChain.
(* ===================================================================== *)
(** * Requests and answers of one batch; the verdict line *)
(* ===================================================================== *)

Section BatchRequests.

Lemma mapM_result_Forall2 {A B} (f : A -> result B) l ys :
  mapM f l = Ok ys -> Forall2 (fun x y => f x = Ok y) l ys.
Proof.
  revert ys. induction l as [|x l IH]; intros ys; cbn.
  - intros [= <-]. constructor.
  - destruct (f x) as [y|e] eqn:Hy; cbn; [|done].
    destruct (mapM f l) as [k|e]; cbn; [|done].
    intros [= <-]. constructor; [done|]. by apply IH.
Qed.

(** Building the requests while signing, or after all are signed, gives
    the same requests. *)
Lemma mapM_then_zip {A B C} (f : A -> result B) (g : B -> A -> C) l :
  mapM (fun i => raw ← f i; Ok (g raw i)) l
  = (txs ← mapM f l; Ok (zip_with g txs l)).
Proof.
  induction l as [|x l IH]; cbn; [done|].
  destruct (f x) as [y|e]; cbn; [|done].
  rewrite IH. by destruct (mapM f l).
Qed.

Lemma zip_with_seqZ_imap {B C} (g : B -> Z -> C) (txs : list B) : forall s,
  zip_with g txs (seqZ s (len txs))
  = imap (fun k tx => g tx (s + Z.of_nat k)) txs.
Proof.
  unfold len. induction txs as [|tx txs IH]; intros s; [done|].
  cbn [length]. rewrite Nat2Z.inj_succ, seqZ_cons by lia.
  cbn [zip_with imap]. rewrite Z.add_0_r. f_equal.
  replace (Z.pred (Z.succ (Z.of_nat (length txs))))
    with (Z.of_nat (length txs)) by lia.
  rewrite IH. apply imap_ext. intros k y _. cbn. f_equal. lia.
Qed.

Lemma seqZ_len_mapM {B} (f : Z -> result B) s n txs :
  mapM f (seqZ s n) = Ok txs -> seqZ s n = seqZ s (len txs).
Proof.
  intros H%mapM_result_length. unfold len. rewrite H, length_seqZ.
  destruct (Z.le_gt_cases n 0).
  - by rewrite !seqZ_nil by lia.
  - f_equal. lia.
Qed.

End BatchRequests.

Section BatchAnswers.

(** The counters after a batch are those of counting the answers of the
    endpoint to the batch's own requests. *)
Lemma blocktime_batch_answers accounts env c from_account nonce_start B c' :
  Blocktime.send_transaction_batch accounts env c from_account nonce_start B
  = Ok c' ->
  exists raws,
    mapM (signed_hex accounts env from_account nonce_start) (seqZ 0 B)
    = Ok raws /\
    len raws = Z.max 0 B /\
    c' = fold_left count_response (batch_responses env raws) c.
Proof.
  unfold Blocktime.send_transaction_batch. rewrite mapM_then_zip.
  destruct (mapM _ (seqZ 0 B)) as [raws|e] eqn:Hraws; cbn; [|done].
  intros [= <-]. exists raws. split; [done|]. split.
  - apply mapM_result_length in Hraws. unfold len.
    rewrite Hraws, length_seqZ. lia.
  - unfold batch_responses, batch_requests.
    by rewrite <- (seqZ_len_mapM _ _ _ _ Hraws).
Qed.

Lemma highperf_batch_answers accounts env c from_account nonce_start B c' k :
  HighPerf.send_transaction_batch_optimized
    accounts env c from_account nonce_start B = Ok (c', k) ->
  exists raws,
    mapM (signed_hex accounts env from_account nonce_start) (seqZ 0 B)
    = Ok raws /\
    len raws = Z.max 0 B /\
    c' = fold_left count_response (batch_responses env raws) c /\
    k = len (filter (fun r => accepted r = true) (batch_responses env raws)).
Proof.
  unfold HighPerf.send_transaction_batch_optimized.
  destruct (mapM _ (seqZ 0 B)) as [raws|e] eqn:Hraws;
    cbn -[HighPerf.batch_tasks]; [|done].
  intros [= <- <-]. exists raws. split; [done|]. split.
  - apply mapM_result_length in Hraws. unfold len.
    rewrite Hraws, length_seqZ. lia.
  - unfold batch_responses, batch_requests.
    by rewrite batch_tasks_spec, zip_with_seqZ_imap.
Qed.

Lemma batch_responses_length env raws :
  len (batch_responses env raws) = len raws.
Proof.
  unfold batch_responses, batch_requests, len.
  rewrite length_map, length_zip_with, length_seqZ. lia.
Qed.

End BatchAnswers.

Section VerdictLine.
Context `{!Statistics}.

Lemma not_verdict_line l t : is_verdict l = false -> Verdict t <> l.
Proof. by intros Hl <-. Qed.

Lemma highperf_analysis_verdict_line data tx D lines :
  data <> [] ->
  HighPerf.analysis data tx D = Ok lines ->
  exists avg tps,
    mean data = Ok avg /\ int_truediv (sent tx) D = Ok tps /\
    forall t, Verdict t ∈ lines <-> t = HighPerf.verdict avg tps.
Proof.
  unfold HighPerf.analysis. destruct data as [|x data]; [done|].
  intros _ Hrep. cbn in Hrep. repeat run_call Hrep.
  injection Hrep as <-.
  repeat match goal with
         | Hu : under _ _ = Ok _ |- _ => apply under_line in Hu as [Hu _]
         end.
  eexists _, _. split; [done|]. split; [done|]. intros t.
  rewrite !elem_of_cons. split.
  - intros Hin.
    do 12 (destruct Hin as [Hin|Hin];
           [first [discriminate Hin | congruence
                  | by (subst; cbn in *)]|]).
    destruct (HighPerf.verdict _ _); try by apply not_elem_of_nil in Hin.
    destruct (PrimFloat.ltb _ _); [|by apply not_elem_of_nil in Hin].
    apply elem_of_cons in Hin as [Hin|Hin]; [discriminate Hin|].
    by apply not_elem_of_nil in Hin.
  - intros ->. do 11 right. by left.
Qed.

Lemma blocktime_analysis_verdict_line data tx D lines :
  data <> [] ->
  Blocktime.analysis data tx D = Ok lines ->
  exists avg,
    mean data = Ok avg /\
    forall t, Verdict t ∈ lines <-> t = Blocktime.verdict avg.
Proof.
  unfold Blocktime.analysis. destruct data as [|x data]; [done|].
  intros _ Hrep. cbn in Hrep. repeat run_call Hrep.
  injection Hrep as <-.
  repeat match goal with
         | Hu : under _ _ = Ok _ |- _ => apply under_line in Hu as [Hu _]
         end.
  eexists. split; [done|]. intros t.
  rewrite !elem_of_cons. split.
  - intros Hin.
    do 11 (destruct Hin as [Hin|Hin];
           [first [discriminate Hin | congruence
                  | by (subst; cbn in *)]|]).
    by apply not_elem_of_nil in Hin.
  - intros ->. do 10 right. by left.
Qed.

End VerdictLine.


(** The sample of [simple_blocktime_test.py] for two blocks with the same
    timestamp is 85. *)
Lemma simple_equal_timestamp_sample st n ts :
  Simple.last_block_number st < n ->
  ts = Simple.last_timestamp st ->
  Simple.block_times (Simple.poll_step st (Simple.Block n ts))
  = Simple.block_times st ++ [85].
Proof.
  intros Hlt ->. unfold Simple.poll_step.
  destruct (Z.ltb_spec (Simple.last_block_number st) n); [|lia].
  cbn [Simple.block_times]. unfold Simple.block_sample.
  by replace (Simple.last_timestamp st - Simple.last_timestamp st) with 0 by lia.
Qed.

(** So is the sample of [stress_test_blocktime.py], as long as the recorded
    timestamp is not 0. *)
Lemma blocktime_equal_timestamp_sample st o h ts :
  height o = Ok h ->
  Blocktime.last_block st < h ->
  block_timestamp o = Ok ts ->
  Blocktime.last_timestamp st = Some ts ->
  ts <> 0 ->
  Blocktime.block_times (Blocktime.poll_step st o)
  = Blocktime.block_times st ++ [85].
Proof.
  intros Hh Hlt Hts Hlast Hnz. unfold Blocktime.poll_step.
  rewrite Hh, Hts. destruct (Z.ltb_spec (Blocktime.last_block st) h); [|lia].
  cbn [Blocktime.block_times]. unfold Blocktime.block_sample.
  rewrite Hlast. cbn [truthy].
  destruct (Z.eqb_spec ts 0); [done|]. cbn [negb].
  by replace (ts - ts) with 0 by lia.
Qed.

Lemma fixed_poll_step_view st o o' :
  same_clock_view o o' ->
  BlocktimeFixed.poll_step st o = BlocktimeFixed.poll_step st o'.
Proof.
  intros [Hh Hp]. unfold BlocktimeFixed.poll_step. by rewrite Hh, Hp.
Qed.

Lemma blocktime_poll_step_view st o o' :
  same_chain_view o o' ->
  Blocktime.poll_step st o = Blocktime.poll_step st o'.
Proof.
  intros [Hh Hp]. unfold Blocktime.poll_step. by rewrite Hh, Hp.
Qed.

Lemma fold_left_Forall2 {S A} (R : A -> A -> Prop) (f : S -> A -> S) :
  (forall s x y, R x y -> f s x = f s y) ->
  forall xs ys, Forall2 R xs ys -> forall s, fold_left f xs s = fold_left f ys s.
Proof.
  intros Hf xs ys HR. induction HR as [|x y xs ys Hxy _ IH]; intros s; [done|].
  cbn. rewrite (Hf s x y Hxy). apply IH.
Qed.

Lemma blocktime_poll_step_at_most_one st o :
  (length (Blocktime.block_times (Blocktime.poll_step st o))
   <= length (Blocktime.block_times st) + 1)%nat.
Proof.
  destruct (blocktime_poll_step_samples st o) as [-> | [x ->]];
    [lia | rewrite length_app; cbn; lia].
Qed.

(* --------------------------------------------------------------------- *)
(** ** C1 *)

(** C1, counterexample: the monitor of [stress_test_blocktime.py], polled
    when the height has jumped by 3 blocks, appends one sample computed
    from the chain timestamps (1000 ms), not 3 samples of a third of the
    elapsed time.  (And the monitor of [stress_test_blocktime_fixed.py]
    appends nothing for a jump of 2^1024 blocks, which no float can
    divide by.) *)
Lemma C1_timestamp_monitor_counterexample :
  height jump_to_103 = Ok (Blocktime.last_block blocktime_at_100 + 3) /\
  Blocktime.block_times (Blocktime.poll_step blocktime_at_100 jump_to_103)
  = [1000] /\
  length (Blocktime.block_times
            (Blocktime.poll_step blocktime_at_100 jump_to_103)) <> 3%nat /\
  BlocktimeFixed.poll_step fixed_at_100 jump_out_of_range = fixed_at_100.
Proof.
  split; [reflexivity|]. split; [reflexivity|]. split; [discriminate|].
  vm_compute. reflexivity.
Qed.

(** C1, amended: on every poll of the monotonic-clock monitor
    ([stress_test_blocktime_fixed.py]; [stress_test_20k_tps.py] runs the
    same monitor) that sees the height advance by [delta >= 1] blocks,
    with [delta] convertible to the float [d], the time elapsed on the
    monotonic clock since the previous detection is divided by [d] and
    exactly [delta] samples equal to that average (in ms) are appended,
    the poll becoming the detection from which the next one measures; a
    jump of 3 blocks over [T] ms appends exactly 3 samples equal to
    [T / 3], and a monitor fed a single such poll returns 3 blocks and
    those 3 samples.  The timestamp monitor of [stress_test_blocktime.py]
    appends at most one sample per poll. *)
Theorem C1_elapsed_time_spread_over_blocks :
  (forall st o h d,
     height o = Ok h ->
     BlocktimeFixed.last_block st < h ->
     float_of_int (h - BlocktimeFixed.last_block st) = Ok d ->
     let delta := h - BlocktimeFixed.last_block st in
     let T := ((perf_counter o - BlocktimeFixed.last_block_time st)
               * 1000)%float in
     let st' := BlocktimeFixed.poll_step st o in
     BlocktimeFixed.block_times st'
     = BlocktimeFixed.block_times st ++ repeat (T / d)%float (Z.to_nat delta)
     /\ len (BlocktimeFixed.block_times st')
        = len (BlocktimeFixed.block_times st) + delta
     /\ BlocktimeFixed.last_block st' = h
     /\ BlocktimeFixed.last_block_time st' = perf_counter o
     /\ (delta = 3 ->
         BlocktimeFixed.block_times st'
         = BlocktimeFixed.block_times st
             ++ [(T / 3)%float; (T / 3)%float; (T / 3)%float]))
  /\ (forall h0 t0 t1 ts,
        HighPerf.monitor_blocks [] (Ok h0) t0
          [{| height := Ok (h0 + 3); block_timestamp := ts;
              perf_counter := t1 |}]
        = Ok (3, repeat ((t1 - t0) * 1000 / 3)%float 3))
  /\ (forall st o,
        (length (Blocktime.block_times (Blocktime.poll_step st o))
         <= length (Blocktime.block_times st) + 1)%nat).
Proof.
  split; [|split; [intros; apply (fixed_monitor_jump_of_three [])|]].
  - intros st o h d Hh Hlt Hd delta T st'.
    assert (Hst' : BlocktimeFixed.block_times st'
                   = BlocktimeFixed.block_times st
                       ++ repeat (T / d)%float (Z.to_nat delta)).
    { subst st'. by rewrite (fixed_poll_step_advance st o h d). }
    split; [exact Hst'|]. split; [|split; [|split]].
    + rewrite Hst'. unfold len. rewrite length_app, repeat_length. lia.
    + subst st'. by rewrite (fixed_poll_step_advance st o h d).
    + subst st'. by rewrite (fixed_poll_step_advance st o h d).
    + intros H3. rewrite Hst'. subst delta. rewrite H3 in Hd |- *.
      injection Hd as <-. reflexivity.
  - apply blocktime_poll_step_at_most_one.
Qed.

(** C1, witness: the monitor that last saw block 100 at 5.0 s finds block
    103 at 5.375 s and appends three samples of 125 ms. *)
Lemma C1_elapsed_time_spread_over_blocks_witness :
  height jump_to_103 = Ok 103 /\
  BlocktimeFixed.last_block fixed_at_100 < 103 /\
  float_of_int (103 - BlocktimeFixed.last_block fixed_at_100) = Ok 3%float /\
  BlocktimeFixed.block_times
    (BlocktimeFixed.poll_step fixed_at_100 jump_to_103)
  = [] ++ [125; 125; 125]%float.
Proof.
  split; [reflexivity|]. split; [reflexivity|]. split; [reflexivity|].
  apply (proj1 C1_elapsed_time_spread_over_blocks
               fixed_at_100 jump_to_103 103 3%float); reflexivity.
Defined.

(* --------------------------------------------------------------------- *)
(** ** C8 *)

(** C8, counterexample: on the same two polls, 125 ms apart and each
    finding one new block with an unchanged chain timestamp, the monitor of
    [stress_test_blocktime_fixed.py] records two samples of 125 ms measured
    on the monotonic clock, and the monitor of [stress_test_blocktime.py]
    records the single sample 85. *)
Lemma C8_monitors_differ_counterexample :
  BlocktimeFixed.monitor_blocks [] (Ok 100) 5 steady_feed
  = Ok (2, [125; 125]%float) /\
  Blocktime.monitor_blocks [] (Ok 100) steady_feed = Ok (2, [85]) /\
  same_samples [125; 125]%float [85] = false.
Proof. repeat split. Qed.

(** C8, amended: the two monitors are not equivalent.  The monitor of
    [stress_test_blocktime_fixed.py] measures on the monotonic clock only:
    its result does not depend on the chain timestamps.  The monitor of
    [stress_test_blocktime.py] measures with the chain timestamps only: its
    result does not depend on the monotonic clock.  On a detected advance
    the latter appends at most one sample, the former one sample per
    block.  Both leave their samples unchanged on a poll that fails or
    shows no new height. *)
Theorem C8_monitors_measure_with_different_clocks :
  (forall bt first t0 polls polls',
     Forall2 same_clock_view polls polls' ->
     BlocktimeFixed.monitor_blocks bt first t0 polls
     = BlocktimeFixed.monitor_blocks bt first t0 polls')
  /\ (forall bt first polls polls',
        Forall2 same_chain_view polls polls' ->
        Blocktime.monitor_blocks bt first polls
        = Blocktime.monitor_blocks bt first polls')
  /\ (forall st o,
        (length (Blocktime.block_times (Blocktime.poll_step st o))
         <= length (Blocktime.block_times st) + 1)%nat)
  /\ (forall st o h d,
        height o = Ok h ->
        BlocktimeFixed.last_block st < h ->
        float_of_int (h - BlocktimeFixed.last_block st) = Ok d ->
        len (BlocktimeFixed.block_times (BlocktimeFixed.poll_step st o))
        = len (BlocktimeFixed.block_times st)
          + (h - BlocktimeFixed.last_block st))
  /\ (forall st st' o,
        no_advance (BlocktimeFixed.last_block st) o ->
        no_advance (Blocktime.last_block st') o ->
        BlocktimeFixed.block_times (BlocktimeFixed.poll_step st o)
        = BlocktimeFixed.block_times st /\
        Blocktime.block_times (Blocktime.poll_step st' o)
        = Blocktime.block_times st').
Proof.
  repeat split.
  - intros bt first t0 polls polls' HR. unfold BlocktimeFixed.monitor_blocks.
    destruct first as [h0|e]; [|reflexivity]. cbn.
    by rewrite (fold_left_Forall2 same_clock_view BlocktimeFixed.poll_step
                  (fun s x y => fixed_poll_step_view s x y) polls polls' HR).
  - intros bt first polls polls' HR. unfold Blocktime.monitor_blocks.
    destruct first as [h0|e]; [|reflexivity]. cbn.
    by rewrite (fold_left_Forall2 same_chain_view Blocktime.poll_step
                  (fun s x y => blocktime_poll_step_view s x y) polls polls' HR).
  - apply blocktime_poll_step_at_most_one.
  - intros st o h d Hh Hlt Hd.
    rewrite (fixed_poll_step_advance st o h d Hh Hlt Hd).
    cbn [BlocktimeFixed.block_times]. unfold len.
    rewrite length_app, repeat_length. lia.
  - by rewrite fixed_poll_step_idle.
  - by rewrite blocktime_poll_step_idle.
Qed.

(** C8, witness: the monotonic-clock monitor gives the same result on two
    feeds that differ in chain timestamps only. *)
Lemma C8_monitors_measure_with_different_clocks_witness :
  Forall2 same_clock_view steady_feed steady_feed_other_stamps /\
  BlocktimeFixed.monitor_blocks [] (Ok 100) 5 steady_feed
  = BlocktimeFixed.monitor_blocks [] (Ok 100) 5 steady_feed_other_stamps.
Proof.
  assert (H : Forall2 same_clock_view steady_feed steady_feed_other_stamps)
    by (repeat constructor).
  split; [exact H|].
  exact (proj1 C8_monitors_measure_with_different_clocks
               [] (Ok 100) 5%float _ _ H).
Defined.

(* --------------------------------------------------------------------- *)
(** ** C9 *)

(** C9, at the failing input: on a chain whose blocks are stamped 0, the
    monitor of [stress_test_blocktime.py] sees block 102 carry the
    timestamp recorded for block 101 and records no sample at all, because
    [if last_timestamp:] takes the recorded 0 for "no block seen yet".  On
    the same blocks the monitor of [simple_blocktime_test.py] records 85
    for each. *)
Theorem C9_zero_timestamp_records_nothing :
  Blocktime.monitor_blocks [] (Ok 100) epoch_feed = Ok (2, []) /\
  Simple.monitor [] (Simple.Block 100 0)
                 [Simple.Block 101 0; Simple.Block 102 0]
  = Some (2, [85; 85]).
Proof. split; reflexivity. Qed.

(* --------------------------------------------------------------------- *)
(** ** C3 *)

(** C3: in a load phase of [stress_test_blocktime_fixed.py] or of
    [stress_test_20k_tps.py], take an account [a] whose nonce counter
    starts at [n0], and the reservations [rs] made for it, in order.  Each
    reservation starts at the counter left by the one before and moves the
    counter on by its size, which is never negative ([chained]); the
    counter ends at [n0] plus the total reserved, so it never decreases;
    and the nonces of all the reserved ranges, laid end to end, are exactly
    [n0, n0 + 1, ..., n0 + total - 1]: no gap, no overlap, no repetition.
    The scheduling loop of one tick always succeeds on accounts that have a
    counter, and hands out ranges chained in the same way. *)
Theorem C3_reserved_nonce_ranges_are_contiguous :
  forall accounts get_transaction_count tx0 tps_target t0 rounds nc0 a n0,
    BlocktimeFixed.initial_nonces get_transaction_count accounts = Ok nc0 ->
    nc0 !! a = Some n0 ->
    (forall st,
       BlocktimeFixed.stress_test_transactions
         accounts get_transaction_count tx0 tps_target t0 rounds = Ok st ->
       let rs := reservations a (trace st) in
       chained n0 rs /\
       nonce_counters st !! a = Some (n0 + total_reserved rs) /\
       nonces rs = seqZ n0 (total_reserved rs) /\
       NoDup (nonces rs) /\
       n0 <= n0 + total_reserved rs)
    /\
    (forall st,
       HighPerf.stress_test_transactions_optimized
         accounts get_transaction_count tx0 tps_target t0 rounds = Ok st ->
       let rs := reservations a (trace st) in
       chained n0 rs /\
       nonce_counters st !! a = Some (n0 + total_reserved rs) /\
       nonces rs = seqZ n0 (total_reserved rs) /\
       NoDup (nonces rs) /\
       n0 <= n0 + total_reserved rs)
    /\
    (forall senders nc n,
       nc !! a = Some n ->
       Forall (fun x => is_Some (nc !! address x)) senders ->
       exists tasks nc',
         BlocktimeFixed.schedule 1000 senders nc = Ok (tasks, nc') /\
         chained n (reservations a tasks) /\
         nc' !! a = Some (n + total_reserved (reservations a tasks)))
    /\
    (forall txs_per_account senders nc n,
       0 <= txs_per_account ->
       nc !! a = Some n ->
       Forall (fun x => is_Some (nc !! address x)) senders ->
       exists tasks nc',
         HighPerf.schedule txs_per_account senders nc = Ok (tasks, nc') /\
         chained n (reservations a tasks) /\
         nc' !! a = Some (n + total_reserved (reservations a tasks))).
Proof.
  intros accounts gtc tx0 tps t0 rounds nc0 a n0 Hnc Hn0.
  split; [|split; [|split]].
  - intros st Hst. eapply nonce_invariant_ranges; [|exact Hn0].
    eapply fixed_phase_invariant; eassumption.
  - intros st Hst. eapply nonce_invariant_ranges; [|exact Hn0].
    eapply highperf_phase_invariant; eassumption.
  - intros senders nc n Hn Hall. rewrite schedule_fixed_eq.
    destruct (reserve_fold_returns (int_floordiv 1000 (len senders))
                senders [] nc) as (tasks & nc' & Hs); [|done|].
    { intros Hne. unfold int_floordiv, len.
      destruct senders; [done|]. cbn [length].
      destruct (Z.eqb_spec (Z.of_nat (S (length senders))) 0); [lia|].
      by eexists. }
    exists tasks, nc'. split; [done|].
    apply reserve_fold in Hs as (new & Heq & _ & _ & Hres);
      [|intros c0; apply int_floordiv_nonneg; [lia|apply len_nonneg]].
    cbn in Heq. subst tasks. by apply Hres.
  - intros txs senders nc n Htxs Hn Hall. rewrite schedule_highperf_eq.
    destruct (reserve_fold_returns (Ok txs) senders [] nc)
      as (tasks & nc' & Hs); [by eexists|done|].
    exists tasks, nc'. split; [done|].
    apply reserve_fold in Hs as (new & Heq & _ & _ & Hres);
      [|by intros c0 [= <-]].
    cbn in Heq. subst tasks. by apply Hres.
Qed.

(** C3, witness: two iterations of the loop of
    [stress_test_blocktime_fixed.py] over two accounts; the first account,
    whose nonce starts at 7, is handed 7..506 and then 507..1006. *)
Lemma C3_reserved_nonce_ranges_are_contiguous_witness :
  exists st,
    BlocktimeFixed.stress_test_transactions
      [alice; bob] pending_nonces (TxResults 0 0 0 0) 20000 10
      [slow_round; next_round] = Ok st /\
    reservations "0xA11CE" (trace st) = [(7, 500); (507, 500)] /\
    nonces (reservations "0xA11CE" (trace st))
    = seqZ 7 (total_reserved (reservations "0xA11CE" (trace st))).
Proof.
  eexists. split; [vm_compute; reflexivity|]. split; [reflexivity|].
  refine (proj1 (proj2 (proj2
    (proj1 (C3_reserved_nonce_ranges_are_contiguous
              [alice; bob] pending_nonces (TxResults 0 0 0 0) 20000 10%float
              [slow_round; next_round] _ "0xA11CE"%string 7 eq_refl eq_refl)
           _ _)))).
  vm_compute; reflexivity.
Defined.

(* --------------------------------------------------------------------- *)
(** ** C10 *)

(** C10: every response of a batch adds one to exactly one of ['sent'] and
    ['failed'] and leaves the other counters alone: a response whose
    document is an object with a ['result'] field counts as sent; an
    exception object, an object without ['result'] (an error answer) and a
    body that does not parse count as failed.  A batch that
    [send_transaction_batch] (or [send_transaction_batch_optimized]) has
    processed has signed its transactions, posted the [k]-th with id [k],
    and counted the answers of the endpoint to these very requests:
    ['sent'] is greater by the number of answers with a ['result'] field,
    ['failed'] by the number of the other answers, ['confirmed'] and
    ['pending'] are as before, and the optimized batch returns the number
    of answers with a ['result'] field.  Hence a batch of [B] submissions
    leaves [sent + failed] greater by exactly [B], neither counter lower
    than before; and a batch whose transactions the signer accepts is
    always processed. *)
Theorem C10_every_response_counted_once :
  (forall c r,
     confirmed (count_response c r) = confirmed c /\
     pending (count_response c r) = pending c /\
     ((accepted r = true /\
       sent (count_response c r) = sent c + 1 /\
       failed (count_response c r) = failed c) \/
      (accepted r = false /\
       sent (count_response c r) = sent c /\
       failed (count_response c r) = failed c + 1)))
  /\ (forall fields,
        accepted (Answer (Ok (JDict fields))) = true
        <-> exists v, ("result"%string, v) ∈ fields)
  /\ accepted Failure = false
  /\ (forall e, accepted (Answer (Raise e)) = false)
  /\ (forall accounts env c from_account nonce_start B c',
        Blocktime.send_transaction_batch
          accounts env c from_account nonce_start B = Ok c' ->
        exists raws,
          mapM (signed_hex accounts env from_account nonce_start) (seqZ 0 B)
          = Ok raws /\
          len (batch_responses env raws) = Z.max 0 B /\
          sent c' = sent c + len (filter (fun r => accepted r = true)
                                         (batch_responses env raws)) /\
          failed c' = failed c + len (filter (fun r => accepted r = false)
                                             (batch_responses env raws)) /\
          confirmed c' = confirmed c /\ pending c' = pending c)
  /\ (forall accounts env c from_account nonce_start B c' k,
        HighPerf.send_transaction_batch_optimized
          accounts env c from_account nonce_start B = Ok (c', k) ->
        exists raws,
          mapM (signed_hex accounts env from_account nonce_start) (seqZ 0 B)
          = Ok raws /\
          len (batch_responses env raws) = Z.max 0 B /\
          sent c' = sent c + len (filter (fun r => accepted r = true)
                                         (batch_responses env raws)) /\
          failed c' = failed c + len (filter (fun r => accepted r = false)
                                             (batch_responses env raws)) /\
          confirmed c' = confirmed c /\ pending c' = pending c /\
          k = len (filter (fun r => accepted r = true)
                          (batch_responses env raws)))
  /\ (forall accounts env c from_account nonce_start B c',
        0 <= B ->
        Blocktime.send_transaction_batch
          accounts env c from_account nonce_start B = Ok c' ->
        sent c' + failed c' = sent c + failed c + B /\
        sent c <= sent c' /\ failed c <= failed c')
  /\ (forall accounts env c from_account nonce_start B c' k,
        0 <= B ->
        HighPerf.send_transaction_batch_optimized
          accounts env c from_account nonce_start B = Ok (c', k) ->
        sent c' + failed c' = sent c + failed c + B /\
        sent c <= sent c' /\ failed c <= failed c' /\
        k = sent c' - sent c)
  /\ (forall accounts env c from_account nonce_start B,
        accounts <> [] ->
        (forall tx key, exists raw, sign_transaction env tx key = Ok raw) ->
        (exists c',
           Blocktime.send_transaction_batch
             accounts env c from_account nonce_start B = Ok c') /\
        (exists c' k,
           HighPerf.send_transaction_batch_optimized
             accounts env c from_account nonce_start B = Ok (c', k))).
Proof.
  split; [|split; [|split; [|split; [|split; [|split; [|split; [|split]]]]]]].
  - intros c r. unfold count_response.
    destruct (accepted r); cbn; repeat split; auto.
  - apply accepted_dict.
  - reflexivity.
  - reflexivity.
  - intros accounts env c from_account nonce_start B c' Hb.
    destruct (blocktime_batch_answers _ _ _ _ _ _ _ Hb)
      as (raws & Hraws & Hlen & ->).
    exists raws. split; [exact Hraws|].
    split; [by rewrite batch_responses_length|].
    destruct (count_responses_totals (batch_responses env raws) c)
      as (Hs & Hf & Hc & Hp & _).
    auto.
  - intros accounts env c from_account nonce_start B c' k Hb.
    destruct (highperf_batch_answers _ _ _ _ _ _ _ _ Hb)
      as (raws & Hraws & Hlen & -> & ->).
    exists raws. split; [exact Hraws|].
    split; [by rewrite batch_responses_length|].
    destruct (count_responses_totals (batch_responses env raws) c)
      as (Hs & Hf & Hc & Hp & _).
    auto 6.
  - intros accounts env c from_account nonce_start B c' HB Hb.
    destruct (blocktime_batch_counts _ _ _ _ _ _ _ HB Hb)
      as (rs & Hlen & ->).
    destruct (count_responses_totals rs c) as (Hs & Hf & _ & _ & Hsum).
    pose proof (len_nonneg (filter (fun r => accepted r = true) rs)).
    pose proof (len_nonneg (filter (fun r => accepted r = false) rs)).
    lia.
  - intros accounts env c from_account nonce_start B c' k HB Hb.
    destruct (highperf_batch_counts _ _ _ _ _ _ _ _ HB Hb)
      as (rs & Hlen & -> & ->).
    destruct (count_responses_totals rs c) as (Hs & Hf & _ & _ & Hsum).
    pose proof (len_nonneg (filter (fun r => accepted r = true) rs)).
    pose proof (len_nonneg (filter (fun r => accepted r = false) rs)).
    lia.
  - intros accounts env c from_account nonce_start B Hne Hsign. split.
    + by apply blocktime_batch_returns.
    + by apply highperf_batch_returns.
Qed.

(** C10, witness: a batch of 7 submissions from the first account, met by
    the endpoint that accepts the even ids only: the ids are 0 to 6, four
    answers have a ['result'] field and three have none, so ['sent'] moves
    from 5 to 9 and ['failed'] from 2 to 5. *)
Lemma C10_every_response_counted_once_witness :
  Blocktime.send_transaction_batch [alice; bob] mixed (TxResults 5 0 2 0)
                                   alice 40 7 = Ok (TxResults 9 0 5 0) /\
  map id (batch_requests (repeat "0xf86c0xA11CE"%string 7))
  = [0; 1; 2; 3; 4; 5; 6] /\
  len (filter (fun r => accepted r = true)
              (batch_responses mixed (repeat "0xf86c0xA11CE"%string 7))) = 4 /\
  len (filter (fun r => accepted r = false)
              (batch_responses mixed (repeat "0xf86c0xA11CE"%string 7))) = 3 /\
  exists raws,
    mapM (signed_hex [alice; bob] mixed alice 40) (seqZ 0 7) = Ok raws /\
    len (batch_responses mixed raws) = Z.max 0 7 /\
    sent (TxResults 9 0 5 0)
    = sent (TxResults 5 0 2 0)
      + len (filter (fun r => accepted r = true)
                    (batch_responses mixed raws)) /\
    failed (TxResults 9 0 5 0)
    = failed (TxResults 5 0 2 0)
      + len (filter (fun r => accepted r = false)
                    (batch_responses mixed raws)) /\
    confirmed (TxResults 9 0 5 0) = confirmed (TxResults 5 0 2 0) /\
    pending (TxResults 9 0 5 0) = pending (TxResults 5 0 2 0).
Proof.
  assert (Hb : Blocktime.send_transaction_batch
                 [alice; bob] mixed (TxResults 5 0 2 0) alice 40 7
               = Ok (TxResults 9 0 5 0)) by reflexivity.
  split; [exact Hb|].
  split; [reflexivity|]. split; [reflexivity|]. split; [reflexivity|].
  exact (proj1 (proj2 (proj2 (proj2 (proj2
           C10_every_response_counted_once))))
           [alice; bob] mixed (TxResults 5 0 2 0) alice 40 7
           (TxResults 9 0 5 0) Hb).
Defined.

(* --------------------------------------------------------------------- *)
(** ** C5 *)

(** C5, counterexample: with the target interval of 0.1 s, the batch of
    [slow_round] takes 0.5 s to build and dispatch, so closed-loop control
    would go on to the next batch at once; the generator of
    [stress_test_20k_tps.py] sleeps a whole interval before the next
    batch, and the one of [stress_test_blocktime.py] sleeps its whole
    delay of 0.05 s after every batch. *)
Lemma C5_sleep_after_slow_batch_counterexample :
  (clock_done slow_round - clock_begin slow_round = 0.5)%float /\
  int_truediv 2000 20000 = Ok 0.1%float /\
  closed_loop_sleep 0.1 0.5 = None /\
  (st ← HighPerf.stress_test_transactions_optimized
          [alice; bob] pending_nonces (TxResults 0 0 0 0) 20000 10
          [slow_round; next_round];
   Ok (trace st))
  = Ok [Sleep 0.1; Batch alice 7 1000; Batch bob 3 1000;
        Sleep 0.1; Batch bob 1003 1000; Batch alice 1007 1000] /\
  (st ← Blocktime.stress_test_transactions
          [alice; bob] (TxResults 0 0 0 0) 20000 10 [slow_round; next_round];
   Ok (sleeps (trace st)))
  = Ok [0.05; 0.05]%float.
Proof.
  split; [reflexivity|]. split; [vm_compute; reflexivity|].
  split; [reflexivity|]. split; vm_compute; reflexivity.
Qed.

(** C5, amended: in [stress_test_20k_tps.py] every iteration first
    compares the time since the previous [gather] completed (since the
    start, for the first iteration) with the target interval, sleeps the
    remainder if that time is shorter and goes on at once if not, then
    dispatches its batch and records the time at which the [gather]
    completed; the time the batch itself took is not measured, so the
    instant at which its construction began has no influence.  In
    [stress_test_blocktime.py] every iteration dispatches its batch and
    then sleeps the whole delay. *)
Theorem C5_rate_limiter_measures_idle_time :
  (forall accounts interval txs st r st',
     HighPerf.round_step accounts interval txs st r = Ok st' ->
     let idle := (clock_top r - last_batch_time st)%float in
     exists tasks,
       sleeps tasks = [] /\
       last_batch_time st' = clock_done r /\
       trace st'
       = trace st
           ++ (if (idle <? interval)%float
               then [Sleep (interval - idle)%float] else [])
           ++ tasks)
  /\ (forall accounts interval txs st r began,
        HighPerf.round_step accounts interval txs st (with_clock_begin r began)
        = HighPerf.round_step accounts interval txs st r)
  /\ (forall accounts delay st r st',
        Blocktime.round_step accounts delay st r = Ok st' ->
        exists tasks,
          sleeps tasks = [] /\
          trace st' = trace st ++ tasks ++ [Sleep delay]).
Proof.
  split; [|split].
  - intros accounts interval txs st r st' Hstep idle.
    destruct (highperf_round_trace _ _ _ _ _ _ Hstep)
      as (tasks & Hsl & _ & Hlast & Htr).
    exists tasks. split; [done|]. split; [done|].
    rewrite Htr. unfold HighPerf.rate_limit. fold idle.
    by destruct (idle <? interval)%float.
  - reflexivity.
  - intros accounts delay st r st' Hstep.
    destruct (blocktime_round_trace _ _ _ _ _ Hstep) as (tasks & Hsl & _ & Htr).
    by exists tasks.
Qed.

(** C5, witness: the iteration that follows a [gather] completed at
    10.625 s, entered at 10.625 s with an interval of 0.125 s, sleeps
    0.125 s and then dispatches. *)
Lemma C5_rate_limiter_measures_idle_time_witness :
  HighPerf.round_step [alice; bob] 0.125 4 after_gather prompt_round
  = Ok {| nonce_counters := {[ "0xB0B"%string := 7 ]};
          results := TxResults 4 0 0 0;
          last_batch_time := 11.25;
          trace := [Sleep 0.125; Batch bob 3 4] |} /\
  exists tasks,
    sleeps tasks = [] /\
    11.25%float = clock_done prompt_round /\
    [Sleep 0.125; Batch bob 3 4] = [] ++ [Sleep 0.125] ++ tasks.
Proof.
  assert (H : HighPerf.round_step [alice; bob] 0.125 4 after_gather prompt_round
              = Ok {| nonce_counters := {[ "0xB0B"%string := 7 ]};
                      results := TxResults 4 0 0 0;
                      last_batch_time := 11.25;
                      trace := [Sleep 0.125; Batch bob 3 4] |})
    by (vm_compute; reflexivity).
  split; [exact H|].
  exact (proj1 C5_rate_limiter_measures_idle_time
               [alice; bob] 0.125%float 4 after_gather prompt_round _ H).
Defined.

(* --------------------------------------------------------------------- *)
(** ** C7 *)

(** C7, counterexample: started with no account,
    [stress_test_transactions] of [stress_test_blocktime.py] raises
    nothing: it runs its iterations, each with an empty batch and a sleep
    of 0.05 s, and returns with the counters untouched. *)
Lemma C7_zero_accounts_counterexample :
  Blocktime.stress_test_transactions [] (TxResults 0 0 0 0) 20000 10
                                     [idle_round; idle_round]
  = Ok {| nonce_counters := ∅;
          results := TxResults 0 0 0 0;
          last_batch_time := 10;
          trace := [Sleep 0.05; Sleep 0.05] |}.
Proof. vm_compute. reflexivity. Qed.

(** C7, amended: no configuration error exists for an empty account
    list.  In [stress_test_blocktime.py] the load phase runs all its
    iterations, each dispatching an empty batch and sleeping the batch
    delay, and returns normally with the counters unchanged.  In
    [stress_test_20k_tps.py] the phase ends with an exception before the
    first iteration, raised by the division that shares the batch among
    the senders ([ZeroDivisionError] for the target rate of 20000 that
    [run_full_test] passes). *)
Theorem C7_zero_accounts_are_not_detected :
  (forall tx0 tps_target t0 rounds delay,
     int_truediv 1000 tps_target = Ok delay ->
     Forall (fun r => valid_sample [] (Z.min 50 (len (@nil account)))
                                   (sample r)) rounds ->
     Blocktime.stress_test_transactions [] tx0 tps_target t0 rounds
     = Ok {| nonce_counters := ∅;
             results := tx0;
             last_batch_time := t0;
             trace := repeat (Sleep delay) (length rounds) |})
  /\ (forall get_transaction_count tx0 tps_target t0 rounds,
        exists e,
          HighPerf.stress_test_transactions_optimized
            [] get_transaction_count tx0 tps_target t0 rounds = Raise e)
  /\ (forall get_transaction_count tx0 t0 rounds,
        HighPerf.stress_test_transactions_optimized
          [] get_transaction_count tx0 20000 t0 rounds
        = Raise ZeroDivisionError).
Proof.
  split; [|split].
  - intros tx0 tps t0 rounds delay Hdelay Hvalid.
    unfold Blocktime.stress_test_transactions. rewrite Hdelay. cbn.
    rewrite blocktime_rounds_idle; [done|].
    eapply Forall_impl; [exact Hvalid|]. intros r. apply valid_sample_nil.
  - intros gtc tx0 tps t0 rounds.
    unfold HighPerf.stress_test_transactions_optimized. cbn.
    destruct (int_truediv 2000 tps) as [interval|e]; cbn; by eexists.
  - reflexivity.
Qed.

(** C7, witness: two iterations of the generator of
    [stress_test_blocktime.py] without accounts. *)
Lemma C7_zero_accounts_are_not_detected_witness :
  int_truediv 1000 20000 = Ok 0.05%float /\
  Forall (fun r => valid_sample [] (Z.min 50 (len (@nil account))) (sample r))
         [idle_round; idle_round] /\
  Blocktime.stress_test_transactions [] (TxResults 0 0 7 0) 20000 10
                                     [idle_round; idle_round]
  = Ok {| nonce_counters := ∅;
          results := TxResults 0 0 7 0;
          last_batch_time := 10;
          trace := repeat (Sleep 0.05) 2 |}.
Proof.
  assert (Hd : int_truediv 1000 20000 = Ok 0.05%float)
    by (vm_compute; reflexivity).
  assert (Hv : Forall (fun r => valid_sample [] (Z.min 50 (len (@nil account)))
                                             (sample r))
                      [idle_round; idle_round])
    by (repeat constructor).
  split; [exact Hd|]. split; [exact Hv|].
  exact (proj1 C7_zero_accounts_are_not_detected
               (TxResults 0 0 7 0) 20000 10%float [idle_round; idle_round]
               0.05%float Hd Hv).
Defined.

(* --------------------------------------------------------------------- *)
(** ** C2 *)

(** C2, counterexample: in [stress_test_blocktime.py] a loaded phase
    whose monitor saw two blocks with the same timestamp (one sample, of
    85 ms) while no transaction was sent at all (a throughput of 0, far
    below 18000) gets the top verdict: its rule chain looks at the mean
    interval only. *)
Lemma C2_verdict_without_throughput_counterexample :
  Blocktime.monitor_blocks [] (Ok 100) (take 3 second_feed) = Ok (2, [85]) /\
  Blocktime.analysis (H := plain_statistics)
                     (map PInt [85]) (TxResults 0 0 5 0) 30
  = Ok [Average (PInt 85); StdDev (PInt 0); Min (PInt 85); Max (PInt 85);
        Percentile 95 (PInt 85); Under 85 1 1 100; Under 100 1 1 100;
        TransactionsSent 0; TransactionsFailed 5; EffectiveTPS 0;
        Verdict Maintained] /\
  ge_lit (PFloat 0) 18000 = false.
Proof. repeat split; vm_compute; reflexivity. Qed.

(** C2, amended: the report of the loaded phase of
    [stress_test_20k_tps.py] holds one verdict, the ordered rule chain of
    the claim applied to the mean of the samples and to the throughput,
    which is the ['sent'] counter divided by the stress duration; the chain
    has inclusive boundaries: top tier if and only if mean <= 85 and
    throughput >= 18000; otherwise middle tier if and only if mean <= 100
    and throughput >= 15000; otherwise the failing tier.  The report of
    [stress_test_blocktime.py] holds one verdict as well, the same chain on
    the mean of the samples alone (<= 85, else <= 100, else failing); it
    does not look at the throughput.  Both put a mean of 90 ms with a
    throughput of 16000 in the middle tier.  Run with the plain
    statistics: samples of 70 and 110 ms (mean 90) with 480000 sent in
    30 s (16000 per second) give the middle tier, and so they do with
    540000 sent (18000 per second); samples of 80 and 90 ms (mean 85) with
    540000 sent give the top tier; in [stress_test_blocktime.py], sixty
    samples of 85 ms and one of 1000 ms (mean 100) give the middle
    tier. *)
Theorem C2_verdict_rule_chain `{!Statistics} :
  (forall avg tps,
     (HighPerf.verdict avg tps = Maintained
      <-> le_lit avg 85 = true /\ ge_lit (PFloat tps) 18000 = true) /\
     (HighPerf.verdict avg tps = Sub100
      <-> ~ (le_lit avg 85 = true /\ ge_lit (PFloat tps) 18000 = true) /\
          le_lit avg 100 = true /\ ge_lit (PFloat tps) 15000 = true) /\
     (HighPerf.verdict avg tps = NotMaintained
      <-> ~ (le_lit avg 85 = true /\ ge_lit (PFloat tps) 18000 = true) /\
          ~ (le_lit avg 100 = true /\ ge_lit (PFloat tps) 15000 = true)))
  /\ (forall avg,
        (Blocktime.verdict avg = Maintained <-> le_lit avg 85 = true) /\
        (Blocktime.verdict avg = Sub100
         <-> le_lit avg 85 = false /\ le_lit avg 100 = true) /\
        (Blocktime.verdict avg = NotMaintained
         <-> le_lit avg 85 = false /\ le_lit avg 100 = false))
  /\ (forall data tx stress_duration lines,
        data <> [] ->
        HighPerf.analysis data tx stress_duration = Ok lines ->
        exists avg tps,
          mean data = Ok avg /\
          int_truediv (sent tx) stress_duration = Ok tps /\
          forall t, Verdict t ∈ lines <-> t = HighPerf.verdict avg tps)
  /\ (forall data tx stress_duration lines,
        data <> [] ->
        Blocktime.analysis data tx stress_duration = Ok lines ->
        exists avg,
          mean data = Ok avg /\
          forall t, Verdict t ∈ lines <-> t = Blocktime.verdict avg)
  /\ HighPerf.verdict (PFloat 90) 16000 = Sub100
  /\ HighPerf.verdict (PInt 90) 16000 = Sub100
  /\ HighPerf.verdict (PFloat 85) 18000 = Maintained
  /\ HighPerf.verdict (PFloat 100) 15000 = Sub100
  /\ Blocktime.verdict (PFloat 90) = Sub100
  /\ HighPerf.analysis (H := plain_statistics)
       [PFloat 70; PFloat 110] (TxResults 480000 0 5 0) 30
     = Ok [Average (PFloat 90); StdDev (PFloat 28.284271247461902);
           Min (PFloat 70); Max (PFloat 110); Percentile 95 (PFloat 110);
           Under 85 1 2 50; Under 100 1 2 50; TransactionsSent 480000;
           TransactionsFailed 5; EffectiveTPS 16000; AchievementRate 80;
           Verdict Sub100]
  /\ HighPerf.analysis (H := plain_statistics)
       [PFloat 70; PFloat 110] (TxResults 540000 0 5 0) 30
     = Ok [Average (PFloat 90); StdDev (PFloat 28.284271247461902);
           Min (PFloat 70); Max (PFloat 110); Percentile 95 (PFloat 110);
           Under 85 1 2 50; Under 100 1 2 50; TransactionsSent 540000;
           TransactionsFailed 5; EffectiveTPS 18000; AchievementRate 90;
           Verdict Sub100]
  /\ HighPerf.analysis (H := plain_statistics)
       [PFloat 80; PFloat 90] (TxResults 540000 0 5 0) 30
     = Ok [Average (PFloat 85); StdDev (PFloat 7.0710678118654755);
           Min (PFloat 80); Max (PFloat 90); Percentile 95 (PFloat 90);
           Under 85 1 2 50; Under 100 2 2 100; TransactionsSent 540000;
           TransactionsFailed 5; EffectiveTPS 18000; AchievementRate 90;
           Verdict Maintained]
  /\ (lines ← Blocktime.analysis (H := plain_statistics)
                (map PInt (repeat 85 60 ++ [1000])) (TxResults 0 0 5 0) 30;
      Ok (List.filter is_verdict lines))
     = Ok [Verdict Sub100].
Proof.
  split; [|split; [|split; [|split;
    [|repeat split; vm_compute; reflexivity]]]].
  - intros avg tps. unfold HighPerf.verdict.
    destruct (le_lit avg 85), (ge_lit (PFloat tps) 18000),
             (le_lit avg 100), (ge_lit (PFloat tps) 15000);
      cbn; intuition congruence.
  - intros avg. unfold Blocktime.verdict.
    destruct (le_lit avg 85), (le_lit avg 100); cbn; intuition congruence.
  - intros data tx D lines. apply highperf_analysis_verdict_line.
  - intros data tx D lines. apply blocktime_analysis_verdict_line.
Qed.

(** C2, witness: the report of samples of 70 and 110 ms with 480000
    transactions sent in 30 s holds the verdict of their mean and of
    [480000 / 30], and no other. *)
Lemma C2_verdict_rule_chain_witness :
  [PFloat 70; PFloat 110] <> [] /\
  HighPerf.analysis (H := plain_statistics)
    [PFloat 70; PFloat 110] (TxResults 480000 0 5 0) 30
  = Ok [Average (PFloat 90); StdDev (PFloat 28.284271247461902);
        Min (PFloat 70); Max (PFloat 110); Percentile 95 (PFloat 110);
        Under 85 1 2 50; Under 100 1 2 50; TransactionsSent 480000;
        TransactionsFailed 5; EffectiveTPS 16000; AchievementRate 80;
        Verdict Sub100] /\
  exists avg tps,
    mean (Statistics := plain_statistics) [PFloat 70; PFloat 110] = Ok avg /\
    int_truediv (sent (TxResults 480000 0 5 0)) 30 = Ok tps /\
    forall t,
      Verdict t
      ∈ [Average (PFloat 90); StdDev (PFloat 28.284271247461902);
         Min (PFloat 70); Max (PFloat 110); Percentile 95 (PFloat 110);
         Under 85 1 2 50; Under 100 1 2 50; TransactionsSent 480000;
         TransactionsFailed 5; EffectiveTPS 16000; AchievementRate 80;
         Verdict Sub100]
      <-> t = HighPerf.verdict avg tps.
Proof.
  assert (Hne : [PFloat 70; PFloat 110] <> []) by discriminate.
  assert (Hrep : HighPerf.analysis (H := plain_statistics)
                   [PFloat 70; PFloat 110] (TxResults 480000 0 5 0) 30
                 = Ok [Average (PFloat 90); StdDev (PFloat 28.284271247461902);
                       Min (PFloat 70); Max (PFloat 110);
                       Percentile 95 (PFloat 110);
                       Under 85 1 2 50; Under 100 1 2 50;
                       TransactionsSent 480000; TransactionsFailed 5;
                       EffectiveTPS 16000; AchievementRate 80;
                       Verdict Sub100])
    by (vm_compute; reflexivity).
  split; [exact Hne|]. split; [exact Hrep|].
  exact (proj1 (proj2 (proj2 (@C2_verdict_rule_chain plain_statistics)))
               _ _ _ _ Hne Hrep).
Defined.

(* --------------------------------------------------------------------- *)
(** ** C4 *)

(** C4, counterexample: on a chain that produces no block during either
    monitoring phase, [run_full_test] of [stress_test_blocktime.py] prints
    no statistics line, no "no data" line and no verdict.  And
    [monitor_block_production] of [simple_blocktime_test.py], started with
    the load generator at a rate of 0 requests per second on the same
    chain, ends with the [ZeroDivisionError] of the generator's delay and
    reports nothing. *)
Lemma C4_stalled_chain_counterexample :
  Blocktime.monitor_blocks [] (Ok 100) stalled_feed = Ok (0, []) /\
  Blocktime.run_full_test (H := plain_statistics)
                          true (Ok 100) 30 (Ok 100) stalled_feed
                          [alice; bob] 10 [slow_round]
                          (Ok 100) stalled_feed
  = Ok [] /\
  existsb is_verdict [] = false /\
  Simple.monitor_block_production (H := plain_statistics)
    30 true 0 (Simple.Block 100 1700000000)
    [Simple.NoResult; Simple.Block 100 1700000000] 0 0
  = Raise ZeroDivisionError.
Proof. repeat split; vm_compute; reflexivity. Qed.

(** C4, amended: a monitoring phase in which the height never advances
    ends with an empty sample sequence, and on an empty sample sequence no
    statistic is computed and the report raises nothing, whatever the
    statistics functions do on empty data.  [simple_blocktime_test.py]
    then reports "No new blocks detected", provided its load generator is
    off, never ran, or could compute its delay; with the generator on at a
    rate of 0 and at least one poll, the call ends with
    [ZeroDivisionError] instead, whatever the chain does.  Phase 3 of
    [stress_test_blocktime.py] prints nothing, and its report holds a
    verdict exactly when the sample sequence is not empty; a whole
    [run_full_test] on a chain that never advances prints nothing at all
    when the latest block number could be read, and ends with the
    exception of that read otherwise. *)
Theorem C4_empty_sample_sequence `{!Statistics} :
  (forall h0 polls,
     Forall (no_advance h0) polls ->
     Blocktime.monitor_blocks [] (Ok h0) polls = Ok (0, []))
  /\ (forall n0 t0 polls duration load load_rps requests errors,
        Forall (fun o => match o with
                         | Simple.NoResult => True
                         | Simple.Block n _ => n <= n0
                         end) polls ->
        load = false \/ polls = [] \/
          (exists delay, Simple.load_delay load_rps = Ok delay) ->
        Simple.monitor_block_production duration load load_rps
                                        (Simple.Block n0 t0)
                                        polls requests errors
        = Ok [NoNewBlocks])
  /\ (forall n0 t0 o polls duration requests errors,
        Simple.monitor_block_production duration true 0
                                        (Simple.Block n0 t0)
                                        (o :: polls) requests errors
        = Raise ZeroDivisionError)
  /\ (forall blocks duration load requests errors,
        Simple.final_statistics [] blocks duration load requests errors
        = Ok [NoNewBlocks])
  /\ (forall tx stress_duration,
        Blocktime.analysis [] tx stress_duration = Ok [])
  /\ (forall data tx stress_duration lines,
        Blocktime.analysis data tx stress_duration = Ok lines ->
        (existsb is_verdict lines = true <-> data <> []))
  /\ (forall stress_duration b h1 polls1 accounts t0 rounds gen h2 polls2,
        Forall (no_advance h1) polls1 ->
        Forall (no_advance h2) polls2 ->
        Blocktime.stress_test_transactions accounts (TxResults 0 0 0 0)
                                           20000 t0 rounds = Ok gen ->
        Blocktime.run_full_test true (Ok b) stress_duration (Ok h1) polls1
                                accounts t0 rounds (Ok h2) polls2
        = Ok [])
  /\ (forall e stress_duration first1 polls1 accounts t0 rounds first2 polls2,
        Blocktime.run_full_test true (Raise e) stress_duration first1 polls1
                                accounts t0 rounds first2 polls2
        = Raise e).
Proof.
  split; [|split; [|split; [|split; [|split; [|split; [|split]]]]]]; cycle 6.
  { intros D b h1 polls1 accounts t0 rounds gen h2 polls2 H1 H2 Hgen.
    unfold Blocktime.run_full_test, Blocktime.monitor_blocks.
    cbn [negb mbind result_bind Py.bind].
    rewrite !blocktime_monitor_idle by done.
    cbn -[Blocktime.stress_test_transactions]. rewrite Hgen. reflexivity. }
  - reflexivity.
  - intros h0 polls Hall. unfold Blocktime.monitor_blocks. cbn.
    by rewrite blocktime_monitor_idle.
  - intros n0 t0 polls duration load load_rps requests errors Hall Hload.
    unfold Simple.monitor_block_production, Simple.monitor.
    rewrite simple_monitor_idle by done.
    assert (Simple.load_task load load_rps polls = Ok ()) as ->; [|done].
    unfold Simple.load_task.
    destruct Hload as [->|[->|[delay Hd]]]; [done|by destruct load|].
    destruct load; [|done]. destruct polls; [done|]. by rewrite Hd.
  - intros n0 t0 o polls duration requests errors.
    unfold Simple.monitor_block_production. cbn. reflexivity.
  - reflexivity.
  - reflexivity.
  - intros data tx D lines. apply blocktime_analysis_verdict.
Qed.

(** C4, witness: the stalled chain, seen by the monitor of
    [stress_test_blocktime.py]. *)
Lemma C4_empty_sample_sequence_witness :
  Forall (no_advance 100) stalled_feed /\
  Blocktime.monitor_blocks [] (Ok 100) stalled_feed = Ok (0, []).
Proof.
  assert (H : Forall (no_advance 100) stalled_feed).
  { repeat constructor; cbn; lia. }
  split; [exact H|].
  exact (proj1 (@C4_empty_sample_sequence plain_statistics) 100 stalled_feed H).
Defined.

(* --------------------------------------------------------------------- *)
(** ** C6 *)

(** C6, counterexample: with a single sample, phase 3 of
    [stress_test_blocktime.py] does report a standard deviation: 0. *)
Lemma C6_single_sample_counterexample :
  Blocktime.analysis (H := plain_statistics)
                     [PInt 85] (TxResults 10 0 0 0) 30
  = Ok [Average (PInt 85); StdDev (PInt 0); Min (PInt 85); Max (PInt 85);
        Percentile 95 (PInt 85); Under 85 1 1 100; Under 100 1 1 100;
        TransactionsSent 10; TransactionsFailed 0;
        EffectiveTPS 0x1.5555555555555p-2; Verdict Maintained] /\
  (lines ← Blocktime.analysis (H := plain_statistics)
                              [PInt 85] (TxResults 10 0 0 0) 30;
   Ok (shown_stddev lines))
  = Ok (Some (PInt 0)).
Proof. split; vm_compute; reflexivity. Qed.

(** C6, amended: [statistics.stdev] is called on two samples or more
    only, so computing the standard deviation never raises
    [StatisticsError] and never divides by zero.  With fewer than two
    samples [simple_blocktime_test.py] leaves the standard deviation out of
    its report, while [run_full_test] of [stress_test_blocktime.py] takes it
    to be 0 (and prints it when there is one sample). *)
Theorem C6_stdev_needs_two_samples `{!Statistics} :
  (forall data e, Blocktime.std_block_time data = Raise e -> harmless e)
  /\ (forall data,
        (length data < 2)%nat -> Blocktime.std_block_time data = Ok (PInt 0))
  /\ (forall data,
        (2 <= length data)%nat -> Blocktime.std_block_time data = stdev data)
  /\ (forall block_times e, Simple.spread block_times = Raise e -> harmless e)
  /\ (forall block_times,
        (length block_times < 2)%nat -> Simple.spread block_times = Ok [])
  /\ (forall block_times blocks duration load requests errors lines,
        Simple.final_statistics block_times blocks duration load requests errors
        = Ok lines ->
        (length block_times < 2)%nat ->
        existsb is_stddev lines = false).
Proof.
  split; [|split; [|split; [|split; [|split]]]].
  - apply blocktime_std_raises.
  - apply blocktime_std_few.
  - apply blocktime_std_many.
  - apply simple_spread_raises.
  - apply simple_spread_few.
  - apply simple_report_stddev.
Qed.

(** C6, witness: one sample, in both scripts. *)
Lemma C6_stdev_needs_two_samples_witness :
  (length [PInt 85] < 2)%nat /\
  Blocktime.std_block_time [PInt 85] = Ok (PInt 0) /\
  Simple.spread [85] = Ok [].
Proof.
  assert (H1 : (length [PInt 85] < 2)%nat) by (cbn; lia).
  assert (H2 : (length [85] < 2)%nat) by (cbn; lia).
  split; [exact H1|]. split.
  - exact (proj1 (proj2 (@C6_stdev_needs_two_samples plain_statistics))
                 [PInt 85] H1).
  - exact (proj1 (proj2 (proj2 (proj2 (proj2
             (@C6_stdev_needs_two_samples plain_statistics)))))
                 [85] H2).
Defined.

(* ===================================================================== *)
(** * Whole monitoring phases *)
(* ===================================================================== *)

Section MonitorPhases.

(** One poll of the monotonic-clock monitor appends as many samples as it
    adds to [blocks_produced], which is how far [last_block] moved. *)
Lemma fixed_poll_step_counts st o :
  let st' := BlocktimeFixed.poll_step st o in
  exists new,
    BlocktimeFixed.block_times st' = BlocktimeFixed.block_times st ++ new /\
    len new
    = BlocktimeFixed.blocks_produced st' - BlocktimeFixed.blocks_produced st /\
    BlocktimeFixed.last_block st' - BlocktimeFixed.last_block st = len new /\
    (BlocktimeFixed.last_block st' = BlocktimeFixed.last_block st \/
     height o = Ok (BlocktimeFixed.last_block st')).
Proof.
  unfold BlocktimeFixed.poll_step.
  destruct (height o) as [h|e] eqn:Hh;
    [|exists []; rewrite app_nil_r; unfold len; cbn; repeat split; auto; lia].
  destruct (Z.ltb_spec (BlocktimeFixed.last_block st) h);
    [|exists []; rewrite app_nil_r; unfold len; cbn; repeat split; auto; lia].
  destruct (float_truediv_int _ _) as [avg|e];
    [|exists []; rewrite app_nil_r; unfold len; cbn; repeat split; auto; lia].
  exists (repeat avg (Z.to_nat (h - BlocktimeFixed.last_block st))).
  cbn. unfold len. rewrite repeat_length. repeat split; auto; lia.
Qed.

Lemma fixed_fold_counts polls : forall st,
  let st' := fold_left BlocktimeFixed.poll_step polls st in
  exists new,
    BlocktimeFixed.block_times st' = BlocktimeFixed.block_times st ++ new /\
    len new
    = BlocktimeFixed.blocks_produced st' - BlocktimeFixed.blocks_produced st /\
    BlocktimeFixed.last_block st' - BlocktimeFixed.last_block st = len new /\
    (BlocktimeFixed.last_block st' = BlocktimeFixed.last_block st \/
     exists o, o ∈ polls /\ height o = Ok (BlocktimeFixed.last_block st')).
Proof.
  induction polls as [|o polls IH]; intros st; cbn.
  - exists []. rewrite app_nil_r. unfold len. cbn. repeat split; auto; lia.
  - destruct (fixed_poll_step_counts st o) as (new1 & H1 & H2 & H3 & H4).
    destruct (IH (BlocktimeFixed.poll_step st o)) as (new2 & G1 & G2 & G3 & G4).
    exists (new1 ++ new2). rewrite G1, H1, <- app_assoc.
    split; [done|]. unfold len in *. rewrite length_app.
    split; [lia|]. split; [lia|].
    destruct G4 as [G4|(o' & Ho' & Hh)].
    + rewrite G4. destruct H4 as [H4|H4]; [by left|].
      right. exists o. split; [apply list_elem_of_here|done].
    + right. exists o'. split; [by apply list_elem_of_further|done].
Qed.

Lemma blocktime_poll_step_counts st o k :
  first_block_unsampled st k ->
  exists new,
    Blocktime.block_times (Blocktime.poll_step st o)
    = Blocktime.block_times st ++ new /\
    first_block_unsampled (Blocktime.poll_step st o) (k + len new) /\
    Blocktime.blocks_produced (Blocktime.poll_step st o)
    <= Blocktime.blocks_produced st + 1.
Proof.
  intros [Hpos Hinv].
  assert (Hidle : exists new,
            Blocktime.block_times st = Blocktime.block_times st ++ new /\
            first_block_unsampled st (k + len new) /\
            Blocktime.blocks_produced st <= Blocktime.blocks_produced st + 1).
  { exists []. rewrite app_nil_r. unfold len. cbn [length].
    rewrite Z.add_0_r. split; [done|]. split; [by split|lia]. }
  unfold Blocktime.poll_step.
  destruct (height o) as [h|e]; [|exact Hidle].
  destruct (Blocktime.last_block st <? h); [|exact Hidle].
  destruct (block_timestamp o) as [ts|e]; [|exact Hidle].
  unfold first_block_unsampled, Blocktime.block_sample. cbn.
  destruct (Blocktime.last_timestamp st) as [lt|]; cbn.
  - destruct (negb (lt =? 0)).
    + eexists [_]. split; [done|]. unfold len. cbn [length]. lia.
    + exists []. rewrite app_nil_r. split; [done|]. unfold len. cbn [length]. lia.
  - exists []. rewrite app_nil_r. split; [done|]. unfold len. cbn [length]. lia.
Qed.

Lemma blocktime_fold_counts polls : forall st k,
  first_block_unsampled st k ->
  let st' := fold_left Blocktime.poll_step polls st in
  exists new,
    Blocktime.block_times st' = Blocktime.block_times st ++ new /\
    first_block_unsampled st' (k + len new) /\
    Blocktime.blocks_produced st'
    <= Blocktime.blocks_produced st + len polls.
Proof.
  induction polls as [|o polls IH]; intros st k Hinv; cbn.
  - exists []. rewrite app_nil_r. unfold len. cbn [length].
    rewrite Z.add_0_r. split; [done|]. split; [done|lia].
  - destruct (blocktime_poll_step_counts st o k Hinv) as (new1 & H1 & Hinv1 & Hle).
    destruct (IH _ _ Hinv1) as (new2 & G1 & G2 & G3).
    exists (new1 ++ new2). rewrite G1, H1, <- app_assoc. split; [done|].
    unfold len in *. rewrite length_app. cbn [length].
    rewrite Nat2Z.inj_add, Z.add_assoc.
    split; [done|lia].
Qed.

(** Every sample of the timestamp monitors is 85 or a whole number of
    seconds other than zero. *)
Lemma simple_block_sample_coarse last_timestamp current_timestamp :
  coarse (Simple.block_sample last_timestamp current_timestamp).
Proof.
  unfold Simple.block_sample, coarse.
  destruct (Z.eqb_spec ((current_timestamp - last_timestamp) * 1000) 0);
    [by left|right].
  split; [done|]. apply Z.mod_mul. lia.
Qed.

Lemma blocktime_block_sample_coarse last_timestamp current_timestamp s :
  Blocktime.block_sample last_timestamp current_timestamp = Some s -> coarse s.
Proof.
  unfold Blocktime.block_sample, coarse.
  destruct (truthy last_timestamp); [|done].
  destruct last_timestamp as [lt|]; [|done].
  destruct (Z.eqb_spec (current_timestamp - lt) 0); intros [= <-];
    [by left|right].
  split; [lia|]. apply Z.mod_mul. lia.
Qed.

Lemma simple_fold_coarse polls : forall st,
  Forall coarse (Simple.block_times st) ->
  Forall coarse (Simple.block_times (fold_left Simple.poll_step polls st)).
Proof.
  induction polls as [|o polls IH]; intros st Hst; cbn; [done|].
  apply IH. unfold Simple.poll_step. destruct o as [|n ts]; [done|].
  destruct (_ <? n); [|done]. cbn. apply Forall_app. split; [done|].
  constructor; [apply simple_block_sample_coarse|constructor].
Qed.

Lemma blocktime_fold_coarse polls : forall st,
  Forall coarse (Blocktime.block_times st) ->
  Forall coarse (Blocktime.block_times (fold_left Blocktime.poll_step polls st)).
Proof.
  induction polls as [|o polls IH]; intros st Hst; cbn; [done|].
  apply IH. unfold Blocktime.poll_step.
  destruct (height o) as [h|]; [|done].
  destruct (_ <? h); [|done].
  destruct (block_timestamp o) as [ts|]; [|done]. cbn.
  destruct (Blocktime.block_sample _ _) as [s|] eqn:Hs; [|done].
  apply Forall_app. split; [done|].
  constructor; [by eapply blocktime_block_sample_coarse|constructor].
Qed.

(** The monitor of [simple_blocktime_test.py] records one sample for
    every block it counts. *)
Lemma simple_fold_counts polls : forall st,
  let st' := fold_left Simple.poll_step polls st in
  exists new,
    Simple.block_times st' = Simple.block_times st ++ new /\
    len new = Simple.blocks_produced st' - Simple.blocks_produced st /\
    len new <= len polls.
Proof.
  induction polls as [|o polls IH]; intros st; cbn.
  - exists []. rewrite app_nil_r. unfold len. cbn. repeat split; lia.
  - destruct (IH (Simple.poll_step st o)) as (new2 & G1 & G2 & G3).
    unfold Simple.poll_step in *. destruct o as [|n ts].
    + exists new2. unfold len in *. cbn [length]. repeat split; try done; lia.
    + destruct (_ <? n).
      * cbn in G1, G2. eexists (_ :: new2). rewrite G1, <- app_assoc.
        split; [done|]. unfold len in *. cbn [length]. lia.
      * exists new2. unfold len in *. cbn [length]. repeat split; try done; lia.
Qed.

(** A coarse sample is on the same side of 85, 100 and 150. *)
Lemma coarse_thresholds s :
  coarse s -> (s <=? 85) = (s <=? 100) /\ (s <=? 100) = (s <=? 150).
Proof.
  intros [->|[Hnz Hmod]]; [done|].
  pose proof (Z.div_mod s 1000 ltac:(lia)) as Hdm. rewrite Hmod in Hdm.
  destruct (Z.leb_spec s 85), (Z.leb_spec s 100), (Z.leb_spec s 150);
    split; try done; lia.
Qed.

Lemma count_le_coarse samples :
  Forall coarse samples ->
  count_le (map PInt samples) 85 = count_le (map PInt samples) 100 /\
  count_le (map PInt samples) 100 = count_le (map PInt samples) 150.
Proof.
  unfold count_le, len.
  induction 1 as [|s samples Hs _ [IH1 IH2]]; [done|].
  destruct (coarse_thresholds s Hs) as [H1 H2].
  cbn [map]. rewrite !filter_cons. cbn [le_lit].
  rewrite <- H2, <- H1.
  destruct (s <=? 85); repeat case_decide; try done; cbn [length]; lia.
Qed.

Lemma status_coarse s :
  coarse s ->
  Simple.status s = (if s <=? 85 then Simple.FAST else Simple.VERY_SLOW).
Proof.
  intros Hs. destruct (coarse_thresholds s Hs) as [H1 H2].
  unfold Simple.status. rewrite <- H2, <- H1. by destruct (s <=? 85).
Qed.

End MonitorPhases.

(* --------------------------------------------------------------------- *)
(** ** Samples and blocks counted *)

(** X1: whenever [monitor_blocks] of [stress_test_blocktime_fixed.py]
    (which [stress_test_20k_tps.py] runs too) returns, it has appended to
    [self.block_times], after what the list held, exactly as many samples
    as the number of blocks it returns; that number is never negative, and
    unless it is zero the starting height plus that number is a height
    that one of the polls reported. *)
Theorem fixed_monitor_accounts_for_every_block :
  forall bt first t0 polls n bt',
    BlocktimeFixed.monitor_blocks bt first t0 polls = Ok (n, bt') ->
    exists h0 new,
      first = Ok h0 /\ bt' = bt ++ new /\ len new = n /\ 0 <= n /\
      (n = 0 \/ exists o, o ∈ polls /\ height o = Ok (h0 + n)).
Proof.
  intros bt first t0 polls n bt'. unfold BlocktimeFixed.monitor_blocks.
  destruct first as [h0|e]; cbn; [|done].
  set (st0 := {| BlocktimeFixed.last_block := h0 |}).
  destruct (fixed_fold_counts polls st0) as (new & H1 & H2 & H3 & H4).
  intros [= <- <-]. exists h0, new. cbn in H1, H2, H3, H4.
  split; [done|]. split; [done|]. split; [lia|].
  split; [unfold len in *; lia|].
  destruct H4 as [H4|(o & Ho & Hh)].
  - left. lia.
  - right. exists o. split; [done|]. rewrite Hh. f_equal. lia.
Qed.

(** X1, witness: two polls that each find one new block. *)
Lemma fixed_monitor_accounts_for_every_block_witness :
  BlocktimeFixed.monitor_blocks [] (Ok 100) 5 steady_feed
  = Ok (2, [125; 125]%float) /\
  exists h0 new,
    Ok 100 = Ok h0 /\ [125; 125]%float = [] ++ new /\ len new = 2 /\ 0 <= 2 /\
    (2 = 0 \/ exists o, o ∈ steady_feed /\ height o = Ok (h0 + 2)).
Proof.
  assert (H : BlocktimeFixed.monitor_blocks [] (Ok 100) 5 steady_feed
              = Ok (2, [125; 125]%float)) by reflexivity.
  split; [exact H|].
  exact (fixed_monitor_accounts_for_every_block
           [] (Ok 100) 5%float steady_feed 2 [125; 125]%float H).
Defined.

(** X2: [monitor_blocks] of [stress_test_blocktime.py], started on an
    empty [self.block_times] and fed 64-bit block timestamps (so that the
    progress line, which prints an average of the samples, cannot
    overflow), returns a number of blocks between 0 and the number of
    polls, and records fewer samples than that: none for the first block
    it detects, at most one for each later block. *)
Theorem blocktime_monitor_first_block_unsampled :
  forall first polls n bt',
    Forall (fun o => forall ts,
              block_timestamp o = Ok ts -> 0 <= ts < 2 ^ 64) polls ->
    Blocktime.monitor_blocks [] first polls = Ok (n, bt') ->
    0 <= n <= len polls /\
    (n = 0 -> bt' = []) /\
    (0 < n -> len bt' <= n - 1).
Proof.
  intros first polls n bt' _. unfold Blocktime.monitor_blocks.
  destruct first as [h0|e]; cbn; [|done].
  set (st0 := {| Blocktime.last_block := h0 |}).
  destruct (blocktime_fold_counts polls st0 0) as (new & H1 & [Hpos H2] & H3);
    [by split|].
  intros [= <- <-]. cbn in H1, H3. rewrite H1 in *.
  split; [lia|]. unfold len in *.
  destruct (Blocktime.last_timestamp _).
  - split; lia.
  - destruct H2 as [H2 Hk]. split; [|lia].
    intros _. destruct new; [done|]. cbn [length] in Hk. lia.
Qed.

(** X2, witness: three blocks detected in four polls, two samples. *)
Lemma blocktime_monitor_first_block_unsampled_witness :
  Forall (fun o => forall ts,
            block_timestamp o = Ok ts -> 0 <= ts < 2 ^ 64) second_feed /\
  Blocktime.monitor_blocks [] (Ok 100) second_feed = Ok (3, [85; 1000]) /\
  0 <= 3 <= len second_feed.
Proof.
  assert (Hts : Forall (fun o => forall ts,
                          block_timestamp o = Ok ts -> 0 <= ts < 2 ^ 64)
                       second_feed).
  { unfold second_feed.
    repeat (apply Forall_cons; split; [cbn; intros ts [= <-]; lia|]).
    apply Forall_nil_2. }
  assert (H : Blocktime.monitor_blocks [] (Ok 100) second_feed
              = Ok (3, [85; 1000])) by reflexivity.
  split; [exact Hts|]. split; [exact H|].
  exact (proj1 (blocktime_monitor_first_block_unsampled
                  (Ok 100) second_feed 3 [85; 1000] Hts H)).
Defined.

(** X3: whenever the monitoring loop of [simple_blocktime_test.py] ends,
    it has appended to [self.block_times] one sample for every block it
    counted, the first one included (it is measured from the timestamp of
    the block read before the loop), and it counted at most one block per
    poll. *)
Theorem simple_monitor_samples_every_block :
  forall bt first polls n bt',
    Simple.monitor bt first polls = Some (n, bt') ->
    exists new, bt' = bt ++ new /\ len new = n /\ 0 <= n <= len polls.
Proof.
  intros bt first polls n bt'. unfold Simple.monitor.
  destruct first as [|n0 t0]; [done|].
  set (st0 := {| Simple.last_block_number := n0 |}).
  destruct (simple_fold_counts polls st0) as (new & H1 & H2 & H3).
  intros [= <- <-]. exists new. cbn in H1, H2.
  split; [done|]. unfold len in *. lia.
Qed.

(** X3, witness: two blocks in three polls, two samples. *)
Lemma simple_monitor_samples_every_block_witness :
  Simple.monitor [] (Simple.Block 100 1700000000) simple_feed
  = Some (2, [85; 1000]) /\
  exists new, [85; 1000] = [] ++ new /\ len new = 2 /\ 0 <= 2 <= len simple_feed.
Proof.
  assert (H : Simple.monitor [] (Simple.Block 100 1700000000) simple_feed
              = Some (2, [85; 1000])) by reflexivity.
  split; [exact H|].
  exact (simple_monitor_samples_every_block
           [] (Simple.Block 100 1700000000) simple_feed 2 [85; 1000] H).
Defined.

(* --------------------------------------------------------------------- *)
(** ** The resolution of the chain's timestamps *)

Section Resolution.
Context `{!Statistics}.

(** On coarse samples the performance lines for 85, 100 and 150 ms are
    computed from the same count. *)
Lemma under_coarse samples l :
  Forall coarse samples ->
  under (map PInt samples) 85 = Ok l ->
  exists count pc,
    l = Under 85 count (len (map PInt samples)) pc /\
    under (map PInt samples) 100
    = Ok (Under 100 count (len (map PInt samples)) pc) /\
    under (map PInt samples) 150
    = Ok (Under 150 count (len (map PInt samples)) pc).
Proof.
  intros Hco. destruct (count_le_coarse samples Hco) as [H1 H2].
  unfold under. rewrite <- H2, <- H1.
  destruct (percent _ _) as [pc|e]; cbn; [|done].
  intros [= <-]. by eexists _, _.
Qed.

Lemma simple_report_coarse samples blocks duration load requests errors lines :
  Forall coarse samples ->
  samples <> [] ->
  Simple.final_statistics samples blocks duration load requests errors
  = Ok lines ->
  exists count total pc,
    Under 85 count total pc ∈ lines /\
    Under 100 count total pc ∈ lines /\
    Under 150 count total pc ∈ lines.
Proof.
  intros Hco Hne Hrep. unfold Simple.final_statistics in Hrep.
  destruct samples as [|x samples]; [done|].
  run_call Hrep. run_call Hrep.
  change (PInt x :: map PInt samples) with (map PInt (x :: samples)) in Hrep.
  destruct (under (map PInt (x :: samples)) 85) as [l85|e] eqn:H85;
    [|cbn in Hrep; discriminate Hrep].
  destruct (under_coarse _ _ Hco H85) as (count & pc & -> & H100 & H150).
  rewrite H100, H150 in Hrep. cbn in Hrep. run_call Hrep.
  injection Hrep as <-.
  exists count, (len (map PInt (x :: samples))), pc.
  rewrite !elem_of_cons, !elem_of_app, !elem_of_cons. auto 10.
Qed.

Lemma blocktime_report_coarse samples tx stress_duration lines :
  Forall coarse samples ->
  samples <> [] ->
  Blocktime.analysis (map PInt samples) tx stress_duration = Ok lines ->
  exists count total pc,
    Under 85 count total pc ∈ lines /\ Under 100 count total pc ∈ lines.
Proof.
  intros Hco Hne Hrep. unfold Blocktime.analysis in Hrep.
  destruct samples as [|x samples]; [done|].
  cbn [map] in Hrep. change (PInt x :: map PInt samples)
    with (map PInt (x :: samples)) in Hrep.
  do 3 run_call Hrep.
  change (PInt x :: map PInt samples) with (map PInt (x :: samples)) in Hrep.
  destruct (under (map PInt (x :: samples)) 85) as [l85|e] eqn:H85;
    [|cbn in Hrep; discriminate Hrep].
  destruct (under_coarse _ _ Hco H85) as (count & pc & -> & H100 & _).
  rewrite H100 in Hrep. cbn in Hrep. run_call Hrep.
  injection Hrep as <-.
  exists count, (len (map PInt (x :: samples))), pc.
  rewrite !elem_of_cons. auto 10.
Qed.
End Resolution.

(** X4: the samples that [simple_blocktime_test.py] records are differences
    of the chain's timestamps, which count seconds: each is 85 (the
    default for an unchanged timestamp) or a whole number of seconds other
    than zero, in ms.  So the status printed beside a block is FAST or
    VERY SLOW, never OK or SLOW, and whenever the final statistics report
    samples, their three performance lines (at most 85, 100 and 150 ms)
    show the same count and the same percentage. *)
Theorem simple_monitor_whole_seconds `{!Statistics} :
  forall first polls n bt',
    Simple.monitor [] first polls = Some (n, bt') ->
    Forall coarse bt' /\
    Forall (fun s => Simple.status s = Simple.FAST \/
                     Simple.status s = Simple.VERY_SLOW) bt' /\
    (forall duration load requests errors lines,
       bt' <> [] ->
       Simple.final_statistics bt' n duration load requests errors
       = Ok lines ->
       exists count total pc,
         Under 85 count total pc ∈ lines /\
         Under 100 count total pc ∈ lines /\
         Under 150 count total pc ∈ lines).
Proof.
  intros first polls n bt'. unfold Simple.monitor.
  destruct first as [|n0 t0]; [done|].
  set (st0 := {| Simple.last_block_number := n0 |}).
  pose proof (simple_fold_coarse polls st0 (Forall_nil_2 _)) as Hco.
  intros [= <- <-]. split; [exact Hco|]. split.
  - eapply Forall_impl; [exact Hco|]. intros s Hs.
    rewrite (status_coarse s Hs). destruct (s <=? 85); auto.
  - intros duration load requests errors lines Hne Hrep.
    by eapply simple_report_coarse.
Qed.

(** X4, witness: a block within the second and a block in the next
    second; both performance counts are 1 of 2. *)
Lemma simple_monitor_whole_seconds_witness :
  Simple.monitor [] (Simple.Block 100 1700000000) simple_feed
  = Some (2, [85; 1000]) /\
  Forall coarse [85; 1000] /\
  map Simple.status [85; 1000] = [Simple.FAST; Simple.VERY_SLOW] /\
  Simple.final_statistics (H := plain_statistics) [85; 1000] 2 30 false 0 0
  = Ok [TotalBlocks 2; MonitoringDuration 30; Average (PFloat 542.5);
        StdDev (PFloat 647.00270478569098); Min (PInt 85); Max (PInt 1000);
        Under 85 1 2 50; Under 100 1 2 50; Under 150 1 2 50].
Proof.
  assert (H : Simple.monitor [] (Simple.Block 100 1700000000) simple_feed
              = Some (2, [85; 1000])) by reflexivity.
  split; [exact H|].
  split; [|split; vm_compute; reflexivity].
  exact (proj1 (simple_monitor_whole_seconds (H := plain_statistics)
                  (Simple.Block 100 1700000000) simple_feed 2 [85; 1000] H)).
Defined.

(** X5: the samples that the monitor of [stress_test_blocktime.py] records
    are 85 or a whole number of seconds other than zero as well, so the
    two lines of "Performance vs Target" in the report of [run_full_test],
    blocks under 85 ms and blocks under 100 ms, always show the same count
    and the same percentage. *)
Theorem blocktime_monitor_whole_seconds `{!Statistics} :
  forall first polls n bt',
    Blocktime.monitor_blocks [] first polls = Ok (n, bt') ->
    Forall coarse bt' /\
    (forall tx stress_duration lines,
       bt' <> [] ->
       Blocktime.analysis (map PInt bt') tx stress_duration = Ok lines ->
       exists count total pc,
         Under 85 count total pc ∈ lines /\ Under 100 count total pc ∈ lines).
Proof.
  intros first polls n bt'. unfold Blocktime.monitor_blocks.
  destruct first as [h0|e]; cbn; [|done].
  set (st0 := {| Blocktime.last_block := h0 |}).
  pose proof (blocktime_fold_coarse polls st0 (Forall_nil_2 _)) as Hco.
  intros [= <- <-]. split; [exact Hco|].
  intros tx D lines Hne Hrep. by eapply blocktime_report_coarse.
Qed.

(** X5, witness: the samples 85 and 1000, reported with one block of two
    under either limit. *)
Lemma blocktime_monitor_whole_seconds_witness :
  Blocktime.monitor_blocks [] (Ok 100) second_feed = Ok (3, [85; 1000]) /\
  Forall coarse [85; 1000] /\
  Blocktime.analysis (H := plain_statistics)
                     (map PInt [85; 1000]) (TxResults 600 0 0 0) 30
  = Ok [Average (PFloat 542.5); StdDev (PFloat 647.00270478569098);
        Min (PInt 85); Max (PInt 1000); Percentile 95 (PInt 1000);
        Under 85 1 2 50; Under 100 1 2 50;
        TransactionsSent 600; TransactionsFailed 0; EffectiveTPS 20;
        Verdict NotMaintained].
Proof.
  assert (H : Blocktime.monitor_blocks [] (Ok 100) second_feed
              = Ok (3, [85; 1000])) by reflexivity.
  split; [exact H|]. split; [|vm_compute; reflexivity].
  exact (proj1 (blocktime_monitor_whole_seconds (H := plain_statistics)
                  (Ok 100) second_feed 3 [85; 1000] H)).
Defined.

(* ===================================================================== *)
(** * Whole load phases *)
(* ===================================================================== *)

Section PhaseCounts.

Lemma submitted_app tr1 tr2 :
  submitted (tr1 ++ tr2) = submitted tr1 + submitted tr2.
Proof. induction tr1 as [|ev tr1 IH]; cbn; [done|]. rewrite IH. lia. Qed.

Lemma batch_senders_app tr1 tr2 :
  batch_senders (tr1 ++ tr2) = batch_senders tr1 ++ batch_senders tr2.
Proof. apply omap_app. Qed.

(** One scheduling loop hands every sampled account, in the order of the
    sample, one batch of the size computed for the iteration. *)
Lemma reserve_fold_sizes size senders : forall tasks nc tasks' nc',
  foldM (reserve_step size) senders (tasks, nc) = Ok (tasks', nc') ->
  exists new,
    tasks' = tasks ++ new /\
    batch_senders new = senders /\
    Forall (fun ev => is_batch ev = true /\ size = Ok (batch_size_of ev)) new /\
    forall c, size = Ok c -> submitted new = len senders * c.
Proof.
  induction senders as [|x senders IH]; intros tasks nc tasks' nc' H;
    cbn in H.
  - injection H as <- <-. exists []. rewrite app_nil_r.
    split; [done|]. split; [done|]. split; [done|].
    intros c _. unfold len. cbn. lia.
  - destruct (nc !! address x) as [n0|] eqn:Hx; [|done].
    destruct size as [c|e] eqn:Hs; cbn in H; [|done].
    apply IH in H as (new & -> & Hsend & Hall & Hsub).
    exists (Batch x n0 c :: new). split; [by rewrite <- app_assoc|].
    split; [unfold batch_senders in *; cbn [omap list_omap]; by rewrite Hsend|].
    split; [by constructor|].
    intros c' [= <-]. cbn [submitted batch_size_of].
    rewrite (Hsub c eq_refl). unfold len. cbn [length]. lia.
Qed.

Lemma count_responses_counted rs c :
  let c' := fold_left count_response rs c in
  counted c' = counted c + len rs /\
  sent c <= sent c' /\ failed c <= failed c' /\
  confirmed c' = confirmed c /\ pending c' = pending c.
Proof.
  destruct (count_responses_totals rs c) as (Hs & Hf & Hc & Hp & Hsum).
  pose proof (len_nonneg (filter (fun r => accepted r = true) rs)).
  pose proof (len_nonneg (filter (fun r => accepted r = false) rs)).
  unfold counted. cbv zeta. repeat split; try done; lia.
Qed.

(** The batches gathered in one iteration are all counted. *)
Lemma blocktime_gather_counts accounts envs tasks : forall c c',
  Forall (fun ev => 0 <= batch_size_of ev) tasks ->
  Blocktime.gather accounts envs tasks c = Ok c' ->
  counted c' = counted c + submitted tasks /\
  sent c <= sent c' /\ failed c <= failed c' /\
  confirmed c' = confirmed c /\ pending c' = pending c.
Proof.
  unfold Blocktime.gather. generalize 0%nat.
  induction tasks as [|ev tasks IH]; intros k c c' Hall; cbn.
  - intros [= <-]. cbn. repeat split; try done; lia.
  - apply Forall_cons in Hall as [Hev Hall]. destruct ev as [x n B|s]; cbn.
    + destruct (Blocktime.send_transaction_batch _ _ _ _ _ _) as [c1|e] eqn:Hb;
        cbn; [|done].
      destruct (blocktime_batch_counts _ _ _ _ _ _ _ Hev Hb) as (rs & Hlen & ->).
      destruct (count_responses_counted rs c) as (H1 & H2 & H3 & H4 & H5).
      intros Hrest. destruct (IH _ _ _ Hall Hrest) as (G1 & G2 & G3 & G4 & G5).
      cbn in Hev, Hlen. repeat split; try congruence; lia.
    + intros Hrest. destruct (IH _ _ _ Hall Hrest) as (G1 & G2 & G3 & G4 & G5).
      repeat split; try done; lia.
Qed.

Lemma highperf_gather_counts accounts envs tasks : forall c c',
  Forall (fun ev => 0 <= batch_size_of ev) tasks ->
  HighPerf.gather accounts envs tasks c = Ok c' ->
  counted c' = counted c + submitted tasks /\
  sent c <= sent c' /\ failed c <= failed c' /\
  confirmed c' = confirmed c /\ pending c' = pending c.
Proof.
  unfold HighPerf.gather. generalize 0%nat.
  induction tasks as [|ev tasks IH]; intros k c c' Hall; cbn.
  - intros [= <-]. cbn. repeat split; try done; lia.
  - apply Forall_cons in Hall as [Hev Hall]. destruct ev as [x n B|s]; cbn.
    + destruct (HighPerf.send_transaction_batch_optimized _ _ _ _ _ _)
        as [[c1 k1]|e] eqn:Hb; cbn; [|done].
      destruct (highperf_batch_counts _ _ _ _ _ _ _ _ Hev Hb)
        as (rs & Hlen & -> & _).
      destruct (count_responses_counted rs c) as (H1 & H2 & H3 & H4 & H5).
      intros Hrest. destruct (IH _ _ _ Hall Hrest) as (G1 & G2 & G3 & G4 & G5).
      cbn in Hev, Hlen. repeat split; try congruence; lia.
    + intros Hrest. destruct (IH _ _ _ Hall Hrest) as (G1 & G2 & G3 & G4 & G5).
      repeat split; try done; lia.
Qed.

Lemma sizes_nonneg size new :
  (forall c, size = Ok c -> 0 <= c) ->
  Forall (fun ev => is_batch ev = true /\ size = Ok (batch_size_of ev)) new ->
  Forall (fun ev => 0 <= batch_size_of ev) new.
Proof.
  intros Hsize Hall. eapply Forall_impl; [exact Hall|].
  intros ev [_ Hev]. by apply Hsize.
Qed.

Lemma blocktime_round_counts tx0 accounts delay st r st' :
  every_submission_counted tx0 st ->
  Blocktime.round_step accounts delay st r = Ok st' ->
  every_submission_counted tx0 st'.
Proof.
  intros (I1 & I2 & I3 & I4 & I5). unfold Blocktime.round_step.
  rewrite schedule_blocktime_eq.
  destruct (foldM _ _ _) as [[tasks nc']|e] eqn:Hs; cbn; [|done].
  destruct (Blocktime.gather _ _ _ _) as [c|e] eqn:Hg; cbn; [|done].
  intros [= <-]. apply reserve_fold_sizes in Hs as (new & Heq & _ & Hall & _).
  cbn in Heq. subst tasks.
  apply sizes_nonneg in Hall;
    [|intros c0; apply int_floordiv_nonneg; [lia|apply len_nonneg]].
  destruct (blocktime_gather_counts _ _ _ _ _ Hall Hg) as (G1 & G2 & G3 & G4 & G5).
  unfold every_submission_counted. cbn [results trace].
  rewrite !submitted_app. cbn [submitted batch_size_of].
  repeat split; try congruence; lia.
Qed.

Lemma highperf_round_counts tx0 accounts interval txs st r st' :
  0 <= txs ->
  every_submission_counted tx0 st ->
  HighPerf.round_step accounts interval txs st r = Ok st' ->
  every_submission_counted tx0 st'.
Proof.
  intros Htxs (I1 & I2 & I3 & I4 & I5). unfold HighPerf.round_step.
  rewrite schedule_highperf_eq.
  destruct (foldM _ _ _) as [[tasks nc']|e] eqn:Hs; cbn; [|done].
  destruct (HighPerf.gather _ _ _ _) as [c|e] eqn:Hg; cbn; [|done].
  intros [= <-]. apply reserve_fold_sizes in Hs as (new & Heq & _ & Hall & _).
  cbn in Heq. subst tasks.
  apply sizes_nonneg in Hall; [|by intros c0 [= <-]].
  destruct (highperf_gather_counts _ _ _ _ _ Hall Hg) as (G1 & G2 & G3 & G4 & G5).
  unfold every_submission_counted. cbn [results trace].
  rewrite !submitted_app.
  assert (submitted
            match HighPerf.rate_limit interval (last_batch_time st) (clock_top r) with
            | Some seconds => [Sleep seconds]
            | None => []
            end = 0) as -> by (by destruct (HighPerf.rate_limit _ _ _)).
  repeat split; try congruence; lia.
Qed.

Lemma every_submission_counted_start nc tx0 t :
  every_submission_counted tx0 {| nonce_counters := nc; results := tx0;
                                  last_batch_time := t; trace := [] |}.
Proof. unfold every_submission_counted. cbn. repeat split; lia. Qed.

End PhaseCounts.

(** X6: when a load phase of [stress_test_blocktime.py] or of
    [stress_test_20k_tps.py] ends without an exception, ['sent'] and
    ['failed'] have together gone up by exactly the number of transactions
    that its batches were asked to submit (the sum of the batch sizes
    handed to [send_transaction_batch]), neither has gone down, and
    ['confirmed'] and ['pending'] have not been touched. *)
Theorem load_phase_counts_every_submission :
  (forall accounts tx0 tps_target t0 rounds st,
     Blocktime.stress_test_transactions accounts tx0 tps_target t0 rounds
     = Ok st ->
     sent (results st) + failed (results st)
     = sent tx0 + failed tx0 + submitted (trace st) /\
     sent tx0 <= sent (results st) /\
     failed tx0 <= failed (results st) /\
     confirmed (results st) = confirmed tx0 /\
     pending (results st) = pending tx0)
  /\ (forall accounts get_transaction_count tx0 tps_target t0 rounds st,
        HighPerf.stress_test_transactions_optimized
          accounts get_transaction_count tx0 tps_target t0 rounds = Ok st ->
        sent (results st) + failed (results st)
        = sent tx0 + failed tx0 + submitted (trace st) /\
        sent tx0 <= sent (results st) /\
        failed tx0 <= failed (results st) /\
        confirmed (results st) = confirmed tx0 /\
        pending (results st) = pending tx0).
Proof.
  split.
  - intros accounts tx0 tps t0 rounds st.
    unfold Blocktime.stress_test_transactions.
    destruct (int_truediv 1000 tps) as [delay|e]; cbn; [|done].
    apply (foldM_invariant (every_submission_counted tx0)).
    + intros s r s'. apply blocktime_round_counts.
    + apply every_submission_counted_start.
  - intros accounts gtc tx0 tps t0 rounds st.
    unfold HighPerf.stress_test_transactions_optimized.
    destruct (BlocktimeFixed.initial_nonces _ _) as [nc0|e]; cbn; [|done].
    destruct (int_truediv 2000 tps) as [interval|e]; cbn; [|done].
    destruct (int_floordiv 2000 _) as [txs|e] eqn:Htxs; cbn; [|done].
    apply int_floordiv_nonneg in Htxs;
      [|lia|pose proof (len_nonneg accounts); lia].
    apply (foldM_invariant (every_submission_counted tx0)).
    + intros s r s'. by apply highperf_round_counts.
    + apply every_submission_counted_start.
Qed.

(** X6, witness: two iterations over two accounts; the second batch of
    the first iteration is rejected. *)
Lemma load_phase_counts_every_submission_witness :
  exists st,
    Blocktime.stress_test_transactions
      [alice; bob] (TxResults 0 0 0 0) 20000 10 [slow_round; next_round]
    = Ok st /\
    results st = TxResults 1500 0 500 0 /\
    submitted (trace st) = 2000 /\
    sent (results st) + failed (results st) = 0 + 0 + submitted (trace st).
Proof.
  eexists. split; [vm_compute; reflexivity|].
  split; [reflexivity|]. split; [reflexivity|].
  refine (proj1 (proj1 load_phase_counts_every_submission
                       [alice; bob] (TxResults 0 0 0 0) 20000 10%float
                       [slow_round; next_round] _ _)).
  vm_compute; reflexivity.
Defined.
Section ZeroNonces.

(** The table [{acc['address']: 0 for acc in self.accounts}]. *)
Lemma zero_table_lookup accounts : forall (m : gmap string Z) a,
  fold_left (fun m acc => <[address acc := 0]> m) accounts m !! a
  = if decide (a ∈ map address accounts) then Some 0 else m !! a.
Proof.
  induction accounts as [|x accounts IH]; intros m a; cbn [fold_left map].
  - by rewrite decide_False by apply not_elem_of_nil.
  - rewrite IH. destruct (decide (a ∈ map address accounts)) as [Hin|Hnin].
    + by rewrite decide_True by (by apply list_elem_of_further).
    + destruct (decide (a = address x)) as [->|Hne].
      * rewrite lookup_insert_eq.
        by rewrite decide_True by apply list_elem_of_here.
      * rewrite lookup_insert_ne by done.
        rewrite decide_False; [done|].
        intros [?|?]%elem_of_cons; done.
Qed.

(** An account without a counter is never scheduled: the loop ends with
    [KeyError] before. *)
Lemma reserve_fold_unknown size senders a : forall tasks nc tasks' nc',
  nc !! a = None ->
  foldM (reserve_step size) senders (tasks, nc) = Ok (tasks', nc') ->
  exists new,
    tasks' = tasks ++ new /\ reservations a new = [] /\ nc' !! a = None.
Proof.
  induction senders as [|x senders IH]; intros tasks nc tasks' nc' Ha H;
    cbn in H.
  - injection H as <- <-. exists []. by rewrite app_nil_r.
  - destruct (nc !! address x) as [n0|] eqn:Hx; [|done].
    destruct size as [c|e] eqn:Hs; cbn in H; [|done].
    assert (address x <> a) as Hne by (intros Heq; rewrite Heq in Hx; congruence).
    assert (<[address x := n0 + c]> nc !! a = None) as Ha'
      by (by rewrite lookup_insert_ne).
    destruct (IH _ _ _ _ Ha' H) as (new & -> & Hres & Hnone).
    exists (Batch x n0 c :: new). split; [by rewrite <- app_assoc|].
    rewrite reservations_batch. by rewrite decide_False.
Qed.

Lemma blocktime_round_unknown a accounts delay st r st' :
  never_scheduled a st ->
  Blocktime.round_step accounts delay st r = Ok st' ->
  never_scheduled a st'.
Proof.
  intros [Hnone Hres]. unfold Blocktime.round_step.
  rewrite schedule_blocktime_eq.
  destruct (foldM _ _ _) as [[tasks nc']|e] eqn:Hs; cbn; [|done].
  destruct (Blocktime.gather _ _ _ _) as [c|e]; cbn; [|done].
  intros [= <-].
  apply (reserve_fold_unknown _ _ a) in Hs as (new & Heq & Hnew & Hnone');
    [|done].
  cbn in Heq. subst tasks. split; [done|]. cbn [trace].
  by rewrite !reservations_app, Hres, Hnew, reservations_sleep.
Qed.

End ZeroNonces.

(** X7: [stress_test_blocktime.py] starts the nonce counter of every
    account at 0, whatever nonce the chain expects.  When its load phase
    ends without an exception, the nonce ranges handed to the batches of an
    account of [self.accounts] follow one another from 0 without gap or
    overlap, and the account's counter is the total reserved; an address
    that is not in [self.accounts] has no counter and no batch was sent
    from it. *)
Theorem blocktime_nonces_start_at_zero :
  forall accounts tx0 tps_target t0 rounds st a,
    Blocktime.stress_test_transactions accounts tx0 tps_target t0 rounds
    = Ok st ->
    let rs := reservations a (trace st) in
    (a ∈ map address accounts ->
     chained 0 rs /\
     nonce_counters st !! a = Some (total_reserved rs) /\
     nonces rs = seqZ 0 (total_reserved rs) /\
     NoDup (nonces rs)) /\
    (a ∉ map address accounts ->
     rs = [] /\ nonce_counters st !! a = None).
Proof.
  intros accounts tx0 tps t0 rounds st a.
  unfold Blocktime.stress_test_transactions.
  destruct (int_truediv 1000 tps) as [delay|e]; cbn; [|done].
  set (nc0 := fold_left (fun m acc => <[address acc := 0]> m) accounts ∅).
  intros Hst. split.
  - intros Hin.
    assert (nc0 !! a = Some 0) as Hn0.
    { subst nc0. rewrite zero_table_lookup. by rewrite decide_True. }
    assert (nonce_invariant nc0 st) as Hinv.
    { revert Hst. apply foldM_invariant.
      - intros s r s'. apply blocktime_round_invariant.
      - apply nonce_invariant_start. }
    destruct (nonce_invariant_ranges nc0 st a 0 Hinv Hn0)
      as (H1 & H2 & H3 & H4 & _).
    rewrite Z.add_0_l in H2. done.
  - intros Hnin.
    assert (never_scheduled a st) as [H1 H2]; [|done].
    revert Hst. apply (foldM_invariant (never_scheduled a)).
    + intros s r s'. apply blocktime_round_unknown.
    + split; [|done]. cbn. subst nc0. rewrite zero_table_lookup.
      by rewrite decide_False.
Qed.

(** X7, witness: the first account is handed 0..499 and 500..999. *)
Lemma blocktime_nonces_start_at_zero_witness :
  exists st,
    Blocktime.stress_test_transactions
      [alice; bob] (TxResults 0 0 0 0) 20000 10 [slow_round; next_round]
    = Ok st /\
    "0xA11CE"%string ∈ map address [alice; bob] /\
    reservations "0xA11CE" (trace st) = [(0, 500); (500, 500)] /\
    chained 0 (reservations "0xA11CE" (trace st)).
Proof.
  assert (Hin : "0xA11CE"%string ∈ map address [alice; bob])
    by apply list_elem_of_here.
  eexists. split; [vm_compute; reflexivity|]. split; [exact Hin|].
  split; [reflexivity|].
  refine (proj1 (proj1 (blocktime_nonces_start_at_zero
                          [alice; bob] (TxResults 0 0 0 0) 20000 10%float
                          [slow_round; next_round] _ "0xA11CE"%string _)
                       Hin)).
  vm_compute; reflexivity.
Defined.
Section RoundShape.

Lemma share_bounds total k :
  0 < k -> 0 <= total -> total - k < k * (total / k) <= total.
Proof.
  intros Hk Ht. pose proof (Z.div_mod total k ltac:(lia)).
  pose proof (Z.mod_pos_bound total k Hk). lia.
Qed.

Lemma int_floordiv_len {A} total (l : list A) :
  l <> [] -> int_floordiv total (len l) = Ok (total / len l).
Proof.
  intros Hne. unfold int_floordiv, len.
  destruct l; [done|]. cbn [length].
  by destruct (Z.eqb_spec (Z.of_nat (S (length l))) 0); [lia|].
Qed.

(** What one scheduling loop adds when every account gets [c]. *)
Lemma reserve_fold_shares size senders c tasks nc tasks' nc' :
  (senders <> [] -> size = Ok c) ->
  foldM (reserve_step size) senders (tasks, nc) = Ok (tasks', nc') ->
  exists new,
    tasks' = tasks ++ new /\
    sleeps new = [] /\
    batch_senders new = senders /\
    Forall (fun ev => is_batch ev = true /\ batch_size_of ev = c) new /\
    submitted new = len senders * c.
Proof.
  intros Hsize H.
  destruct (reserve_fold_shape _ _ _ _ _ _ H) as (new' & Heq' & Hsl & _).
  apply reserve_fold_sizes in H as (new & Heq & Hsend & Hall & Hsub).
  assert (new' = new) as -> by (rewrite Heq in Heq'; by apply app_inv_head in Heq').
  exists new. split; [done|]. split; [done|]. split; [done|].
  destruct senders as [|x senders].
  - destruct new as [|ev new].
    + split; [constructor|]. unfold len. cbn. lia.
    + apply Forall_cons in Hall as [[Hb _] _].
      destruct ev; [discriminate Hsend|discriminate Hb].
  - rewrite Hsize in Hall, Hsub by done. split.
    + eapply Forall_impl; [exact Hall|]. intros ev [Hb [= Hc]]. by split.
    + by apply Hsub.
Qed.

End RoundShape.

(** X8: one iteration of a sending loop hands one batch to every sampled
    account, in the order of the sample, and all batches of the iteration
    have the same size.  In [stress_test_blocktime.py] and
    [stress_test_blocktime_fixed.py] the size is the floor of 1000 over the
    number [k] of sampled accounts, so an iteration that samples at least
    one account submits [k * (1000 // k)] transactions: never more than
    1000, more than [1000 - k], and exactly 1000 for the 50 accounts of a
    full sample.  In [stress_test_20k_tps.py] every sampled account gets
    [txs_per_account]. *)
Theorem round_shares_the_batch_evenly :
  (forall accounts delay st r st',
     Blocktime.round_step accounts delay st r = Ok st'
     \/ BlocktimeFixed.round_step accounts delay st r = Ok st' ->
     exists tasks,
       trace st' = trace st ++ tasks ++ [Sleep delay] /\
       sleeps tasks = [] /\
       batch_senders tasks = sample r /\
       Forall (fun ev => batch_size_of ev = 1000 / len (sample r)) tasks /\
       submitted tasks = len (sample r) * (1000 / len (sample r)) /\
       (sample r <> [] -> 1000 - len (sample r) < submitted tasks <= 1000) /\
       (len (sample r) = 50 -> submitted tasks = 1000))
  /\ (forall accounts interval txs_per_account st r st',
        HighPerf.round_step accounts interval txs_per_account st r = Ok st' ->
        exists slept tasks,
          trace st' = trace st ++ slept ++ tasks /\
          submitted slept = 0 /\
          sleeps tasks = [] /\
          batch_senders tasks = sample r /\
          Forall (fun ev => batch_size_of ev = txs_per_account) tasks /\
          submitted tasks = len (sample r) * txs_per_account).
Proof.
  split.
  - intros accounts delay st r st' Hstep.
    assert (exists tasks nc',
              foldM (reserve_step (int_floordiv 1000 (len (sample r))))
                    (sample r) ([], nonce_counters st) = Ok (tasks, nc') /\
              trace st' = trace st ++ tasks ++ [Sleep delay])
      as (tasks & nc' & Hs & Htr).
    { destruct Hstep as [Hstep|Hstep]; revert Hstep.
      - unfold Blocktime.round_step. rewrite schedule_blocktime_eq.
        destruct (foldM _ _ _) as [[tasks nc']|e] eqn:Hs; cbn; [|done].
        destruct (Blocktime.gather _ _ _ _) as [c|e]; cbn; [|done].
        intros [= <-]. by exists tasks, nc'.
      - unfold BlocktimeFixed.round_step. rewrite schedule_fixed_eq.
        destruct (foldM _ _ _) as [[tasks nc']|e] eqn:Hs; cbn; [|done].
        destruct (BlocktimeFixed.gather _ _ _ _) as [c|e]; cbn; [|done].
        intros [= <-]. by exists tasks, nc'. }
    apply (reserve_fold_shares _ _ (1000 / len (sample r))) in Hs
      as (new & Heq & Hsl & Hsend & Hall & Hsub);
      [|apply int_floordiv_len].
    cbn in Heq. subst tasks. exists new.
    split; [done|]. split; [done|]. split; [done|].
    split; [eapply Forall_impl; [exact Hall|]; by intros ev [_ ?]|].
    split; [done|]. rewrite Hsub. split.
    + intros Hne. apply share_bounds; [|lia].
      unfold len. destruct (sample r); [done|cbn; lia].
    + intros ->. reflexivity.
  - intros accounts interval txs st r st'.
    unfold HighPerf.round_step. rewrite schedule_highperf_eq.
    destruct (foldM _ _ _) as [[tasks nc']|e] eqn:Hs; cbn; [|done].
    destruct (HighPerf.gather _ _ _ _) as [c|e]; cbn; [|done].
    intros [= <-].
    apply (reserve_fold_shares _ _ txs) in Hs
      as (new & Heq & Hsl & Hsend & Hall & Hsub); [|done].
    cbn in Heq. subst tasks. cbn [trace]. eexists _, new.
    split; [reflexivity|].
    split; [by destruct (HighPerf.rate_limit _ _ _)|].
    split; [done|]. split; [done|].
    split; [eapply Forall_impl; [exact Hall|]; by intros ev [_ ?]|done].
Qed.

(** X8, witness: two accounts sampled, 500 transactions each. *)
Lemma round_shares_the_batch_evenly_witness :
  Blocktime.round_step [alice; bob] 0.05 fresh_generator slow_round
  = Ok after_slow_round /\
  exists tasks,
    trace after_slow_round = trace fresh_generator ++ tasks ++ [Sleep 0.05] /\
    sleeps tasks = [] /\
    batch_senders tasks = sample slow_round /\
    Forall (fun ev => batch_size_of ev = 1000 / len (sample slow_round)) tasks /\
    submitted tasks
    = len (sample slow_round) * (1000 / len (sample slow_round)) /\
    (sample slow_round <> [] ->
     1000 - len (sample slow_round) < submitted tasks <= 1000) /\
    (len (sample slow_round) = 50 -> submitted tasks = 1000).
Proof.
  assert (H : Blocktime.round_step [alice; bob] 0.05 fresh_generator slow_round
              = Ok after_slow_round) by (vm_compute; reflexivity).
  split; [exact H|].
  exact (proj1 round_shares_the_batch_evenly
               [alice; bob] 0.05%float fresh_generator slow_round
               after_slow_round (or_introl H)).
Defined.
(* ===================================================================== *)
(** * The requests of one batch *)
(* ===================================================================== *)

(** X9: cutting the signed transactions in slices of 20 changes nothing
    that [send_transaction_batch_optimized] of [stress_test_20k_tps.py]
    sends or counts: the requests it builds are the signed transactions in
    order, the [k]-th with id [k], which are the requests that
    [send_transaction_batch] of [stress_test_blocktime.py] builds; and for
    every input it leaves the same counters as that function, and raises
    the same exception when a transaction cannot be built or signed. *)
Theorem optimized_batch_is_the_plain_batch :
  (forall txs,
     HighPerf.batch_tasks txs = zip_with send_raw txs (seqZ 0 (len txs)))
  /\ (forall accounts env c from_account nonce_start batch_size,
        (r ← HighPerf.send_transaction_batch_optimized
               accounts env c from_account nonce_start batch_size;
         Ok (fst r))
        = Blocktime.send_transaction_batch
            accounts env c from_account nonce_start batch_size).
Proof.
  split.
  - intros txs. by rewrite batch_tasks_spec, zip_with_seqZ_imap.
  - intros accounts env c a n B.
    unfold HighPerf.send_transaction_batch_optimized,
           Blocktime.send_transaction_batch.
    rewrite mapM_then_zip.
    destruct (mapM _ (seqZ 0 B)) as [txs|e] eqn:Htxs;
      cbn -[HighPerf.batch_tasks]; [|done].
    rewrite batch_tasks_spec, (seqZ_len_mapM _ _ _ _ Htxs), zip_with_seqZ_imap.
    reflexivity.
Qed.

Section SignedNonces.

Lemma build_transaction_fields accounts env a n i tx :
  build_transaction accounts env a n i = Ok tx ->
  tx_nonce tx = n + i /\
  tx_from tx = address a /\
  tx_to tx ∈ map address accounts /\
  tx_chainId tx = 713714.
Proof.
  unfold build_transaction. destruct (len accounts =? 0); [done|].
  destruct (accounts !! _) as [to|] eqn:Hto; [|done].
  intros [= <-]. cbn. repeat split.
  apply list_elem_of_lookup_2 in Hto.
  change (map address accounts) with (address <$> accounts).
  by apply list_elem_of_fmap_2.
Qed.

Lemma batch_transactions_fields accounts env a n l txs :
  mapM (build_transaction accounts env a n) l = Ok txs ->
  map tx_nonce txs = map (fun i => n + i) l /\
  Forall (fun tx => tx_from tx = address a /\
                    tx_to tx ∈ map address accounts /\
                    tx_chainId tx = 713714) txs.
Proof.
  intros H%mapM_result_Forall2.
  induction H as [|i tx l txs Hi _ [IH1 IH2]]; [done|].
  apply build_transaction_fields in Hi as (H1 & H2 & H3 & H4).
  cbn [map]. rewrite H1, IH1. split; [done|]. by constructor.
Qed.

(** A batch whose requests were all built has built its transactions. *)
Lemma signed_then_built accounts env a n l raws :
  mapM (signed_hex accounts env a n) l = Ok raws ->
  exists txs,
    mapM (build_transaction accounts env a n) l = Ok txs /\
    Forall2 (fun tx raw => sign_transaction env tx (private_key a) = Ok raw)
            txs raws.
Proof.
  intros H%mapM_result_Forall2.
  induction H as [|i raw l raws Hi _ (txs & IH1 & IH2)]; [by exists []|].
  unfold signed_hex in Hi.
  destruct (build_transaction accounts env a n i) as [tx|e] eqn:Htx;
    cbn in Hi; [|done].
  exists (tx :: txs). cbn. rewrite Htx. cbn. rewrite IH1. cbn.
  split; [done|]. by constructor.
Qed.

End SignedNonces.

(** X10: a batch that [send_transaction_batch] (or
    [send_transaction_batch_optimized]) was handed [nonce_start] and
    [batch_size] and has processed has built and signed, with the private
    key of its account, [batch_size] transactions whose nonces are
    [nonce_start, nonce_start + 1, ...] in this order, which is the range
    reserved for it by the sending loop; each is sent from the account of
    the batch to an account of [self.accounts], on chain 713714. *)
Theorem batch_signs_the_reserved_nonces :
  forall accounts env c from_account nonce_start batch_size,
    (exists c',
       Blocktime.send_transaction_batch
         accounts env c from_account nonce_start batch_size = Ok c') \/
    (exists c' k,
       HighPerf.send_transaction_batch_optimized
         accounts env c from_account nonce_start batch_size = Ok (c', k)) ->
    exists txs,
      batch_transactions accounts env from_account nonce_start batch_size
      = Ok txs /\
      map tx_nonce txs = batch_nonces (nonce_start, batch_size) /\
      Forall (fun tx => tx_from tx = address from_account /\
                        tx_to tx ∈ map address accounts /\
                        tx_chainId tx = 713714) txs /\
      exists raws,
        Forall2 (fun tx raw =>
                   sign_transaction env tx (private_key from_account) = Ok raw)
                txs raws.
Proof.
  intros accounts env c a n B Hsent.
  assert (exists raws, mapM (signed_hex accounts env a n) (seqZ 0 B) = Ok raws)
    as [raws Hraws].
  { destruct Hsent as [[c' H]|(c' & k & H)]; revert H.
    - unfold Blocktime.send_transaction_batch. rewrite mapM_then_zip.
      destruct (mapM _ (seqZ 0 B)) as [raws|e]; cbn; [by eexists|done].
    - unfold HighPerf.send_transaction_batch_optimized.
      destruct (mapM _ (seqZ 0 B)) as [raws|e]; cbn; [by eexists|done]. }
  destruct (signed_then_built _ _ _ _ _ _ Hraws) as (txs & Htxs & Hsigned).
  exists txs. split; [exact Htxs|].
  destruct (batch_transactions_fields _ _ _ _ _ _ Htxs) as [H1 H2].
  split; [exact H1|]. split; [exact H2|]. by exists raws.
Qed.

(** X10, witness: a batch of 7 from the first account, nonces 40..46. *)
Lemma batch_signs_the_reserved_nonces_witness :
  Blocktime.send_transaction_batch [alice; bob] rejecting (TxResults 5 0 2 0)
                                   alice 40 7 = Ok (TxResults 5 0 9 0) /\
  batch_nonces (40, 7) = [40; 41; 42; 43; 44; 45; 46] /\
  exists txs,
    batch_transactions [alice; bob] rejecting alice 40 7 = Ok txs /\
    map tx_nonce txs = batch_nonces (40, 7) /\
    Forall (fun tx => tx_from tx = address alice /\
                      tx_to tx ∈ map address [alice; bob] /\
                      tx_chainId tx = 713714) txs /\
    exists raws,
      Forall2 (fun tx raw =>
                 sign_transaction rejecting tx (private_key alice) = Ok raw)
              txs raws.
Proof.
  assert (H : Blocktime.send_transaction_batch
                [alice; bob] rejecting (TxResults 5 0 2 0) alice 40 7
              = Ok (TxResults 5 0 9 0)) by reflexivity.
  split; [exact H|]. split; [reflexivity|].
  exact (batch_signs_the_reserved_nonces
           [alice; bob] rejecting (TxResults 5 0 2 0) alice 40 7
           (or_introl (ex_intro _ _ H))).
Defined.
(* ===================================================================== *)
(** * The initial nonces *)
(* ===================================================================== *)

Section InitialNonces.

Lemma initial_nonces_fold gtc accounts : forall (m0 m : gmap string Z),
  foldM (fun (m : gmap string Z) acc =>
           n ← gtc (address acc); Ok (<[address acc := n]> m))
        accounts m0 = Ok m ->
  forall a n,
    (m !! a = Some n)
    <-> (a ∈ map address accounts /\ gtc a = Ok n) \/
        ((a ∉ map address accounts) /\ m0 !! a = Some n).
Proof.
  induction accounts as [|x accounts IH]; intros m0 m; cbn.
  - intros [= <-] a n. split; [intros H; right; split; [apply not_elem_of_nil|done]|].
    intros [[H _]|[_ H]]; [by apply not_elem_of_nil in H|done].
  - destruct (gtc (address x)) as [nx|e] eqn:Hx; cbn; [|done].
    intros H a n. rewrite (IH _ _ H a n), elem_of_cons.
    destruct (decide (a = address x)) as [->|Hne].
    + rewrite lookup_insert_eq. split.
      * intros [[Hin Hg]|[Hnin [= <-]]]; left; split; auto.
      * intros [[_ Hg]|[Hnin _]]; [|exfalso; apply Hnin; by left].
        destruct (decide (address x ∈ map address accounts)); [by left|].
        right. split; [done|]. congruence.
    + rewrite lookup_insert_ne by done. split.
      * intros [[Hin Hg]|[Hnin Hm]]; [left; split; auto|right; split; [|done]].
        by intros [?|?].
      * intros [[[?|Hin] Hg]|[Hnin Hm]]; [done|by left|right; split; [|done]].
        intros ?; apply Hnin; by right.
Qed.

Lemma initial_nonces_returns gtc accounts : forall (m0 : gmap string Z),
  Forall (fun acc => exists n, gtc (address acc) = Ok n) accounts ->
  exists m,
    foldM (fun (m : gmap string Z) acc =>
             n ← gtc (address acc); Ok (<[address acc := n]> m))
          accounts m0 = Ok m.
Proof.
  induction accounts as [|x accounts IH]; intros m0 Hall; cbn; [by eexists|].
  apply Forall_cons in Hall as [[n Hn] Hall]. rewrite Hn. cbn. by apply IH.
Qed.

Lemma initial_nonces_raises gtc accounts acc e : forall (m0 : gmap string Z),
  acc ∈ accounts ->
  gtc (address acc) = Raise e ->
  exists e',
    foldM (fun (m : gmap string Z) acc =>
             n ← gtc (address acc); Ok (<[address acc := n]> m))
          accounts m0 = Raise e'.
Proof.
  induction accounts as [|x accounts IH]; intros m0 Hin He; cbn.
  - by apply not_elem_of_nil in Hin.
  - destruct (gtc (address x)) as [nx|ex] eqn:Hx; cbn; [|by eexists].
    apply elem_of_cons in Hin as [->|Hin]; [congruence|]. by apply IH.
Qed.

End InitialNonces.

(** X11: the nonce table of [stress_test_blocktime_fixed.py] and of
    [stress_test_20k_tps.py] is read from the chain before anything is
    sent.  If [get_transaction_count] answers for every account of
    [self.accounts], the table is built, and it holds, for exactly the
    addresses of [self.accounts], the count the chain reported.  If the
    call raises for some account, no table is built and the load phase
    ends with an exception, whatever iterations were to follow. *)
Theorem initial_nonces_come_from_the_chain :
  forall get_transaction_count accounts,
    (Forall (fun acc => exists n, get_transaction_count (address acc) = Ok n)
            accounts ->
     exists nc0,
       BlocktimeFixed.initial_nonces get_transaction_count accounts = Ok nc0)
    /\ (forall nc0,
          BlocktimeFixed.initial_nonces get_transaction_count accounts
          = Ok nc0 ->
          forall a n,
            (nc0 !! a = Some n)
            <-> a ∈ map address accounts /\ get_transaction_count a = Ok n)
    /\ (forall acc e tx0 tps_target t0 rounds,
          acc ∈ accounts ->
          get_transaction_count (address acc) = Raise e ->
          exists e1 e2 e3,
            BlocktimeFixed.initial_nonces get_transaction_count accounts
            = Raise e1 /\
            BlocktimeFixed.stress_test_transactions
              accounts get_transaction_count tx0 tps_target t0 rounds
            = Raise e2 /\
            HighPerf.stress_test_transactions_optimized
              accounts get_transaction_count tx0 tps_target t0 rounds
            = Raise e3).
Proof.
  intros gtc accounts. split; [|split].
  - apply initial_nonces_returns.
  - intros nc0 H a n.
    rewrite (initial_nonces_fold gtc accounts ∅ nc0 H a n), lookup_empty.
    split; [by intros [?|[_ ?]]|by left].
  - intros acc e tx0 tps t0 rounds Hin He.
    destruct (initial_nonces_raises gtc accounts acc e ∅ Hin He) as [e' H].
    exists e', e', e'. split; [exact H|].
    unfold BlocktimeFixed.stress_test_transactions,
           HighPerf.stress_test_transactions_optimized,
           BlocktimeFixed.initial_nonces.
    by rewrite H.
Qed.

(** X11, witness: the chain reports 7 and 3 for the two accounts. *)
Lemma initial_nonces_come_from_the_chain_witness :
  Forall (fun acc => exists n, pending_nonces (address acc) = Ok n)
         [alice; bob] /\
  BlocktimeFixed.initial_nonces pending_nonces [alice; bob]
  = Ok {[ "0xA11CE"%string := 7; "0xB0B"%string := 3 ]} /\
  exists nc0,
    BlocktimeFixed.initial_nonces pending_nonces [alice; bob] = Ok nc0.
Proof.
  assert (H : Forall (fun acc => exists n, pending_nonces (address acc) = Ok n)
                     [alice; bob]).
  { apply Forall_cons; split; [by exists 7|].
    apply Forall_cons; split; [by exists 3|]. apply Forall_nil_2. }
  split; [exact H|]. split; [vm_compute; reflexivity|].
  exact (proj1 (initial_nonces_come_from_the_chain pending_nonces [alice; bob])
               H).
Defined.
(* ===================================================================== *)
(** * The response loop of [stress_test_blocktime_fixed.py] *)
(* ===================================================================== *)

Section LoggedErrors.

Lemma contains_key_result doc : contains_key "result" doc = contains_result doc.
Proof. by destruct doc. Qed.

(** A dict that holds a key can be read at that key. *)
Lemma subscript_present fields key :
  existsb (fun kv : string * json => String.eqb (fst kv) key) fields = true ->
  exists v, subscript (JDict fields) key = Ok v.
Proof.
  intros (kv & Hin & Hk)%existsb_exists. cbn.
  destruct (List.find _ fields) as [kv'|] eqn:Hfind; [by eexists|].
  by rewrite (find_none _ _ Hfind kv Hin) in Hk.
Qed.

Lemma count_response_logged_cases c r :
  BlocktimeFixed.count_response_logged c r
  = if unprintable_error r then add_failed (add_failed c)
    else count_response c r.
Proof.
  unfold count_response, accepted, BlocktimeFixed.count_response_logged.
  destruct r as [|[doc|e]]; [done| |done].
  cbn [mbind result_bind Py.bind].
  destruct doc as [|b|z|f|s|items|fields]; try done.
  - unfold BlocktimeFixed.print_error.
    cbn [contains_result unprintable_error contains_key subscript
         mbind result_bind Py.bind].
    destruct (String.index 0 "result" s); [done|].
    by destruct (String.index 0 "error" s).
  - unfold BlocktimeFixed.print_error.
    cbn [contains_result unprintable_error contains_key subscript
         mbind result_bind Py.bind].
    destruct (existsb _ items); [done|]. cbn [negb andb].
    by destruct (existsb _ items).
  - cbn [contains_result unprintable_error].
    destruct (existsb _ fields) eqn:Hres; [done|].
    unfold BlocktimeFixed.print_error. cbn [contains_key mbind result_bind Py.bind].
    destruct (existsb (fun kv : string * json => String.eqb (fst kv) "error")
                      fields) eqn:Herr; [|reflexivity].
    by destruct (subscript_present fields "error" Herr) as [v ->].
Qed.

Lemma count_responses_logged rs : forall c,
  let c' := fold_left BlocktimeFixed.count_response_logged rs c in
  sent c' = sent (fold_left count_response rs c) /\
  failed c'
  = failed (fold_left count_response rs c)
    + len (filter (fun r => unprintable_error r = true) rs) /\
  confirmed c' = confirmed c /\ pending c' = pending c.
Proof.
  assert (Hshift : forall rs c,
            fold_left count_response rs (add_failed c)
            = add_failed (fold_left count_response rs c)).
  { induction rs0 as [|r rs0 IH]; intros c; cbn; [done|].
    rewrite <- IH. f_equal. unfold count_response. by destruct (accepted r). }
  unfold len. induction rs as [|r rs IH]; intros c; cbn [fold_left].
  - rewrite filter_nil. cbn. repeat split; lia.
  - specialize (IH (BlocktimeFixed.count_response_logged c r)).
    cbv zeta in IH. destruct IH as (Hs & Hf & Hc & Hp).
    rewrite Hs, Hf, Hc, Hp, filter_cons, count_response_logged_cases.
    destruct (unprintable_error r) eqn:Hu.
    + assert (count_response c r = add_failed c) as Hcr.
      { unfold count_response, accepted.
        destruct r as [|[[| | | |s|items|]|]]; try done; cbn in Hu |- *.
        - by destruct (String.index 0 "result" s).
        - by destruct (existsb _ items). }
      rewrite decide_True by done. rewrite Hcr, !Hshift. cbn [length sent failed confirmed pending add_failed].
      unfold count_response. destruct (accepted r); cbn; repeat split; lia.
    + rewrite decide_False by done.
      unfold count_response. destruct (accepted r); cbn; repeat split; lia.
Qed.

End LoggedErrors.

(** X12: the response loop of [send_transaction_batch] in
    [stress_test_blocktime_fixed.py] prints the answer's ['error'] inside
    its [try].  For an answer that decodes to a list or a string holding
    ['error'] and not ['result'], that print raises [TypeError] after the
    failure was counted, and the bare [except] counts it again: such a
    response adds two to ['failed'].  Every other response is counted as
    in the two other scripts, once; in particular every answer that is a
    JSON object.  So after [len rs] responses ['sent'] and ['failed'] have
    together gone up by [len rs] plus the number of such answers, and
    ['sent'] is what the other scripts would count. *)
Theorem fixed_loop_counts_unprintable_errors_twice :
  (forall c r,
     BlocktimeFixed.count_response_logged c r
     = if unprintable_error r then add_failed (add_failed c)
       else count_response c r)
  /\ (forall c fields,
        BlocktimeFixed.count_response_logged c (Answer (Ok (JDict fields)))
        = count_response c (Answer (Ok (JDict fields))))
  /\ (forall rs c,
        let c' := fold_left BlocktimeFixed.count_response_logged rs c in
        sent c' + failed c'
        = sent c + failed c + len rs
          + len (filter (fun r => unprintable_error r = true) rs) /\
        sent c' = sent (fold_left count_response rs c) /\
        confirmed c' = confirmed c /\ pending c' = pending c)
  /\ BlocktimeFixed.count_response_logged
       (TxResults 0 0 0 0) (Answer (Ok (JList [JStr "error"])))
     = TxResults 0 0 2 0.
Proof.
  split; [apply count_response_logged_cases|].
  split; [intros c fields; by rewrite count_response_logged_cases|].
  split; [|reflexivity].
  intros rs c. destruct (count_responses_logged rs c) as (Hs & Hf & Hc & Hp).
  destruct (count_responses_totals rs c) as (_ & _ & _ & _ & Hsum).
  cbv zeta. rewrite Hs, Hf. repeat split; try done. lia.
Qed.
(* ===================================================================== *)
(** * Load phases that run to their end *)
(* ===================================================================== *)

Section Progress.

Lemma valid_sample_known population k s x :
  valid_sample population k s -> x ∈ s -> x ∈ population.
Proof. intros [_ Hsub] Hx. by eapply elem_of_submseteq. Qed.

Lemma valid_sample_nonempty population k s :
  valid_sample population k s -> s <> [] -> population <> [].
Proof.
  intros Hv Hs ->. apply Hs. by eapply valid_sample_nil.
Qed.

(** The scheduling loop keeps every counter it found. *)
Lemma reserve_fold_keeps size senders : forall tasks nc tasks' nc' a,
  foldM (reserve_step size) senders (tasks, nc) = Ok (tasks', nc') ->
  is_Some (nc !! a) -> is_Some (nc' !! a).
Proof.
  induction senders as [|x senders IH]; intros tasks nc tasks' nc' a H Ha;
    cbn in H.
  - by injection H as <- <-.
  - destruct (nc !! address x) as [n0|] eqn:Hx; [|done].
    destruct size as [c|e] eqn:Hs; cbn in H; [|done].
    eapply IH; [exact H|].
    destruct (decide (address x = a)) as [<-|Hne].
    + by rewrite lookup_insert_eq.
    + by rewrite lookup_insert_ne.
Qed.

Lemma blocktime_gather_returns accounts envs tasks : forall c,
  (tasks <> [] -> accounts <> []) ->
  (forall k tx key, exists raw, sign_transaction (envs k) tx key = Ok raw) ->
  exists c', Blocktime.gather accounts envs tasks c = Ok c'.
Proof.
  intros c Hne Hsign. unfold Blocktime.gather. generalize 0%nat. revert c.
  induction tasks as [|ev tasks IH]; intros c k; cbn; [by eexists|].
  assert (accounts <> []) as Hacc by (by apply Hne).
  destruct ev as [x n B|s]; cbn.
  - destruct (blocktime_batch_returns accounts (envs k) c x n B Hacc (Hsign k))
      as [c1 ->]. cbn. apply IH. by intros _.
  - apply IH. by intros _.
Qed.

Lemma highperf_gather_returns accounts envs tasks : forall c,
  (tasks <> [] -> accounts <> []) ->
  (forall k tx key, exists raw, sign_transaction (envs k) tx key = Ok raw) ->
  exists c', HighPerf.gather accounts envs tasks c = Ok c'.
Proof.
  intros c Hne Hsign. unfold HighPerf.gather. generalize 0%nat. revert c.
  induction tasks as [|ev tasks IH]; intros c k; cbn; [by eexists|].
  assert (accounts <> []) as Hacc by (by apply Hne).
  destruct ev as [x n B|s]; cbn.
  - destruct (highperf_batch_returns accounts (envs k) c x n B Hacc (Hsign k))
      as (c1 & k1 & ->). cbn. apply IH. by intros _.
  - apply IH. by intros _.
Qed.

(** The scheduling loop of an iteration whose sample is drawn from the
    accounts returns. *)
Lemma schedule_returns size accounts st sampled k :
  all_have_counters accounts st ->
  valid_sample accounts k sampled ->
  (sampled <> [] -> exists c, size = Ok c) ->
  exists tasks nc',
    foldM (reserve_step size) sampled ([], nonce_counters st)
    = Ok (tasks, nc') /\
    Forall (fun x => is_Some (nc' !! address x)) accounts /\
    (tasks <> [] -> accounts <> []).
Proof.
  intros Hall Hv Hsize.
  destruct (reserve_fold_returns size sampled [] (nonce_counters st) Hsize)
    as (tasks & nc' & Hs).
  { apply Forall_forall. intros x Hx.
    eapply (proj1 (Forall_forall _ _) Hall), valid_sample_known; eassumption. }
  exists tasks, nc'. split; [exact Hs|]. split.
  - eapply Forall_impl; [exact Hall|]. intros x Hx.
    by eapply reserve_fold_keeps.
  - intros Hne. eapply valid_sample_nonempty; [exact Hv|].
    intros ->. cbn in Hs. by injection Hs as <- <-.
Qed.

Lemma blocktime_round_returns accounts delay st r :
  all_have_counters accounts st ->
  valid_sample accounts (Z.min 50 (len accounts)) (sample r) ->
  signer_accepts r ->
  exists st',
    Blocktime.round_step accounts delay st r = Ok st' /\
    all_have_counters accounts st' /\
    sleeps (trace st') = sleeps (trace st) ++ [delay].
Proof.
  intros Hall Hv Hsign.
  destruct (schedule_returns (int_floordiv 1000 (len (sample r)))
              accounts st (sample r) _ Hall Hv)
    as (tasks & nc' & Hs & Hall' & Hne).
  { intros Hs. unfold int_floordiv, len. destruct (sample r); [done|].
    cbn [length].
    destruct (Z.eqb_spec (Z.of_nat (S (length l))) 0); [lia|by eexists]. }
  destruct (blocktime_gather_returns accounts (envs r) tasks (results st)
              Hne Hsign) as [c' Hg].
  unfold Blocktime.round_step. rewrite schedule_blocktime_eq, Hs. cbn.
  rewrite Hg. cbn. eexists. split; [reflexivity|]. split; [exact Hall'|].
  cbn [trace]. apply reserve_fold_shape in Hs as (new & Heq & Hsl & _).
  cbn in Heq. subst tasks. by rewrite !sleeps_app, Hsl.
Qed.

Lemma blocktime_rounds_return accounts delay rounds : forall st,
  all_have_counters accounts st ->
  Forall (fun r => valid_sample accounts (Z.min 50 (len accounts)) (sample r)
                   /\ signer_accepts r) rounds ->
  exists st',
    foldM (Blocktime.round_step accounts delay) rounds st = Ok st' /\
    sleeps (trace st')
    = sleeps (trace st) ++ repeat delay (length rounds).
Proof.
  induction rounds as [|r rounds IH]; intros st Hall Hrounds; cbn.
  - exists st. by rewrite app_nil_r.
  - apply Forall_cons in Hrounds as [[Hv Hsign] Hrounds].
    destruct (blocktime_round_returns accounts delay st r Hall Hv Hsign)
      as (st1 & -> & Hall1 & Hsl1). cbn.
    destruct (IH st1 Hall1 Hrounds) as (st' & -> & Hsl').
    exists st'. split; [done|]. by rewrite Hsl', Hsl1, <- app_assoc.
Qed.

Lemma zero_table_all accounts (m : gmap string Z) :
  Forall (fun x =>
            is_Some (fold_left (fun m acc => <[address acc := 0]> m) accounts m
                     !! address x)) accounts.
Proof.
  apply Forall_forall. intros x Hx. rewrite zero_table_lookup.
  rewrite decide_True; [done|].
  change (map address accounts) with (address <$> accounts).
  by apply list_elem_of_fmap_2.
Qed.

End Progress.

(** X13: the load phase of [stress_test_blocktime.py] runs to its end
    whenever the batch delay can be computed ([tps_target] is not 0 and
    the quotient is a float), every iteration samples [min(50,
    len(self.accounts))] of the accounts, and the signer accepts the
    transactions: no [KeyError] for a missing counter, no division by zero
    in the batch size, no [ValueError] from the choice of a recipient.  It
    then has slept the batch delay once per iteration. *)
Theorem blocktime_load_phase_returns :
  forall accounts tx0 tps_target t0 rounds delay,
    int_truediv 1000 tps_target = Ok delay ->
    Forall (fun r => valid_sample accounts (Z.min 50 (len accounts)) (sample r)
                     /\ signer_accepts r) rounds ->
    exists st,
      Blocktime.stress_test_transactions accounts tx0 tps_target t0 rounds
      = Ok st /\
      sleeps (trace st) = repeat delay (length rounds).
Proof.
  intros accounts tx0 tps t0 rounds delay Hdelay Hrounds.
  unfold Blocktime.stress_test_transactions. rewrite Hdelay. cbn.
  edestruct (blocktime_rounds_return accounts delay rounds) as (st & Hst & Hsl);
    [|exact Hrounds|exists st; split; [exact Hst|exact Hsl]].
  apply zero_table_all.
Qed.

(** X13, witness: two iterations over the two accounts. *)
Lemma blocktime_load_phase_returns_witness :
  int_truediv 1000 20000 = Ok 0.05%float /\
  Forall (fun r => valid_sample [alice; bob] (Z.min 50 (len [alice; bob]))
                                (sample r)
                   /\ signer_accepts r) [slow_round; next_round] /\
  exists st,
    Blocktime.stress_test_transactions
      [alice; bob] (TxResults 0 0 0 0) 20000 10 [slow_round; next_round]
    = Ok st /\
    sleeps (trace st) = repeat 0.05%float (length [slow_round; next_round]).
Proof.
  assert (Hd : int_truediv 1000 20000 = Ok 0.05%float)
    by (vm_compute; reflexivity).
  assert (Hr : Forall (fun r => valid_sample [alice; bob]
                                  (Z.min 50 (len [alice; bob])) (sample r)
                                /\ signer_accepts r)
                      [slow_round; next_round]).
  { apply Forall_cons; split; [|apply Forall_cons; split; [|apply Forall_nil_2]].
    - split; [split; [reflexivity|reflexivity]|].
      intros k tx key. cbn. destruct (Nat.even k); by eexists.
    - split; [split; [reflexivity|apply submseteq_swap]|].
      intros k tx key. by eexists. }
  split; [exact Hd|]. split; [exact Hr|].
  exact (blocktime_load_phase_returns
           [alice; bob] (TxResults 0 0 0 0) 20000 10%float
           [slow_round; next_round] 0.05%float Hd Hr).
Defined.

Section ProgressHighPerf.

Lemma highperf_round_returns accounts interval txs st r :
  all_have_counters accounts st ->
  valid_sample accounts (Z.min 100 (len accounts)) (sample r) ->
  signer_accepts r ->
  exists st',
    HighPerf.round_step accounts interval txs st r = Ok st' /\
    all_have_counters accounts st' /\
    submitted (trace st')
    = submitted (trace st) + Z.min 100 (len accounts) * txs.
Proof.
  intros Hall Hv Hsign.
  destruct (schedule_returns (Ok txs) accounts st (sample r) _ Hall Hv)
    as (tasks & nc' & Hs & Hall' & Hne); [by eexists|].
  destruct (highperf_gather_returns accounts (envs r) tasks (results st)
              Hne Hsign) as [c' Hg].
  unfold HighPerf.round_step. rewrite schedule_highperf_eq, Hs. cbn.
  rewrite Hg. cbn. eexists. split; [reflexivity|]. split; [exact Hall'|].
  cbn [trace].
  apply (reserve_fold_shares _ _ txs) in Hs as (new & Heq & _ & _ & _ & Hsub);
    [|done].
  cbn in Heq. subst tasks. rewrite !submitted_app, Hsub.
  destruct Hv as [Hlen _]. unfold len. rewrite Hlen.
  by destruct (HighPerf.rate_limit _ _ _).
Qed.

Lemma highperf_rounds_return accounts interval txs rounds : forall st,
  all_have_counters accounts st ->
  Forall (fun r => valid_sample accounts (Z.min 100 (len accounts)) (sample r)
                   /\ signer_accepts r) rounds ->
  exists st',
    foldM (HighPerf.round_step accounts interval txs) rounds st = Ok st' /\
    submitted (trace st')
    = submitted (trace st)
      + len rounds * (Z.min 100 (len accounts) * txs).
Proof.
  induction rounds as [|r rounds IH]; intros st Hall Hrounds; cbn.
  - exists st. split; [done|]. unfold len. cbn. lia.
  - apply Forall_cons in Hrounds as [[Hv Hsign] Hrounds].
    destruct (highperf_round_returns accounts interval txs st r Hall Hv Hsign)
      as (st1 & -> & Hall1 & Hsub1). cbn.
    destruct (IH st1 Hall1 Hrounds) as (st' & -> & Hsub').
    exists st'. split; [done|]. rewrite Hsub', Hsub1. unfold len.
    cbn [length]. lia.
Qed.

Lemma initial_nonces_all gtc accounts nc0 :
  BlocktimeFixed.initial_nonces gtc accounts = Ok nc0 ->
  Forall (fun x => is_Some (nc0 !! address x)) accounts.
Proof.
  intros H. apply Forall_forall. intros x Hx.
  assert (address x ∈ map address accounts) as Hin.
  { change (map address accounts) with (address <$> accounts).
    by apply list_elem_of_fmap_2. }
  destruct (gtc (address x)) as [n|e] eqn:Hg.
  - exists n. apply (initial_nonces_fold gtc accounts ∅ nc0 H). by left.
  - destruct (initial_nonces_raises gtc accounts x e ∅ Hx Hg) as [e' He'].
    unfold BlocktimeFixed.initial_nonces in H. congruence.
Qed.

End ProgressHighPerf.

(** X14: the load phase of [stress_test_20k_tps.py] runs to its end
    whenever there is at least one account, the chain reports a nonce for
    every account, the batch interval can be computed, every iteration
    samples [min(100, len(self.accounts))] of the accounts, and the signer
    accepts the transactions.  With [m] that number of senders, it has then
    submitted [m * (2000 // m)] transactions in every iteration. *)
Theorem highperf_load_phase_returns :
  forall accounts get_transaction_count tx0 tps_target t0 rounds interval,
    accounts <> [] ->
    Forall (fun acc => exists n, get_transaction_count (address acc) = Ok n)
           accounts ->
    int_truediv 2000 tps_target = Ok interval ->
    Forall (fun r => valid_sample accounts (Z.min 100 (len accounts))
                                  (sample r)
                     /\ signer_accepts r) rounds ->
    let m := Z.min 100 (len accounts) in
    exists st,
      HighPerf.stress_test_transactions_optimized
        accounts get_transaction_count tx0 tps_target t0 rounds = Ok st /\
      submitted (trace st) = len rounds * (m * (2000 / m)).
Proof.
  intros accounts gtc tx0 tps t0 rounds interval Hne Hgtc Hint Hrounds m.
  unfold HighPerf.stress_test_transactions_optimized.
  destruct (initial_nonces_returns gtc accounts ∅ Hgtc) as [nc0 Hnc].
  unfold BlocktimeFixed.initial_nonces. rewrite Hnc. cbn.
  rewrite Hint. cbn.
  assert (0 < m) as Hm.
  { subst m. unfold len. destruct accounts; [done|]. cbn [length]. lia. }
  unfold int_floordiv. fold m.
  destruct (Z.eqb_spec m 0); [lia|]. cbn.
  edestruct (highperf_rounds_return accounts interval (2000 / m) rounds)
    as (st & Hst & Hsub); [|exact Hrounds|].
  2: { exists st. split; [exact Hst|]. rewrite Hsub. cbn [trace submitted].
       fold m. lia. }
  exact (initial_nonces_all gtc accounts nc0 Hnc).
Qed.

(** X14, witness: two iterations over the two accounts, 1000 transactions
    an account in each. *)
Lemma highperf_load_phase_returns_witness :
  [alice; bob] <> [] /\
  int_truediv 2000 20000 = Ok 0.1%float /\
  exists st,
    HighPerf.stress_test_transactions_optimized
      [alice; bob] pending_nonces (TxResults 0 0 0 0) 20000 10
      [slow_round; next_round] = Ok st /\
    submitted (trace st)
    = len [slow_round; next_round]
      * (Z.min 100 (len [alice; bob])
         * (2000 / Z.min 100 (len [alice; bob]))).
Proof.
  assert (Hne : [alice; bob] <> []) by discriminate.
  assert (Hg : Forall (fun acc => exists n, pending_nonces (address acc) = Ok n)
                      [alice; bob]).
  { apply Forall_cons; split; [by exists 7|].
    apply Forall_cons; split; [by exists 3|]. apply Forall_nil_2. }
  assert (Hd : int_truediv 2000 20000 = Ok 0.1%float)
    by (vm_compute; reflexivity).
  assert (Hr : Forall (fun r => valid_sample [alice; bob]
                                  (Z.min 100 (len [alice; bob])) (sample r)
                                /\ signer_accepts r)
                      [slow_round; next_round]).
  { apply Forall_cons; split; [|apply Forall_cons; split; [|apply Forall_nil_2]].
    - split; [split; [reflexivity|reflexivity]|].
      intros k tx key. cbn. destruct (Nat.even k); by eexists.
    - split; [split; [reflexivity|apply submseteq_swap]|].
      intros k tx key. by eexists. }
  split; [exact Hne|]. split; [exact Hd|].
  exact (highperf_load_phase_returns
           [alice; bob] pending_nonces (TxResults 0 0 0 0) 20000 10%float
           [slow_round; next_round] 0.1%float Hne Hg Hd Hr).
Defined.

(* ===================================================================== *)
(** * Reports *)
(* ===================================================================== *)

Section FloatLiterals.

(** The literals of the verdicts and of the performance lines, as
    binary64 numbers. *)
Lemma literal_10000 :
  Prim2SF (Z2float 10000) = S754_finite false 5497558138880000 (-39).
Proof. vm_compute. reflexivity. Qed.

Lemma literal_15000 :
  Prim2SF (Z2float 15000) = S754_finite false 8246337208320000 (-39).
Proof. vm_compute. reflexivity. Qed.

Lemma literal_18000 :
  Prim2SF (Z2float 18000) = S754_finite false 4947802324992000 (-38).
Proof. vm_compute. reflexivity. Qed.

Lemma literal_85 :
  Prim2SF (Z2float 85) = S754_finite false 5981343255101440 (-46).
Proof. vm_compute. reflexivity. Qed.

Lemma literal_100 :
  Prim2SF (Z2float 100) = S754_finite false 7036874417766400 (-46).
Proof. vm_compute. reflexivity. Qed.

Lemma literal_150 :
  Prim2SF (Z2float 150) = S754_finite false 5277655813324800 (-45).
Proof. vm_compute. reflexivity. Qed.

Lemma compare_cont_Eq_spec (p q : positive) :
  CompareSpec (Z.pos p = Z.pos q) (Z.pos p < Z.pos q) (Z.pos q < Z.pos p)
              (PosDef.Pos.compare_cont Eq p q).
Proof.
  change (PosDef.Pos.compare_cont Eq p q) with (Pos.compare p q).
  destruct (Pos.compare_spec p q) as [->|H|H]; constructor;
    [reflexivity|exact H|exact H].
Qed.

Ltac compare_cases :=
  repeat match goal with
         | |- context [(?a ?= ?b)%Z] => destruct (Z.compare_spec a b)
         | |- context [PosDef.Pos.compare_cont Eq ?a ?b] =>
             destruct (compare_cont_Eq_spec a b)
         end;
  intros; try done; try (exfalso; lia).

(** A throughput below 10000 is below 15000 and below 18000. *)
Lemma below_10000 f :
  (f <? Z2float 10000)%float = true ->
  (Z2float 15000 <=? f)%float = false /\ (Z2float 18000 <=? f)%float = false.
Proof.
  rewrite ltb_spec, !leb_spec, literal_10000, literal_15000, literal_18000.
  unfold SFltb, SFleb, SFcompare.
  destruct (Prim2SF f) as [s|s| |s m e]; try done.
  - by destruct s.
  - destruct s; [done|]. intros H. split; revert H; compare_cases.
Qed.

(** A sample of at most 85 ms is at most 100 ms, and one of at most
    100 ms at most 150 ms. *)
Lemma at_most_85 f :
  (f <=? Z2float 85)%float = true -> (f <=? Z2float 100)%float = true.
Proof.
  rewrite !leb_spec, literal_85, literal_100.
  unfold SFleb, SFcompare.
  destruct (Prim2SF f) as [s|s| |s m e]; try done.
  destruct s; [done|]. compare_cases.
Qed.

Lemma at_most_100 f :
  (f <=? Z2float 100)%float = true -> (f <=? Z2float 150)%float = true.
Proof.
  rewrite !leb_spec, literal_100, literal_150.
  unfold SFleb, SFcompare.
  destruct (Prim2SF f) as [s|s| |s m e]; try done.
  destruct s; [done|]. compare_cases.
Qed.

End FloatLiterals.

Section ReportFacts.
Context `{!Statistics}.

Lemma under_not_note data limit l : under data limit = Ok l -> is_note l = false.
Proof.
  unfold under, percent. destruct (int_truediv _ _); cbn; [|done].
  by intros [= <-].
Qed.

(** The note on low throughput is printed exactly when the throughput is
    below 10000. *)
Lemma highperf_analysis_note data tx D lines :
  data <> [] ->
  HighPerf.analysis data tx D = Ok lines ->
  exists actual_tps,
    int_truediv (sent tx) D = Ok actual_tps /\
    existsb is_note lines = lt_lit (PFloat actual_tps) 10000 /\
    (lt_lit (PFloat actual_tps) 10000 = true ->
     Verdict NotMaintained ∈ lines /\ LowThroughputNote actual_tps ∈ lines).
Proof.
  intros Hne Hrep. unfold HighPerf.analysis in Hrep.
  destruct data as [|x data]; [done|].
  do 3 run_call Hrep.
  destruct (under (x :: data) 85) as [l85|e] eqn:H85;
    [|cbn in Hrep; discriminate Hrep].
  destruct (under (x :: data) 100) as [l100|e] eqn:H100;
    [|cbn in Hrep; discriminate Hrep].
  cbn in Hrep. do 2 run_call Hrep. injection Hrep as <-.
  rename a2 into tps.
  exists tps. split; [done|].
  apply under_not_note in H85, H100.
  cbn [existsb is_note orb lt_lit]. rewrite H85, H100. cbn [orb].
  destruct (tps <? Z2float 10000)%float eqn:Hlow.
  - destruct (below_10000 tps Hlow) as [H15 H18].
    unfold HighPerf.verdict. cbn [ge_lit]. rewrite H15, H18, !andb_false_r.
    cbn. split; [done|]. intros _.
    rewrite !elem_of_cons. auto 20.
  - split; [|done]. by destruct (HighPerf.verdict a tps).
Qed.

(** With no time given to the load phase the throughput cannot be
    computed. *)
Lemma blocktime_analysis_zero_duration data tx lines :
  Blocktime.analysis data tx 0 = Ok lines -> data = [] /\ lines = [].
Proof.
  unfold Blocktime.analysis. destruct data as [|x data]; [by intros [= <-]|].
  intros Hrep. do 3 run_call Hrep.
  destruct (under (x :: data) 85) as [l85|e] eqn:H85;
    [|cbn in Hrep; discriminate Hrep].
  destruct (under (x :: data) 100) as [l100|e] eqn:H100;
    [|cbn in Hrep; discriminate Hrep].
  cbn in Hrep. discriminate Hrep.
Qed.

Lemma highperf_analysis_zero_duration data tx lines :
  HighPerf.analysis data tx 0 = Ok lines -> data = [] /\ lines = [].
Proof.
  unfold HighPerf.analysis. destruct data as [|x data]; [by intros [= <-]|].
  intros Hrep. do 3 run_call Hrep.
  destruct (under (x :: data) 85) as [l85|e] eqn:H85;
    [|cbn in Hrep; discriminate Hrep].
  destruct (under (x :: data) 100) as [l100|e] eqn:H100;
    [|cbn in Hrep; discriminate Hrep].
  cbn in Hrep. discriminate Hrep.
Qed.

End ReportFacts.

(** X15: in the report of [stress_test_20k_tps.py], the note on low
    throughput ("Could only achieve ... TPS") is printed exactly when the
    achieved throughput, ['sent'] divided by the stress duration, is below
    10000, although the code prints it only under the failing verdict: a
    throughput below 10000 fails both throughput tests of the verdict, so
    the verdict is then the failing one whatever the block times were. *)
Theorem low_throughput_note_below_10000 `{!Statistics} :
  forall data tx stress_duration lines,
    data <> [] ->
    HighPerf.analysis data tx stress_duration = Ok lines ->
    exists actual_tps,
      int_truediv (sent tx) stress_duration = Ok actual_tps /\
      existsb is_note lines = lt_lit (PFloat actual_tps) 10000 /\
      (lt_lit (PFloat actual_tps) 10000 = true ->
       Verdict NotMaintained ∈ lines /\ LowThroughputNote actual_tps ∈ lines).
Proof. apply highperf_analysis_note. Qed.

(** X15, witness: 150000 transactions in 30 s are 5000 a second. *)
Lemma low_throughput_note_below_10000_witness :
  [PFloat 90; PFloat 90] <> [] /\
  HighPerf.analysis (H := plain_statistics)
                    [PFloat 90; PFloat 90] (TxResults 150000 0 5 0) 30
  = Ok slow_report /\
  exists actual_tps,
    int_truediv (sent (TxResults 150000 0 5 0)) 30 = Ok actual_tps /\
    existsb is_note slow_report = lt_lit (PFloat actual_tps) 10000 /\
    (lt_lit (PFloat actual_tps) 10000 = true ->
     Verdict NotMaintained ∈ slow_report /\
     LowThroughputNote actual_tps ∈ slow_report).
Proof.
  assert (Hne : [PFloat 90; PFloat 90] <> []) by discriminate.
  assert (H : HighPerf.analysis (H := plain_statistics)
                [PFloat 90; PFloat 90] (TxResults 150000 0 5 0) 30
              = Ok slow_report) by (vm_compute; reflexivity).
  split; [exact Hne|]. split; [exact H|].
  exact (low_throughput_note_below_10000 (H := plain_statistics)
           [PFloat 90; PFloat 90] (TxResults 150000 0 5 0) 30 slow_report
           Hne H).
Defined.

(** X16: with a stress duration of 0, phase 3 of [run_full_test] (in
    [stress_test_blocktime.py] and in [stress_test_20k_tps.py]) returns a
    report only when there is no sample, and the report is then empty: as
    soon as one block was observed, the division of ['sent'] by the stress
    duration ends the analysis with an exception. *)
Theorem zero_stress_duration_gives_no_report `{!Statistics} :
  forall data tx lines,
    Blocktime.analysis data tx 0 = Ok lines \/
    HighPerf.analysis data tx 0 = Ok lines ->
    data = [] /\ lines = [].
Proof.
  intros data tx lines [Hrep|Hrep].
  - by eapply blocktime_analysis_zero_duration.
  - by eapply highperf_analysis_zero_duration.
Qed.

(** X16, witness: no sample, an empty report; one sample, the division by
    zero. *)
Lemma zero_stress_duration_gives_no_report_witness :
  Blocktime.analysis (H := plain_statistics) [] (TxResults 10 0 0 0) 0
  = Ok [] /\
  Blocktime.analysis (H := plain_statistics) [PInt 85] (TxResults 10 0 0 0) 0
  = Raise ZeroDivisionError /\
  (@nil num) = [] /\ (@nil line) = [].
Proof.
  assert (H : Blocktime.analysis (H := plain_statistics)
                [] (TxResults 10 0 0 0) 0 = Ok []) by reflexivity.
  split; [exact H|]. split; [vm_compute; reflexivity|].
  exact (zero_stress_duration_gives_no_report (H := plain_statistics)
           [] (TxResults 10 0 0 0) [] (or_introl H)).
Defined.

Section NestedCounts.

Lemma le_lit_85_100 x : le_lit x 85 = true -> le_lit x 100 = true.
Proof.
  destruct x as [z|f]; cbn [le_lit]; [|apply at_most_85].
  intros H%Z.leb_le. apply Z.leb_le. lia.
Qed.

Lemma le_lit_100_150 x : le_lit x 100 = true -> le_lit x 150 = true.
Proof.
  destruct x as [z|f]; cbn [le_lit]; [|apply at_most_100].
  intros H%Z.leb_le. apply Z.leb_le. lia.
Qed.

Lemma count_le_mono data j k :
  (forall x, le_lit x j = true -> le_lit x k = true) ->
  count_le data j <= count_le data k.
Proof.
  intros Hjk. unfold count_le, len.
  induction data as [|x data IH]; [done|].
  rewrite !filter_cons.
  destruct (decide (le_lit x j = true)) as [Hj|Hj].
  - rewrite decide_True by (by apply Hjk). cbn [length]. lia.
  - destruct (decide (le_lit x k = true)); cbn [length]; lia.
Qed.

Lemma count_le_bounds data k : 0 <= count_le data k <= len data.
Proof.
  unfold count_le, len. split; [lia|].
  apply inj_le, length_filter.
Qed.

End NestedCounts.

(** X17: the counts behind the performance lines of every report are
    nested: the blocks of at most 85 ms are among those of at most 100 ms,
    these among those of at most 150 ms, and none of the counts is
    negative or exceeds the number of samples, whether the samples are
    integers or floats. *)
Theorem performance_counts_are_nested :
  forall data,
    0 <= count_le data 85 /\
    count_le data 85 <= count_le data 100 /\
    count_le data 100 <= count_le data 150 /\
    count_le data 150 <= len data.
Proof.
  intros data. split; [apply count_le_bounds|].
  split; [apply count_le_mono, le_lit_85_100|].
  split; [apply count_le_mono, le_lit_100_150|apply count_le_bounds].
Qed.
(* ===================================================================== *)
(** * The RPC calls of [simple_blocktime_test.py] *)
(* ===================================================================== *)

Section RpcCalls.

Lemma make_rpc_call_counts self method params answer :
  let '(payload, doc, self') :=
    Simple.make_rpc_call self method params answer in
  Simple.rpc_id payload = Simple.request_count self /\
  Simple.rpc_method payload = method /\
  Simple.rpc_params payload = Simple.or_empty params /\
  Simple.request_count self' = Simple.request_count self + 1 /\
  Simple.error_count self'
  = Simple.error_count self
    + (if call_fails (method, params, answer) then 1 else 0) /\
  (call_fails (method, params, answer) = true -> doc = JNull).
Proof.
  unfold Simple.make_rpc_call, call_fails.
  destruct answer as [|[doc|e]]; cbn; repeat split; try done; lia.
Qed.

Lemma make_rpc_calls_counts calls : forall self payloads self',
  make_rpc_calls self calls = (payloads, self') ->
  map Simple.rpc_id payloads = seqZ (Simple.request_count self) (len calls) /\
  map Simple.rpc_method payloads = map (fun call => fst (fst call)) calls /\
  Simple.request_count self' = Simple.request_count self + len calls /\
  Simple.error_count self'
  = Simple.error_count self
    + len (filter (fun call => call_fails call = true) calls).
Proof.
  unfold len. induction calls as [|[[method params] answer] calls IH];
    intros self payloads self'; cbn [make_rpc_calls].
  - intros [= <- <-]. rewrite filter_nil. cbn. repeat split; try done; lia.
  - pose proof (make_rpc_call_counts self method params answer) as H1.
    destruct (Simple.make_rpc_call self method params answer)
      as [[payload doc] self1].
    destruct H1 as (Hid & Hm & _ & Hrc & Hec & _).
    destruct (make_rpc_calls self1 calls) as [payloads1 self2] eqn:Hrest.
    destruct (IH _ _ _ Hrest) as (G1 & G2 & G3 & G4).
    intros [= <- <-]. cbn [map length].
    rewrite Nat2Z.inj_succ, seqZ_cons by lia.
    rewrite G1, G2, G3, G4, Hid, Hm, Hrc, Hec, filter_cons.
    replace (Z.pred (Z.succ (Z.of_nat (length calls))))
      with (Z.of_nat (length calls)) by lia.
    replace (Z.succ (Simple.request_count self))
      with (Simple.request_count self + 1) by lia.
    split; [done|]. split; [done|]. split; [lia|].
    destruct (call_fails (method, params, answer)) eqn:Hf.
    + rewrite decide_True by done. cbn [length]. lia.
    + rewrite decide_False by done. lia.
Qed.

Lemma methods_index k :
  0 <= k < 6 -> exists task, index Simple.methods k = Ok task /\ task ∈ Simple.methods.
Proof.
  intros Hk.
  assert (k = 0 \/ k = 1 \/ k = 2 \/ k = 3 \/ k = 4 \/ k = 5)
    as [->|[->|[->|[->|[->| ->]]]]] by lia;
    (eexists; split; [reflexivity|]);
    unfold Simple.methods; rewrite !elem_of_cons; auto 10.
Qed.

End RpcCalls.



Section Bursts.

Lemma burst_tasks_repeat self :
  exists task,
    index Simple.methods (Simple.request_count self `mod` 6) = Ok task /\
    task ∈ Simple.methods /\
    Simple.burst_tasks self = Ok (repeat task 10).
Proof.
  destruct (methods_index (Simple.request_count self `mod` 6))
    as (task & Hidx & Hin); [apply Z.mod_pos_bound; lia|].
  exists task. split; [exact Hidx|]. split; [exact Hin|].
  unfold Simple.burst_tasks.
  change (len Simple.methods) with 6. cbn [seq mapM]. rewrite Hidx.
  reflexivity.
Qed.

End Bursts.

(** X19: the ten requests of a burst of [generate_read_load] all call the
    same method with the same parameters: the method is picked by
    [request_count] modulo 6 when each coroutine is created, and
    [request_count] does not move before a coroutine runs.  When the ten
    coroutines then run one after the other, from counters [started], their
    requests carry ten consecutive ids and [request_count] goes up by
    ten. *)
Theorem burst_repeats_one_method :
  forall self started answers payloads self',
    length answers = 10%nat ->
    (tasks ← Simple.burst_tasks self;
     Ok (make_rpc_calls started (burst_calls tasks answers)))
    = Ok (payloads, self') ->
    exists task,
      index Simple.methods (Simple.request_count self `mod` 6) = Ok task /\
      task ∈ Simple.methods /\
      Simple.burst_tasks self = Ok (repeat task 10) /\
      map Simple.rpc_method payloads = repeat (fst task) 10 /\
      map Simple.rpc_id payloads = seqZ (Simple.request_count started) 10 /\
      Simple.request_count self' = Simple.request_count started + 10.
Proof.
  intros self started answers payloads self' Hlen.
  destruct (burst_tasks_repeat self) as (task & Hidx & Hin & Hburst).
  rewrite Hburst. cbn [mbind result_bind Py.bind]. intros Hok.
  assert (make_rpc_calls started (burst_calls (repeat task 10) answers)
          = (payloads, self')) as Hcalls by congruence.
  clear Hok.
  exists task. split; [exact Hidx|]. split; [exact Hin|]. split; [done|].
  destruct (make_rpc_calls_counts _ _ _ _ Hcalls) as (H1 & H2 & H3 & _).
  assert (len (burst_calls (repeat task 10) answers) = 10) as Hten.
  { unfold len, burst_calls. rewrite length_zip_with, repeat_length, Hlen.
    reflexivity. }
  rewrite Hten in H1, H3. split; [|done].
  rewrite H2. unfold burst_calls. clear -Hlen.
  do 11 (destruct answers as [|? answers]; try discriminate Hlen).
  reflexivity.
Qed.

(** X19, witness: created at [request_count = 3], the ten requests are
    ["eth_chainId"]; started at 6, they carry the ids 6 to 15. *)
Lemma burst_repeats_one_method_witness :
  length burst_answers = 10%nat /\
  exists payloads self',
    (tasks ← Simple.burst_tasks three_calls_made;
     Ok (make_rpc_calls {| Simple.request_count := 6;
                           Simple.error_count := 3 |}
                        (burst_calls tasks burst_answers)))
    = Ok (payloads, self') /\
    map Simple.rpc_method payloads = repeat "eth_chainId"%string 10 /\
    Simple.error_count self' = 7 /\
    map Simple.rpc_id payloads = seqZ 6 10.
Proof.
  assert (Hlen : length burst_answers = 10%nat) by reflexivity.
  split; [exact Hlen|]. eexists _, _.
  split; [vm_compute; reflexivity|]. split; [reflexivity|].
  split; [reflexivity|].
  destruct (burst_repeats_one_method
              three_calls_made
              {| Simple.request_count := 6; Simple.error_count := 3 |}
              burst_answers _ _ Hlen eq_refl)
    as (task & _ & _ & _ & _ & Hid & _).
  exact Hid.
Defined.

Section FeedbackLine.
Context `{!Statistics}.

Lemma mean_some_data (data : list num) e :
  data <> [] -> mean data = Raise e ->
  e <> StatisticsError /\ e <> ZeroDivisionError.
Proof.
  intros Hne Hm. split; intros ->.
  - by apply mean_StatisticsError in Hm.
  - by apply mean_ZeroDivisionError in Hm.
Qed.

Lemma status_block_sample last_timestamp current_timestamp :
  Simple.status (Simple.block_sample last_timestamp current_timestamp)
  = if current_timestamp <=? last_timestamp then Simple.FAST
    else Simple.VERY_SLOW.
Proof.
  rewrite (status_coarse _ (simple_block_sample_coarse _ _)).
  unfold Simple.block_sample.
  destruct (Z.eqb_spec ((current_timestamp - last_timestamp) * 1000) 0),
           (Z.leb_spec current_timestamp last_timestamp);
    try done; try lia.
  - destruct (Z.leb_spec ((current_timestamp - last_timestamp) * 1000) 85);
      [done|lia].
  - destruct (Z.leb_spec ((current_timestamp - last_timestamp) * 1000) 85);
      [lia|done].
Qed.

End FeedbackLine.

(** X20: the line that [simple_blocktime_test.py] prints for a new block
    is computed after the sample was appended, so neither running average
    is ever taken of an empty list: computing the line never raises
    [StatisticsError] and never divides by zero.  The status it shows
    depends only on whether the chain's timestamp moved forward: VERY SLOW
    when the new block's timestamp is later than the recorded one, FAST
    otherwise. *)
Theorem block_line_has_data `{!Statistics} :
  forall block_times current_block_number last_timestamp current_timestamp,
    let block_time_ms :=
      Simple.block_sample last_timestamp current_timestamp in
    let appended := block_times ++ [block_time_ms] in
    (forall e,
       Simple.block_feedback appended current_block_number block_time_ms
       = Raise e ->
       e <> StatisticsError /\ e <> ZeroDivisionError) /\
    (forall row,
       Simple.block_feedback appended current_block_number block_time_ms
       = Ok row ->
       Simple.row_block row = current_block_number /\
       Simple.row_time row = block_time_ms /\
       Simple.row_status row
       = if current_timestamp <=? last_timestamp then Simple.FAST
         else Simple.VERY_SLOW).
Proof.
  intros bt n last cur s appended.
  assert (Hne : map PInt appended <> []).
  { subst appended. rewrite map_app. by destruct (map PInt bt). }
  assert (Hne10 : (10 <=? len appended) = true ->
                  map PInt (drop (length appended - 10) appended) <> []).
  { intros Hlen%Z.leb_le Hnil. apply (f_equal length) in Hnil.
    rewrite length_map, length_drop in Hnil. unfold len in Hlen.
    cbn in Hnil. lia. }
  unfold Simple.block_feedback. split.
  - intros e.
    destruct (10 <=? len appended) eqn:Hlen.
    + destruct (mean (map PInt (drop _ _))) as [avg10|e1] eqn:H10; cbn.
      * destruct (mean (map PInt appended)) as [avg|e2] eqn:Hall; cbn; [done|].
        intros [= <-]. by eapply mean_some_data.
      * intros [= <-]. eapply mean_some_data; [|exact H10]. by apply Hne10.
    + destruct (mean (map PInt appended)) as [avg|e2] eqn:Hall; cbn.
      * done.
      * intros [= <-]. by eapply mean_some_data.
  - intros row Hrow.
    assert (exists a b, row = {| Simple.row_block := n; Simple.row_time := s;
                                 Simple.row_avg_10 := a;
                                 Simple.row_avg_all := b;
                                 Simple.row_status := Simple.status s |})
      as (a & b & ->).
    { destruct (10 <=? len appended).
      - destruct (mean (map PInt (drop _ _))) as [avg10|]; cbn in Hrow; [|done].
        destruct (mean (map PInt appended)) as [avg|]; cbn in Hrow; [|done].
        injection Hrow as <-. by eexists _, _.
      - destruct (mean (map PInt appended)) as [avg|]; cbn in Hrow; [|done].
        injection Hrow as <-. by eexists _, _. }
    cbn. split; [done|]. split; [done|]. subst s. apply status_block_sample.
Qed.

(** X20, witness: the second block of a run, one second after the
    first. *)
Lemma block_line_has_data_witness :
  Simple.block_feedback (H := plain_statistics)
    ([85] ++ [Simple.block_sample 1700000000 1700000001]) 102
    (Simple.block_sample 1700000000 1700000001)
  = Ok {| Simple.row_block := 102; Simple.row_time := 1000;
          Simple.row_avg_10 := PFloat 542.5;
          Simple.row_avg_all := PFloat 542.5;
          Simple.row_status := Simple.VERY_SLOW |} /\
  Simple.row_status {| Simple.row_block := 102; Simple.row_time := 1000;
                       Simple.row_avg_10 := PFloat 542.5;
                       Simple.row_avg_all := PFloat 542.5;
                       Simple.row_status := Simple.VERY_SLOW |}
  = if 1700000001 <=? 1700000000 then Simple.FAST else Simple.VERY_SLOW.
Proof.
  assert (H : Simple.block_feedback (H := plain_statistics)
                ([85] ++ [Simple.block_sample 1700000000 1700000001]) 102
                (Simple.block_sample 1700000000 1700000001)
              = Ok {| Simple.row_block := 102; Simple.row_time := 1000;
                      Simple.row_avg_10 := PFloat 542.5;
                      Simple.row_avg_all := PFloat 542.5;
                      Simple.row_status := Simple.VERY_SLOW |})
    by (vm_compute; reflexivity).
  split; [exact H|].
  exact (proj2 (proj2 (proj2 (block_line_has_data (H := plain_statistics)
                                [85] 102 1700000000 1700000001) _ H))).
Defined.
